(** * ollama-proxy: the request interception and decision pipeline

  A shallow embedding of [main.go] and [types.go] of the proxy: the
  handler, the validation gateway, the reverse-proxy director, the
  response-capturing writer and the start-up health check, with the
  properties of the specification proved over them.

  Go strings and byte slices are [string] (sequences of bytes), Go [int]
  is [Z], maps are [gmap].  The standard library the program calls
  (net/http, encoding/json, time, os) is modelled only as far as the
  program observes it; everything the outside world decides (what a
  server answers, what the clock shows) is read from an explicit world
  state through oracles. *)

From Stdlib Require Import ZArith NArith Ascii String List Bool Lia DecimalString.
From stdpp Require Import base option strings list gmap.

Local Open Scope Z_scope.
Local Set Warnings "-register-all".

(** ** Strings: the part of package [strings] the program uses *)

Module Strings.

Definition len (s : string) : nat := String.length s.

(** [s[i:j]] for [i <= j <= len s]. *)
Definition slice (s : string) (i j : nat) : string :=
  String.substring i (j - i) s.

(** [s[i:]] *)
Definition from (s : string) (i : nat) : string := slice s i (len s).

(** strings.HasPrefix:
      [len(s) >= len(prefix) && s[:len(prefix)] == prefix] *)
Definition HasPrefix (s prefix : string) : bool :=
  (len prefix <=? len s)%nat && String.eqb (slice s 0 (len prefix)) prefix.

(** strings.HasSuffix:
      [len(s) >= len(suffix) && s[len(s)-len(suffix):] == suffix] *)
Definition HasSuffix (s suffix : string) : bool :=
  (len suffix <=? len s)%nat
  && String.eqb (from s (len s - len suffix)) suffix.



End Strings.

Import Strings.

(** ** URLs and the reverse-proxy director *)

Module url.
Record URL := mk {
  Scheme : string;
  Host : string;
  Path : string;
  RawQuery : string
}.
End url.

Definition singleJoiningSlash (a b : string) : string :=
  let aslash := HasSuffix a "/" in
  let bslash := HasPrefix b "/" in
  if aslash && bslash then a +:+ from b 1
  else if negb aslash && negb bslash then a +:+ "/" +:+ b
  else a +:+ b.

(** The [Director] closure installed by [getReverseProxy]: it rewrites the
    URL of the outgoing request in place. *)
Definition Director (targetURL : url.URL) (reqURL : url.URL) : url.URL :=
  {| url.Scheme := url.Scheme targetURL;
     url.Host := url.Host targetURL;
     url.Path := singleJoiningSlash (url.Path targetURL) (url.Path reqURL);
     url.RawQuery :=
       if String.eqb (url.RawQuery targetURL) ""
          || String.eqb (url.RawQuery reqURL) ""
       then url.RawQuery targetURL +:+ url.RawQuery reqURL
       else url.RawQuery targetURL +:+ "&" +:+ url.RawQuery reqURL |}.

(** ** JSON: the part of package [encoding/json] the program observes

    Documents are parsed into a syntax tree and then checked against the Go
    type they are decoded into, as [json.Unmarshal] does: a member that does
    not fit the type of the field it names makes the whole call fail,
    unknown members are skipped, [null] leaves a field as it is.  Bytes
    above 127 inside string literals are kept as they are (the decoder's
    replacement of ill-formed UTF-8 is not modelled), and member names are
    matched to field names up to ASCII case. *)

Module JSON.

Inductive value : Type :=
| Null
| Bool (b : bool)
| Number (lit : string)
| Str (s : string)
| Array (l : list value)
| Object (m : list (string * value)).

Definition dquote : ascii := "034"%char.
Definition backslash : ascii := "092"%char.

Definition isSpace (c : ascii) : bool :=
  match c with
  | " " | "009" | "010" | "013" => true
  | _ => false
  end%char.

Fixpoint skipws (s : string) : string :=
  match s with
  | String c r => if isSpace c then skipws r else s
  | EmptyString => s
  end.

Definition isDigit (c : ascii) : bool :=
  let n := N_of_ascii c in ((48 <=? n) && (n <=? 57))%N.

Definition hexval (c : ascii) : option N :=
  let n := N_of_ascii c in
  if ((48 <=? n) && (n <=? 57))%N then Some (n - 48)%N
  else if ((97 <=? n) && (n <=? 102))%N then Some (n - 87)%N
  else if ((65 <=? n) && (n <=? 70))%N then Some (n - 55)%N
  else None.

(** The four hex digits of a [\u] escape. *)
Definition getu4 (h1 h2 h3 h4 : ascii) : option N :=
  match hexval h1, hexval h2, hexval h3, hexval h4 with
  | Some a, Some b, Some c, Some d => Some (((a * 16 + b) * 16 + c) * 16 + d)%N
  | _, _, _, _ => None
  end.

Definition byte (n : N) : ascii := ascii_of_N n.

(** utf8.EncodeRune *)
Definition EncodeRune (r : N) : string :=
  if (r <? 128)%N then String (byte r) ""
  else if (r <? 2048)%N then
    String (byte (192 + r / 64)) (String (byte (128 + r mod 64)) "")
  else if (r <? 65536)%N then
    String (byte (224 + r / 4096))
      (String (byte (128 + (r / 64) mod 64)) (String (byte (128 + r mod 64)) ""))
  else
    String (byte (240 + r / 262144))
      (String (byte (128 + (r / 4096) mod 64))
         (String (byte (128 + (r / 64) mod 64))
            (String (byte (128 + r mod 64)) ""))).

Definition ReplacementChar : N := 65533.

Definition IsSurrogate (r : N) : bool := ((55296 <=? r) && (r <? 57344))%N.

(** utf16.DecodeRune *)
Definition DecodeRune (r1 r2 : N) : N :=
  if ((55296 <=? r1) && (r1 <? 56320) && (56320 <=? r2) && (r2 <? 57344))%N
  then ((r1 - 55296) * 1024 + (r2 - 56320) + 65536)%N
  else ReplacementChar.

Definition simple_escape (e : ascii) : option ascii :=
  if Ascii.eqb e dquote then Some dquote
  else if Ascii.eqb e backslash then Some backslash
  else match e with
       | "/" => Some "/"
       | "b" => Some "008"
       | "f" => Some "012"
       | "n" => Some "010"
       | "r" => Some "013"
       | "t" => Some "009"
       | _ => None
       end%char.

Definition prepend (pre : string) (res : option (string * string))
  : option (string * string) :=
  match res with
  | Some (s, rest) => Some (pre +:+ s, rest)
  | None => None
  end.

(** The text of a string literal after its opening quote: the decoded
    string and what follows the closing quote. *)
Fixpoint unquote (s : string) : option (string * string) :=
  match s with
  | EmptyString => None
  | String c r =>
    if Ascii.eqb c dquote then Some ("", r)
    else if Ascii.eqb c backslash then
      match r with
      | EmptyString => None
      | String e r1 =>
        match simple_escape e with
        | Some x => prepend (String x "") (unquote r1)
        | None =>
          if Ascii.eqb e "u" then
            match r1 with
            | String h1 (String h2 (String h3 (String h4 r2))) =>
              match getu4 h1 h2 h3 h4 with
              | None => None
              | Some rr =>
                if IsSurrogate rr then
                  match r2 with
                  | String b (String u
                      (String g1 (String g2 (String g3 (String g4 r3))))) =>
                    match (if Ascii.eqb b backslash && Ascii.eqb u "u"
                           then getu4 g1 g2 g3 g4 else None) with
                    | Some rr1 =>
                      if (DecodeRune rr rr1 =? ReplacementChar)%N
                      then prepend (EncodeRune ReplacementChar) (unquote r2)
                      else prepend (EncodeRune (DecodeRune rr rr1)) (unquote r3)
                    | None => prepend (EncodeRune ReplacementChar) (unquote r2)
                    end
                  | _ => prepend (EncodeRune ReplacementChar) (unquote r2)
                  end
                else prepend (EncodeRune rr) (unquote r2)
              end
            | _ => None
            end
          else None
        end
      end
    else if (N_of_ascii c <? 32)%N then None
    else prepend (String c "") (unquote r)
  end.

(** The longest run of digits at the head of a string. *)
Fixpoint digits (s : string) : string * string :=
  match s with
  | String c r =>
    if isDigit c then let '(ds, rest) := digits r in (String c ds, rest)
    else ("", s)
  | EmptyString => ("", s)
  end.

(** The rest of a string that starts with the byte [c]. *)
Definition starts_with (c : ascii) (s : string) : option string :=
  match s with
  | String c' r => if Ascii.eqb c' c then Some r else None
  | EmptyString => None
  end.

(** A number literal: an optional minus sign, an integer part without
    leading zeros, an optional fraction, an optional exponent. *)
Definition number (s : string) : option (string * string) :=
  let '(sign, s1) :=
    match starts_with "-" s with Some r => ("-", r) | None => ("", s) end in
  match s1 with
  | String c r1 =>
    if isDigit c then
      let '(ip, r2) :=
        if Ascii.eqb c "0" then ("0", r1)
        else let '(ds, r) := digits r1 in (String c ds, r) in
      let frac :=
        match starts_with "." r2 with
        | Some r3 =>
          let '(fs, r4) := digits r3 in
          if String.eqb fs "" then None else Some ("." +:+ fs, r4)
        | None => Some ("", r2)
        end in
      match frac with
      | None => None
      | Some (fp, r5) =>
        match r5 with
        | String e r6 =>
          if Ascii.eqb e "e" || Ascii.eqb e "E" then
            let '(es, r7) :=
              match starts_with "+" r6 with
              | Some r => ("+", r)
              | None =>
                match starts_with "-" r6 with
                | Some r => ("-", r)
                | None => ("", r6)
                end
              end in
            let '(ds, r8) := digits r7 in
            if String.eqb ds "" then None
            else Some (sign +:+ ip +:+ fp +:+ String e es +:+ ds, r8)
          else Some (sign +:+ ip +:+ fp, r5)
        | EmptyString => Some (sign +:+ ip +:+ fp, r5)
        end
      end
    else None
  | EmptyString => None
  end.

(** One of the literals [true], [false], [null] at the head of the input. *)
Definition literal (lit : string) (v : value) (s : string)
  : option (value * string) :=
  if HasPrefix s lit then Some (v, from s (len lit)) else None.

(** One step of the parser of values, given the parsers of the elements
    of an array and of the members of an object: the JSON value at the head
    of the input, and the rest of the input. *)
Definition value_step
  (elements : string -> list value -> option (value * string))
  (members : string -> list (string * value) -> option (value * string))
  (s : string) : option (value * string) :=
  match skipws s with
  | EmptyString => None
  | String c r =>
    if Ascii.eqb c "{" then
      match starts_with "}" (skipws r) with
      | Some r' => Some (Object [], r')
      | None => members r []
      end
    else if Ascii.eqb c "[" then
      match starts_with "]" (skipws r) with
      | Some r' => Some (Array [], r')
      | None => elements r []
      end
    else if Ascii.eqb c dquote then
      match unquote r with
      | Some (str, r') => Some (Str str, r')
      | None => None
      end
    else if Ascii.eqb c "t" then literal "true" (Bool true) (String c r)
    else if Ascii.eqb c "f" then literal "false" (Bool false) (String c r)
    else if Ascii.eqb c "n" then literal "null" Null (String c r)
    else
      match number (String c r) with
      | Some (lit, r') => Some (Number lit, r')
      | None => None
      end
  end.

(** The elements of an array after its opening bracket, up to and
    including the closing bracket; [acc] holds the elements read so far,
    last first. *)
Definition elements_step
  (value_ : string -> option (value * string))
  (elements : string -> list value -> option (value * string))
  (s : string) (acc : list value) : option (value * string) :=
  match value_ s with
  | Some (v, r) =>
    match skipws r with
    | String c r' =>
      if Ascii.eqb c "," then elements r' (v :: acc)
      else if Ascii.eqb c "]" then Some (Array (rev (v :: acc)), r')
      else None
    | EmptyString => None
    end
  | None => None
  end.

(** The members of an object after its opening brace, up to and including
    the closing brace. *)
Definition members_step
  (value_ : string -> option (value * string))
  (members : string -> list (string * value) -> option (value * string))
  (s : string) (acc : list (string * value)) : option (value * string) :=
  match starts_with dquote (skipws s) with
  | Some r =>
    match unquote r with
    | Some (k, r1) =>
      match starts_with ":" (skipws r1) with
      | Some r2 =>
        match value_ r2 with
        | Some (v, r3) =>
          match skipws r3 with
          | String c r4 =>
            if Ascii.eqb c "," then members r4 ((k, v) :: acc)
            else if Ascii.eqb c "}" then Some (Object (rev ((k, v) :: acc)), r4)
            else None
          | EmptyString => None
          end
        | None => None
        end
      | None => None
      end
    | None => None
    end
  | None => None
  end.

(** The parser: the three steps tied together.  The fuel bounds the depth
    of the calls; [2 * len s + 4] is enough for an input of length
    [len s]. *)
Fixpoint parse_value (fuel : nat) (s : string) : option (value * string) :=
  match fuel with
  | O => None
  | S fuel => value_step (parse_elements fuel) (parse_members fuel) s
  end
with parse_elements (fuel : nat) (s : string) (acc : list value)
  : option (value * string) :=
  match fuel with
  | O => None
  | S fuel => elements_step (parse_value fuel) (parse_elements fuel) s acc
  end
with parse_members (fuel : nat) (s : string) (acc : list (string * value))
  : option (value * string) :=
  match fuel with
  | O => None
  | S fuel => members_step (parse_value fuel) (parse_members fuel) s acc
  end.

Definition parse (s : string) : option (value * string) :=
  parse_value (2 * len s + 4) s.

(** [json.Valid] as [Unmarshal] uses it: one value, then only white space. *)
Definition parse_document (s : string) : option value :=
  match parse s with
  | Some (v, rest) => if String.eqb (skipws rest) "" then Some v else None
  | None => None
  end.

(** What a [json.Decoder] reads from a stream: the first value; what
    follows it is left unread. *)
Definition parse_first (s : string) : option value :=
  match parse s with
  | Some (v, _) => Some v
  | None => None
  end.

End JSON.

(** *** Decoding into Go types *)

Module Decode.

Import JSON.

(** The Go types the program decodes into.  [TInt] is [int] and [int64]
    (the program runs on 64-bit platforms), [TMap] is a map with string
    keys, [TInterface] is [interface{}]. *)
Inductive type : Type :=
| TString
| TBool
| TInt
| TFloat32
| TInterface
| TSlice (elem : type)
| TMap (elem : type)
| TStruct (fields : list (string * type)).

Definition digit_value (c : ascii) : Z := Z.of_N (N_of_ascii c) - 48.

Definition digits_value (ds : string) : Z :=
  fold_left (fun acc c => acc * 10 + digit_value c) (list_ascii_of_string ds) 0.

Definition all_digits (s : string) : bool :=
  negb (String.eqb s "") && forallb isDigit (list_ascii_of_string s).

(** strconv.ParseInt(lit, 10, 64) on a JSON number literal. *)
Definition int_of_literal (lit : string) : option Z :=
  let '(neg, ds) :=
    match lit with String "-" r => (true, r) | _ => (false, lit) end in
  if all_digits ds then
    let n := if neg then - digits_value ds else digits_value ds in
    if (- 2 ^ 63 <=? n) && (n <=? 2 ^ 63 - 1) then Some n else None
  else None.

(** A number literal as mantissa and power of ten: its absolute value is
    [m * 10 ^ k]; [nd] is the number of mantissa digits. *)
Definition decimal_of_literal (lit : string) : Z * Z * Z :=
  let s0 := match lit with String "-" r => r | _ => lit end in
  let '(ip, r1) := digits s0 in
  let '(fp, r2) :=
    match r1 with String "." r => digits r | _ => ("", r1) end in
  let e :=
    match r2 with
    | String _ (String "-" r) => - digits_value (fst (digits r))
    | String _ (String "+" r) => digits_value (fst (digits r))
    | String _ r => digits_value (fst (digits r))
    | EmptyString => 0
    end in
  (digits_value (ip +:+ fp), e - Z.of_nat (len fp), Z.of_nat (len (ip +:+ fp))).

(** Whether strconv.ParseFloat reports a range error: the literal rounds to
    infinity, that is, its absolute value reaches the midpoint between the
    largest finite number and the next power of two. *)
Definition float_overflows (mant_bits max_exp : Z) (lit : string) : bool :=
  let '(m, k, nd) := decimal_of_literal lit in
  let limit := 2 ^ (max_exp + 1) - 2 ^ (max_exp - mant_bits - 1) in
  if m =? 0 then false
  else if 0 <=? k then (400 <? k) || (limit <=? m * 10 ^ k)
  else if nd <=? - k then false
  else limit * 10 ^ (- k) <=? m.

Definition fits_float32 (lit : string) : bool := negb (float_overflows 23 127 lit).
Definition fits_float64 (lit : string) : bool := negb (float_overflows 52 1023 lit).

Definition fold_ascii (c : ascii) : ascii :=
  let n := N_of_ascii c in
  if ((97 <=? n) && (n <=? 122))%N then ascii_of_N (n - 32) else c.

Fixpoint fold_name (s : string) : string :=
  match s with
  | String c r => String (fold_ascii c) (fold_name r)
  | EmptyString => EmptyString
  end.

(** The struct field a member name selects: the field of that exact name,
    else the first field equal to it up to case. *)
Definition find_field (fields : list (string * type)) (key : string)
  : option (string * type) :=
  match find (fun f => String.eqb (fst f) key) fields with
  | Some f => Some f
  | None =>
    find (fun f => String.eqb (fold_name (fst f)) (fold_name key)) fields
  end.

(** Whether decoding [v] into a variable of type [t] reports no error. *)
Fixpoint conforms (v : value) (t : type) {struct v} : bool :=
  match v with
  | Null => true
  | Bool _ => match t with TBool | TInterface => true | _ => false end
  | Number lit =>
    match t with
    | TInt => match int_of_literal lit with Some _ => true | None => false end
    | TFloat32 => fits_float32 lit
    | TInterface => fits_float64 lit
    | _ => false
    end
  | Str _ => match t with TString | TInterface => true | _ => false end
  | Array l =>
    match t with
    | TSlice e => forallb (fun x => conforms x e) l
    | TInterface => forallb (fun x => conforms x TInterface) l
    | _ => false
    end
  | Object m =>
    match t with
    | TStruct fields =>
      forallb (fun '(k, x) =>
                 match find_field fields k with
                 | Some (_, ft) => conforms x ft
                 | None => true
                 end) m
    | TMap e => forallb (fun '(_, x) => conforms x e) m
    | TInterface => forallb (fun '(_, x) => conforms x TInterface) m
    | _ => false
    end
  end.

(** json.Unmarshal(data, &x) for [x] of type [t]: the document, when the
    call returns no error. *)
Definition Unmarshal (t : type) (data : string) : option value :=
  match parse_document data with
  | Some v => if conforms v t then Some v else None
  | None => None
  end.

(** json.NewDecoder(body).Decode(&x) *)
Definition Decode (t : type) (body : string) : option value :=
  match parse_first body with
  | Some v => if conforms v t then Some v else None
  | None => None
  end.

(** The value a scalar field of a zero-initialised struct holds after
    decoding: that of the last member naming it that is not [null]. *)
Definition field_value (fields : list (string * type)) (name : string)
  (doc : value) : option value :=
  match doc with
  | Object m =>
    fold_left
      (fun acc '(k, x) =>
         match find_field fields k with
         | Some (n, _) =>
           if String.eqb n name
           then match x with Null => acc | _ => Some x end
           else acc
         | None => acc
         end) m None
  | _ => None
  end.

Definition string_field fields name doc : string :=
  match field_value fields name doc with Some (Str s) => s | _ => "" end.

Definition int_field fields name doc : Z :=
  match field_value fields name doc with
  | Some (Number lit) => default 0 (int_of_literal lit)
  | _ => 0
  end.

Definition bool_field fields name doc : bool :=
  match field_value fields name doc with Some (Bool b) => b | _ => false end.

End Decode.

(** ** Data model ([types.go])

    Each struct is a module holding its record, the Go type it is decoded
    into or encoded from, and its decoder or encoder.  Of the inference
    request and response shapes the record keeps the fields the pipeline
    reads; the remaining fields are in the Go type, where they decide
    whether a document decodes. *)

Import JSON Decode.

(** strconv.Itoa *)
Definition itoa (n : Z) : string := NilZero.string_of_int (Z.to_int n).

Fixpoint insert_sorted (e : string * string) (l : list (string * string))
  : list (string * string) :=
  match l with
  | [] => [e]
  | x :: r => if String.leb (fst e) (fst x) then e :: l else x :: insert_sorted e r
  end.

(** The entries of a map in increasing key order, as the encoder emits
    them. *)
Definition sorted_entries (m : gmap string string) : list (string * string) :=
  fold_right insert_sorted [] (map_to_list m).

Definition ChatMessage_type : type :=
  TStruct [("role", TString); ("content", TString); ("images", TSlice TString);
           ("tool_calls",
            TSlice (TStruct [("function",
                              TStruct [("name", TString);
                                       ("arguments", TInterface)])]))].

Module RequestDetails.
Record t := mk {
  APIKey : string;
  IPAddress : string;
  UserAgent : string;
  Headers : gmap string string;
  Model : string;
  InputTokenLength : Z;
  Endpoint : string
}.

(** json.Marshal: the fields in declaration order under their tag names.
    Nothing in this struct can make the encoder fail. *)
Definition Marshal (d : t) : string + value :=
  inr (Object [("apiKey", Str (APIKey d));
               ("ipAddress", Str (IPAddress d));
               ("userAgent", Str (UserAgent d));
               ("headers",
                Object (map (fun '(k, v) => (k, Str v))
                          (sorted_entries (Headers d))));
               ("model", Str (Model d));
               ("inputTokenLength", Number (itoa (InputTokenLength d)));
               ("endpoint", Str (Endpoint d))]).
End RequestDetails.

Module ValidationResponse.
Record t := mk {
  Valid : bool;
  RateLimited : bool
}.

Definition fields : list (string * type) :=
  [("valid", TBool); ("rateLimited", TBool)].

Definition of_value (doc : value) : t :=
  {| Valid := bool_field fields "valid" doc;
     RateLimited := bool_field fields "rateLimited" doc |}.

Definition Decode (body : string) : option t :=
  of_value <$> Decode.Decode (TStruct fields) body.
End ValidationResponse.

Module MetricsData.
Record t := mk {
  APIKey : string;
  Model : string;
  InputTokenLength : Z;
  OutputTokenLength : Z;
  RequestDurationMs : Z;
  Endpoint : string
}.

Definition Marshal (m : t) : string + value :=
  inr (Object [("apiKey", Str (APIKey m));
               ("model", Str (Model m));
               ("inputTokenLength", Number (itoa (InputTokenLength m)));
               ("outputTokenLength", Number (itoa (OutputTokenLength m)));
               ("requestDurationMs", Number (itoa (RequestDurationMs m)));
               ("endpoint", Str (Endpoint m))]).
End MetricsData.

Module ChatRequest.
Record t := mk { Model : string }.

Definition fields : list (string * type) :=
  [("model", TString); ("messages", TSlice ChatMessage_type);
   ("stream", TBool); ("format", TInterface); ("options", TInterface)].

Definition Unmarshal (data : string) : option t :=
  (fun doc => {| Model := string_field fields "model" doc |})
    <$> Decode.Unmarshal (TStruct fields) data.
End ChatRequest.

Module GenerateRequest.
Record t := mk { Model : string }.

Definition fields : list (string * type) :=
  [("model", TString); ("prompt", TString); ("stream", TBool);
   ("format", TInterface); ("options", TInterface);
   ("images", TSlice TString)].

Definition Unmarshal (data : string) : option t :=
  (fun doc => {| Model := string_field fields "model" doc |})
    <$> Decode.Unmarshal (TStruct fields) data.
End GenerateRequest.

Module EmbedRequest.
Record t := mk { Model : string }.

Definition fields : list (string * type) :=
  [("model", TString); ("input", TInterface); ("options", TInterface)].

Definition Unmarshal (data : string) : option t :=
  (fun doc => {| Model := string_field fields "model" doc |})
    <$> Decode.Unmarshal (TStruct fields) data.
End EmbedRequest.

Module CreateRequest.
Record t := mk { Model : string }.

Definition fields : list (string * type) :=
  [("model", TString); ("from", TString); ("files", TMap TString);
   ("adapters", TMap TString); ("template", TString);
   ("license", TInterface); ("system", TString);
   ("parameters", TInterface); ("messages", TSlice ChatMessage_type);
   ("stream", TBool); ("quantize", TString)].

Definition Unmarshal (data : string) : option t :=
  (fun doc => {| Model := string_field fields "model" doc |})
    <$> Decode.Unmarshal (TStruct fields) data.
End CreateRequest.

Module ChatResponse.
Record t := mk { PromptEvalCount : Z; EvalCount : Z }.

Definition fields : list (string * type) :=
  [("model", TString); ("created_at", TString); ("message", ChatMessage_type);
   ("done", TBool); ("done_reason", TString); ("total_duration", TInt);
   ("load_duration", TInt); ("prompt_eval_count", TInt);
   ("eval_count", TInt); ("eval_duration", TInt)].

Definition Unmarshal (data : string) : option t :=
  (fun doc => {| PromptEvalCount := int_field fields "prompt_eval_count" doc;
                 EvalCount := int_field fields "eval_count" doc |})
    <$> Decode.Unmarshal (TStruct fields) data.
End ChatResponse.

Module GenerateResponse.
Record t := mk { PromptEvalCount : Z; EvalCount : Z }.

Definition fields : list (string * type) :=
  [("model", TString); ("created_at", TString); ("response", TString);
   ("done", TBool); ("done_reason", TString); ("total_duration", TInt);
   ("load_duration", TInt); ("prompt_eval_count", TInt);
   ("eval_count", TInt); ("eval_duration", TInt)].

Definition Unmarshal (data : string) : option t :=
  (fun doc => {| PromptEvalCount := int_field fields "prompt_eval_count" doc;
                 EvalCount := int_field fields "eval_count" doc |})
    <$> Decode.Unmarshal (TStruct fields) data.
End GenerateResponse.

Module EmbedResponse.
Record t := mk { PromptEvalCount : Z }.

Definition fields : list (string * type) :=
  [("model", TString); ("embeddings", TSlice (TSlice TFloat32));
   ("total_duration", TInt); ("load_duration", TInt);
   ("prompt_eval_count", TInt)].

Definition Unmarshal (data : string) : option t :=
  (fun doc => {| PromptEvalCount := int_field fields "prompt_eval_count" doc |})
    <$> Decode.Unmarshal (TStruct fields) data.
End EmbedResponse.

(** ** Model and token extraction *)

Definition getModelFromRequest (path : string) (body : string) : string :=
  if HasSuffix path "/api/chat" then
    match ChatRequest.Unmarshal body with
    | Some chatReq => ChatRequest.Model chatReq
    | None => ""
    end
  else if HasSuffix path "/api/generate" then
    match GenerateRequest.Unmarshal body with
    | Some genReq => GenerateRequest.Model genReq
    | None => ""
    end
  else if HasSuffix path "/api/embed" then
    match EmbedRequest.Unmarshal body with
    | Some embedReq => EmbedRequest.Model embedReq
    | None => ""
    end
  else if HasSuffix path "/api/create" then
    match CreateRequest.Unmarshal body with
    | Some createReq => CreateRequest.Model createReq
    | None => ""
    end
  else "".

Definition getTokenCountsFromResponse (path : string) (responseBody : string)
  : Z * Z :=
  if HasSuffix path "/api/chat" then
    match ChatResponse.Unmarshal responseBody with
    | Some chatResp =>
      (ChatResponse.PromptEvalCount chatResp, ChatResponse.EvalCount chatResp)
    | None => (0, 0)
    end
  else if HasSuffix path "/api/generate" then
    match GenerateResponse.Unmarshal responseBody with
    | Some genResp =>
      (GenerateResponse.PromptEvalCount genResp,
       GenerateResponse.EvalCount genResp)
    | None => (0, 0)
    end
  else if HasSuffix path "/api/embed" then
    match EmbedResponse.Unmarshal responseBody with
    | Some embedResp => (EmbedResponse.PromptEvalCount embedResp, 0)
    | None => (0, 0)
    end
  else (0, 0).

(** JSON texts are written below with single quotes for double quotes;
    [jq] puts the double quotes back. *)
Fixpoint jq (s : string) : string :=
  match s with
  | String c r => String (if Ascii.eqb c "'" then JSON.dquote else c) (jq r)
  | EmptyString => EmptyString
  end.



(** ** HTTP: the part of package [net/http] the program uses *)

Module http.

Definition StatusOK : Z := 200.
Definition StatusBadRequest : Z := 400.
Definition StatusUnauthorized : Z := 401.

(** Header field bytes: the token characters of RFC 7230. *)
Definition validHeaderFieldByte (c : ascii) : bool :=
  let n := N_of_ascii c in
  (((48 <=? n) && (n <=? 57)) || ((65 <=? n) && (n <=? 90))
   || ((97 <=? n) && (n <=? 122)))%N
  || match c with
     | "!" | "#" | "$" | "%" | "&" | "'" | "*" | "+" | "-" | "." | "^" | "_"
     | "`" | "|" | "~" => true
     | _ => false
     end%char.

Fixpoint canonical_case (upper : bool) (s : string) : string :=
  match s with
  | EmptyString => EmptyString
  | String c r =>
    let n := N_of_ascii c in
    let c' :=
      if upper && ((97 <=? n) && (n <=? 122))%N then ascii_of_N (n - 32)
      else if negb upper && ((65 <=? n) && (n <=? 90))%N then ascii_of_N (n + 32)
      else c in
    String c' (canonical_case (Ascii.eqb c' "-") r)
  end.

(** textproto.CanonicalMIMEHeaderKey: the first letter and every letter
    after a hyphen in upper case, the others in lower case; a key holding
    a byte that is not a token character is returned unchanged. *)
Definition CanonicalHeaderKey (s : string) : string :=
  if forallb validHeaderFieldByte (list_ascii_of_string s)
  then canonical_case true s else s.

(** [Header] is [map[string][]string]. *)
Abbreviation Header := (gmap string (list string)).

Definition Header_Get (h : Header) (key : string) : string :=
  match h !! CanonicalHeaderKey key with
  | Some (v :: _) => v
  | _ => ""
  end.

Definition Header_Set (h : Header) (key value : string) : Header :=
  <[CanonicalHeaderKey key := [value]]> h.

Definition Header_Add (h : Header) (key value : string) : Header :=
  <[CanonicalHeaderKey key := default [] (h !! CanonicalHeaderKey key) ++ [value]]> h.

Definition Header_Del (h : Header) (key : string) : Header :=
  delete (CanonicalHeaderKey key) h.

(** What [io.ReadAll(r.Body)] returns. *)
Inductive ReadResult : Type :=
| ReadOk (data : string)
| ReadErr (err : string).

(** An inbound request as the handler sees it. *)
Record Request := mkRequest {
  Method : string;
  URL : url.URL;
  Request_Header : Header;
  Body : ReadResult;
  RemoteAddr : string
}.

(** The calls a handler or the reverse proxy makes on a response writer:
    changes of the header map that [Header()] returns, [WriteHeader] and
    [Write]. *)
Inductive WriterOp : Type :=
| OpHeaderSet (key value : string)
| OpHeaderAdd (key value : string)
| OpHeaderDel (key : string)
| OpWriteHeader (statusCode : Z)
| OpWrite (b : string).

(** The interface [http.ResponseWriter].  [Writer_Header] is the map the
    method [Header()] returns; [putHeader] is what a change of that map by
    the caller does to the writer.  [Write] returns the number of bytes
    written and an error. *)
Class ResponseWriter (W : Type) := {
  Writer_Header : W -> Header;
  putHeader : Header -> W -> W;
  Write : string -> W -> (Z * option string) * W;
  WriteHeader : Z -> W -> W
}.

Definition apply_op {W} `{ResponseWriter W} (op : WriterOp) (w : W) : W :=
  match op with
  | OpHeaderSet k v => putHeader (Header_Set (Writer_Header w) k v) w
  | OpHeaderAdd k v => putHeader (Header_Add (Writer_Header w) k v) w
  | OpHeaderDel k => putHeader (Header_Del (Writer_Header w) k) w
  | OpWriteHeader code => WriteHeader code w
  | OpWrite b => snd (Write b w)
  end.

Definition apply_ops {W} `{ResponseWriter W} (ops : list WriterOp) (w : W) : W :=
  fold_left (fun w op => apply_op op w) ops w.

(** [http.Error]: a plain-text reply with the given status. *)
Definition Error {W} `{ResponseWriter W} (w : W) (error : string) (code : Z) : W :=
  apply_ops [OpHeaderSet "Content-Type" "text/plain; charset=utf-8";
             OpHeaderSet "X-Content-Type-Options" "nosniff";
             OpWriteHeader code;
             OpWrite (error +:+ String "010"%char "")] w.

(** A response received by a client. *)
Record Response := mkResponse {
  StatusCode : Z;
  ResponseBody : string
}.

(** The TLS and time-out settings of an outbound client. *)
Record Client := mkClient {
  InsecureSkipVerify : bool;
  Certificates : list string;
  Timeout : Z
}.

(** An outbound request: the JSON document it carries, if any, is kept as
    a syntax tree. *)
Record OutRequest := mkOutRequest {
  OutMethod : string;
  OutURL : string;
  OutHeader : Header;
  OutBody : option JSON.value
}.

(** The request the reverse proxy sends to the backend. *)
Record Forwarded := mkForwarded {
  FwdMethod : string;
  FwdURL : url.URL;
  FwdHeader : Header;
  FwdBody : string
}.

(** A recorder in the manner of [httptest.ResponseRecorder]: the first
    status written wins, and a body written before any status implies
    200. *)
Record Recorder := mkRecorder {
  Code : Z;
  HeaderMap : Header;
  Written : string;
  wroteHeader : bool
}.

Definition NewRecorder : Recorder :=
  {| Code := 200; HeaderMap := ∅; Written := ""; wroteHeader := false |}.

Definition Recorder_WriteHeader (code : Z) (rr : Recorder) : Recorder :=
  if wroteHeader rr then rr
  else {| Code := code; HeaderMap := HeaderMap rr; Written := Written rr;
          wroteHeader := true |}.

Definition Recorder_Write (b : string) (rr : Recorder)
  : (Z * option string) * Recorder :=
  let rr := Recorder_WriteHeader 200 rr in
  ((Z.of_nat (len b), None),
   {| Code := Code rr; HeaderMap := HeaderMap rr;
      Written := Written rr +:+ b; wroteHeader := wroteHeader rr |}).

#[global] Instance Recorder_ResponseWriter : ResponseWriter Recorder := {
  Writer_Header := HeaderMap;
  putHeader h rr :=
    {| Code := Code rr; HeaderMap := h; Written := Written rr;
       wroteHeader := wroteHeader rr |};
  Write := Recorder_Write;
  WriteHeader := Recorder_WriteHeader
}.

End http.

(** ** The outside world and the effects of the program *)

(** Configuration variables of [main.go]. *)
Record Config := mkConfig {
  ollamaURL : string;
  externalValidationURL : string;
  externalMetricsURL : string;
  apiKeyHeaderName : string;
  proxyPort : string;
  externalServerAPIKey : string;
  externalServerCert : string;
  skipTLSVerify : bool
}.

Inductive LogLevel : Type := DEBUG | INFO | WARNING | ERROR.

(** What a run does that can be observed from outside, in order. *)
Inductive Event : Type :=
| ELog (timestamp : Z) (level : LogLevel) (message : string)
       (fields : gmap string JSON.value)
| EPrintf (message : string)
| EClientDo (client : http.Client) (req : http.OutRequest)
            (res : string + http.Response)
| EServeHTTP (req : http.Forwarded) (ops : list http.WriterOp)
| EGo_sendMetrics (metrics : MetricsData.t)
| EHandleFunc (pattern : string)
| EListenAndServe (addr : string) (err : string).

(** Everything the program does not decide itself: the library's URL
    parser, the clock, the environment, the file system, the servers the
    outbound client reaches, the backend behind the reverse proxy (as the
    calls the proxy makes on the response writer it is given), and the
    listener.  A world of type [Σ] answers and moves on. *)
Class World (Σ : Type) := {
  url_Parse : string -> string + url.URL;
  time_Now : Σ -> Z * Σ;
  os_Getenv : string -> Σ -> string;
  godotenv_Load : Σ -> option string * Σ;
  tls_LoadX509KeyPair : string -> string -> Σ -> (string + string) * Σ;
  client_Do : http.Client -> http.OutRequest -> Σ -> (string + http.Response) * Σ;
  proxy_ServeHTTP : http.Forwarded -> Σ -> list http.WriterOp * Σ;
  http_ListenAndServe : string -> Σ -> string * Σ
}.

(** The state of the process: the world, the configuration variables and
    the proxy built under [proxyOnce] (the target URL its director
    captured), if it has been built. *)
Record State (Σ : Type) := mkState {
  world : Σ;
  config : Config;
  reverseProxy : option url.URL
}.
Arguments mkState {Σ}.
Arguments world {Σ}.
Arguments config {Σ}.
Arguments reverseProxy {Σ}.

(** How a computation ends: with a value, by a run-time panic, or by
    leaving the process ([os.Exit], [log.Fatalf]). *)
Inductive Result (A : Type) : Type :=
| Ok (a : A)
| Panic (message : string)
| Exit (code : Z).
Arguments Ok {A}.
Arguments Panic {A}.
Arguments Exit {A}.

Record Outcome (Σ A : Type) := mkOutcome {
  result : Result A;
  final : State Σ;
  events : list Event
}.
Arguments mkOutcome {Σ A}.
Arguments result {Σ A}.
Arguments final {Σ A}.
Arguments events {Σ A}.

(** Computations: state passing, with the events emitted and an early end
    on panic or exit. *)
Definition M (Σ A : Type) : Type := State Σ -> Outcome Σ A.

Definition ret {Σ A} (a : A) : M Σ A :=
  fun st => mkOutcome (Ok a) st [].

Definition bind {Σ A B} (m : M Σ A) (k : A -> M Σ B) : M Σ B :=
  fun st =>
    let o := m st in
    match result o with
    | Ok a =>
      let o' := k a (final o) in
      mkOutcome (result o') (final o') (events o ++ events o')
    | Panic msg => mkOutcome (Panic msg) (final o) (events o)
    | Exit code => mkOutcome (Exit code) (final o) (events o)
    end.

Notation "x <- m ;; k" := (bind m (fun x => k))
  (at level 100, m at next level, right associativity).
Notation "m ;;; k" := (bind m (fun _ => k))
  (at level 100, right associativity).

Definition emit {Σ} (e : Event) : M Σ unit :=
  fun st => mkOutcome (Ok tt) st [e].

Definition panic {Σ A} (message : string) : M Σ A :=
  fun st => mkOutcome (Panic message) st [].

(** os.Exit *)
Definition os_Exit {Σ A} (code : Z) : M Σ A :=
  fun st => mkOutcome (Exit code) st [].

Definition get_config {Σ} : M Σ Config :=
  fun st => mkOutcome (Ok (config st)) st [].

Definition set_config {Σ} (c : Config) : M Σ unit :=
  fun st => mkOutcome (Ok tt) (mkState (world st) c (reverseProxy st)) [].

(** An oracle of the world as a computation. *)
Definition ask {Σ A} (f : Σ -> A * Σ) : M Σ A :=
  fun st =>
    mkOutcome (Ok (fst (f (world st))))
      (mkState (snd (f (world st))) (config st) (reverseProxy st)) [].

Definition read {Σ A} (f : Σ -> A) : M Σ A :=
  fun st => mkOutcome (Ok (f (world st))) st [].

(** log.Printf and log.Fatalf of the standard logger. *)
Definition log_Printf {Σ} (message : string) : M Σ unit := emit (EPrintf message).

Definition log_Fatalf {Σ A} (message : string) : M Σ A :=
  emit (EPrintf message) ;;; os_Exit 1.

(** ** The response-capturing writer *)

(** The response-capturing wrapper.  [Header()] is that of the wrapped
    writer ([types.go]). *)
Record responseWriter (W : Type) := mkResponseWriter {
  ResponseWriter : W;
  body : string;
  statusCode : Z
}.
Arguments mkResponseWriter {W}.
Arguments ResponseWriter {W}.
Arguments body {W}.
Arguments statusCode {W}.

Definition responseWriter_Write {W} `{http.ResponseWriter W} (b : string)
  (rw : responseWriter W) : (Z * option string) * responseWriter W :=
  let buf := body rw +:+ b in
  let '(res, w) := http.Write b (ResponseWriter rw) in
  (res, mkResponseWriter w buf (statusCode rw)).

Definition responseWriter_WriteHeader {W} `{http.ResponseWriter W}
  (code : Z) (rw : responseWriter W) : responseWriter W :=
  mkResponseWriter (http.WriteHeader code (ResponseWriter rw)) (body rw) code.

#[global] Instance responseWriter_ResponseWriter {W} `{http.ResponseWriter W}
  : http.ResponseWriter (responseWriter W) := {
  http.Writer_Header rw := http.Writer_Header (ResponseWriter rw);
  http.putHeader h rw :=
    mkResponseWriter (http.putHeader h (ResponseWriter rw)) (body rw)
      (statusCode rw);
  http.Write := responseWriter_Write;
  http.WriteHeader := responseWriter_WriteHeader
}.

(** ** Packages [logger] and [main] *)

Section Program.

Context {Σ : Type} `{World Σ}.

Definition now : M Σ Z := ask time_Now.

(** logger.Log: one structured line, stamped with the current time. *)
Definition logger_Log (level : LogLevel) (message : string)
  (fields : gmap string JSON.value) : M Σ unit :=
  t <- now ;; emit (ELog t level message fields).

Definition logger_Info := logger_Log INFO.
Definition logger_Warning := logger_Log WARNING.

Definition logger_Error (message : string) (err : option string)
  (fields : gmap string JSON.value) : M Σ unit :=
  let fields :=
    match err with
    | Some e => <["error" := JSON.Str e]> fields
    | None => fields
    end in
  logger_Log ERROR message fields.

(** time.Duration.Milliseconds on a duration in nanoseconds. *)
Definition Milliseconds (d : Z) : Z := Z.quot d 1000000.

Definition logger_RequestLog (method path remoteAddr : string)
  (statusCode duration : Z) (fields : gmap string JSON.value) : M Σ unit :=
  let fields := <["method" := JSON.Str method]> fields in
  let fields := <["path" := JSON.Str path]> fields in
  let fields := <["remote_addr" := JSON.Str remoteAddr]> fields in
  let fields := <["status_code" := JSON.Number (itoa statusCode)]> fields in
  let fields :=
    <["duration_ms" := JSON.Number (itoa (Milliseconds duration))]> fields in
  let level :=
    if 400 <=? statusCode then ERROR
    else if 300 <=? statusCode then WARNING
    else INFO in
  logger_Log level (method +:+ " " +:+ path +:+ " " +:+ itoa statusCode) fields.

Definition getEnvOrDefault (key defaultValue : string) : M Σ string :=
  value <- read (os_Getenv key) ;;
  if negb (String.eqb value "") then ret value else ret defaultValue.

Definition loadConfig : M Σ unit :=
  ollamaURL <- getEnvOrDefault "OLLAMA_URL" "http://localhost:11434" ;;
  externalValidationURL <-
    getEnvOrDefault "EXTERNAL_VALIDATION_URL" "http://external-server.com/validate" ;;
  externalMetricsURL <-
    getEnvOrDefault "EXTERNAL_METRICS_URL" "http://external-server.com/log_metrics" ;;
  apiKeyHeaderName <- getEnvOrDefault "API_KEY_HEADER_NAME" "X-API-Key" ;;
  proxyPort <- getEnvOrDefault "PROXY_PORT" "8080" ;;
  externalServerAPIKey <- getEnvOrDefault "EXTERNAL_SERVER_API_KEY" "" ;;
  externalServerCert <- getEnvOrDefault "EXTERNAL_SERVER_CERT" "" ;;
  skip <- getEnvOrDefault "SKIP_TLS_VERIFY" "false" ;;
  set_config
    {| ollamaURL := ollamaURL;
       externalValidationURL := externalValidationURL;
       externalMetricsURL := externalMetricsURL;
       apiKeyHeaderName := apiKeyHeaderName;
       proxyPort := proxyPort;
       externalServerAPIKey := externalServerAPIKey;
       externalServerCert := externalServerCert;
       skipTLSVerify := String.eqb skip "true" |}.

(** [proxyOnce.Do]: the proxy is built on first use; a backend URL that
    does not parse ends the process. *)
Definition getReverseProxy : M Σ url.URL :=
  fun st =>
    match reverseProxy st with
    | Some targetURL => ret targetURL st
    | None =>
      match url_Parse (ollamaURL (config st)) with
      | inl err => log_Fatalf ("Failed to parse Ollama URL: " +:+ err) st
      | inr targetURL =>
        mkOutcome (Ok targetURL)
          (mkState (world st) (config st) (Some targetURL)) []
      end
    end.

(** [ReverseProxy.ServeHTTP]: the director rewrites the URL of the outgoing
    request; what comes back is what the proxy writes to [rw].  (The
    library's own changes to the outgoing header are not modelled.) *)
Definition ReverseProxy_ServeHTTP {W} `{http.ResponseWriter W}
  (targetURL : url.URL) (rw : W) (r : http.Request) (bodyBytes : string)
  : M Σ W :=
  let out :=
    {| http.FwdMethod := http.Method r;
       http.FwdURL := Director targetURL (http.URL r);
       http.FwdHeader := http.Request_Header r;
       http.FwdBody := bodyBytes |} in
  ops <- ask (proxy_ServeHTTP out) ;;
  emit (EServeHTTP out ops) ;;;
  ret (http.apply_ops ops rw).

Definition getSecureHTTPClient : M Σ http.Client :=
  cfg <- get_config ;;
  certs <-
    (if negb (String.eqb (externalServerCert cfg) "") then
       res <- ask (tls_LoadX509KeyPair (externalServerCert cfg)
                     (externalServerCert cfg)) ;;
       match res with
       | inl err =>
         log_Printf ("Warning: Failed to load certificate: " +:+ err) ;;;
         ret []
       | inr cert => ret [cert]
       end
     else ret []) ;;
  ret {| http.InsecureSkipVerify := skipTLSVerify cfg;
         http.Certificates := certs;
         http.Timeout := 10 * 1000000000 |}.

(** http.NewRequest: fails when the URL does not parse. *)
Definition http_NewRequest (method url : string) (body : option JSON.value)
  : string + http.OutRequest :=
  match url_Parse url with
  | inl err => inl err
  | inr _ =>
    inr {| http.OutMethod := method; http.OutURL := url;
           http.OutHeader := ∅; http.OutBody := body |}
  end.

Definition set_header (req : http.OutRequest) (key value : string)
  : http.OutRequest :=
  {| http.OutMethod := http.OutMethod req; http.OutURL := http.OutURL req;
     http.OutHeader := http.Header_Set (http.OutHeader req) key value;
     http.OutBody := http.OutBody req |}.

(** [client.Do]: the call and its result are observable. *)
Definition Client_Do (client : http.Client) (req : http.OutRequest)
  : M Σ (string + http.Response) :=
  res <- ask (client_Do client req) ;;
  emit (EClientDo client req res) ;;;
  ret res.

(** [client.Get] *)
Definition Client_Get (client : http.Client) (url : string)
  : M Σ (string + http.Response) :=
  match http_NewRequest "GET" url None with
  | inl err => ret (inl err)
  | inr req => Client_Do client req
  end.

(** The text of the decoder's error is not modelled. *)
Definition decode_error : string := "json: cannot decode response".

Definition validateRequest (details : RequestDetails.t) : M Σ bool :=
  let fields : gmap string JSON.value :=
    <["endpoint" := JSON.Str (RequestDetails.Endpoint details)]>
      (<["api_key" := JSON.Str (RequestDetails.APIKey details)]> ∅) in
  match RequestDetails.Marshal details with
  | inl err =>
    logger_Error "Error marshaling validation request" (Some err) fields ;;;
    ret false
  | inr jsonData =>
    cfg <- get_config ;;
    match http_NewRequest "POST" (externalValidationURL cfg) (Some jsonData) with
    | inl err =>
      logger_Error "Error creating validation request" (Some err) fields ;;;
      ret false
    | inr req =>
      let req := set_header req "Content-Type" "application/json" in
      let req := set_header req "X-API-Key" (externalServerAPIKey cfg) in
      t <- now ;;
      let req := set_header req "X-Request-ID" (itoa t) in
      client <- getSecureHTTPClient ;;
      res <- Client_Do client req ;;
      match res with
      | inl err =>
        logger_Error "Error calling validation server" (Some err) fields ;;;
        ret false
      | inr resp =>
        if negb (http.StatusCode resp =? http.StatusOK) then
          logger_Warning "Validation server returned non-OK status"
            (<["status_code" := JSON.Number (itoa (http.StatusCode resp))]>
               fields) ;;;
          ret false
        else
          match ValidationResponse.Decode (http.ResponseBody resp) with
          | None =>
            logger_Error "Error decoding validation response"
              (Some decode_error) fields ;;;
            ret false
          | Some validationResp =>
            ret (ValidationResponse.Valid validationResp
                 && negb (ValidationResponse.RateLimited validationResp))
          end
      end
    end
  end.

Definition sendMetrics (metrics : MetricsData.t) : M Σ unit :=
  let fields : gmap string JSON.value :=
    <["endpoint" := JSON.Str (MetricsData.Endpoint metrics)]>
      (<["model" := JSON.Str (MetricsData.Model metrics)]>
         (<["api_key" := JSON.Str (MetricsData.APIKey metrics)]> ∅)) in
  match MetricsData.Marshal metrics with
  | inl err => logger_Error "Error marshaling metrics" (Some err) fields
  | inr jsonData =>
    cfg <- get_config ;;
    match http_NewRequest "POST" (externalMetricsURL cfg) (Some jsonData) with
    | inl err => logger_Error "Error creating metrics request" (Some err) fields
    | inr req =>
      let req := set_header req "Content-Type" "application/json" in
      let req := set_header req "X-API-Key" (externalServerAPIKey cfg) in
      t <- now ;;
      let req := set_header req "X-Request-ID" (itoa t) in
      client <- getSecureHTTPClient ;;
      res <- Client_Do client req ;;
      match res with
      | inl err => logger_Error "Error sending metrics" (Some err) fields
      | inr resp =>
        if negb (http.StatusCode resp =? http.StatusOK) then
          logger_Warning "Metrics server returned non-OK status"
            (<["status_code" := JSON.Number (itoa (http.StatusCode resp))]>
               fields)
        else ret tt
      end
    end
  end.

(** The [go] statement: the call is handed to a new goroutine and the
    caller goes on; the goroutine's own run is not part of the caller's. *)
Definition go_sendMetrics (metrics : MetricsData.t) : M Σ unit :=
  emit (EGo_sendMetrics metrics).

(** The copy loop over [r.Header]: the first value under each name.  A
    name without a value makes [v[0]] panic. *)
Definition copyHeaders (h : http.Header) : M Σ (gmap string string) :=
  if bool_decide (map_Forall (fun _ v => v <> []) h)
  then ret (omap head h)
  else panic "runtime error: index out of range [0] with length 0".

Definition proxyHandler {W} `{http.ResponseWriter W} (w : W) (r : http.Request)
  : M Σ W :=
  startTime <- now ;;
  cfg <- get_config ;;
  let path := url.Path (http.URL r) in
  let userAgent := http.Header_Get (http.Request_Header r) "User-Agent" in
  let fields : gmap string JSON.value :=
    <["endpoint" := JSON.Str path]>
      (<["user_agent" := JSON.Str userAgent]> ∅) in
  (* Extract API key *)
  let apiKey := http.Header_Get (http.Request_Header r) (apiKeyHeaderName cfg) in
  if String.eqb apiKey "" then
    logger_Warning "Unauthorized: Missing API key" fields ;;;
    ret (http.Error w "Unauthorized: Missing API key" http.StatusUnauthorized)
  else
    let fields := <["api_key" := JSON.Str apiKey]> fields in
    (* Extract request details, copy headers *)
    headers <- copyHeaders (http.Request_Header r) ;;
    match http.Body r with
    | http.ReadErr err =>
      logger_Error "Error reading request body" (Some err) fields ;;;
      ret (http.Error w "Error reading request body" http.StatusBadRequest)
    | http.ReadOk bodyBytes =>
      let details :=
        {| RequestDetails.APIKey := apiKey;
           RequestDetails.IPAddress := http.RemoteAddr r;
           RequestDetails.UserAgent := userAgent;
           RequestDetails.Headers := headers;
           RequestDetails.Model := getModelFromRequest path bodyBytes;
           RequestDetails.InputTokenLength := 0;
           RequestDetails.Endpoint := path |} in
      let fields := <["model" := JSON.Str (RequestDetails.Model details)]> fields in
      (* Validate request *)
      ok <- validateRequest details ;;
      if negb ok then
        logger_Warning "Unauthorized: Invalid request" fields ;;;
        ret (http.Error w "Unauthorized: Invalid request" http.StatusUnauthorized)
      else
        let rw := mkResponseWriter w "" 0 in
        (* Proxy the request *)
        proxy <- getReverseProxy ;;
        rw <- ReverseProxy_ServeHTTP proxy rw r bodyBytes ;;
        t <- now ;;
        let duration := t - startTime in
        let '(inputTokens, outputTokens) :=
          getTokenCountsFromResponse path (body rw) in
        let fields := <["input_tokens" := JSON.Number (itoa inputTokens)]> fields in
        let fields := <["output_tokens" := JSON.Number (itoa outputTokens)]> fields in
        let fields :=
          <["duration_ms" := JSON.Number (itoa (Milliseconds duration))]> fields in
        logger_RequestLog (http.Method r) path (http.RemoteAddr r)
          (statusCode rw) duration fields ;;;
        go_sendMetrics
          {| MetricsData.APIKey := apiKey;
             MetricsData.Model := RequestDetails.Model details;
             MetricsData.InputTokenLength := inputTokens;
             MetricsData.OutputTokenLength := outputTokens;
             MetricsData.RequestDurationMs := Milliseconds duration;
             MetricsData.Endpoint := RequestDetails.Endpoint details |} ;;;
        ret (ResponseWriter rw)
    end.

(** *** Start-up *)

(** validateOllamaService checks if the Ollama service is accessible *)
Definition validateOllamaService : M Σ (option string) :=
  client <- getSecureHTTPClient ;;
  cfg <- get_config ;;
  res <- Client_Get client (ollamaURL cfg +:+ "/api/tags") ;;
  match res with
  | inl err =>
    logger_Error "Failed to connect to Ollama service" (Some err) ∅ ;;;
    ret (Some ("failed to connect to Ollama service: " +:+ err))
  | inr resp =>
    if negb (http.StatusCode resp =? http.StatusOK) then
      logger_Warning "Ollama service returned non-OK status"
        (<["status_code" := JSON.Number (itoa (http.StatusCode resp))]> ∅) ;;;
      ret (Some ("Ollama service returned non-OK status: "
                 +:+ itoa (http.StatusCode resp)))
    else ret None
  end.

(** validateExternalValidationService checks if the external validation
    service is accessible *)
Definition validateExternalValidationService : M Σ (option string) :=
  client <- getSecureHTTPClient ;;
  cfg <- get_config ;;
  match http_NewRequest "GET" (externalValidationURL cfg) None with
  | inl err =>
    logger_Error "Failed to create validation request" (Some err) ∅ ;;;
    ret (Some ("failed to create validation request: " +:+ err))
  | inr req =>
    let req := set_header req "X-API-Key" (externalServerAPIKey cfg) in
    t <- now ;;
    let req := set_header req "X-Request-ID" (itoa t) in
    res <- Client_Do client req ;;
    match res with
    | inl err =>
      logger_Error "Failed to connect to validation service" (Some err) ∅ ;;;
      ret (Some ("failed to connect to validation service: " +:+ err))
    | inr resp =>
      if negb (http.StatusCode resp =? http.StatusOK) then
        logger_Warning "Validation service returned non-OK status"
          (<["status_code" := JSON.Number (itoa (http.StatusCode resp))]> ∅) ;;;
        ret (Some ("validation service returned non-OK status: "
                   +:+ itoa (http.StatusCode resp)))
      else ret None
    end
  end.

(** validateExternalMetricsService checks if the external metrics service
    is accessible *)
Definition validateExternalMetricsService : M Σ (option string) :=
  client <- getSecureHTTPClient ;;
  cfg <- get_config ;;
  match http_NewRequest "GET" (externalMetricsURL cfg) None with
  | inl err =>
    logger_Error "Failed to create metrics request" (Some err) ∅ ;;;
    ret (Some ("failed to create metrics request: " +:+ err))
  | inr req =>
    let req := set_header req "X-API-Key" (externalServerAPIKey cfg) in
    t <- now ;;
    let req := set_header req "X-Request-ID" (itoa t) in
    res <- Client_Do client req ;;
    match res with
    | inl err =>
      logger_Error "Failed to connect to metrics service" (Some err) ∅ ;;;
      ret (Some ("failed to connect to metrics service: " +:+ err))
    | inr resp =>
      if negb (http.StatusCode resp =? http.StatusOK) then
        logger_Warning "Metrics service returned non-OK status"
          (<["status_code" := JSON.Number (itoa (http.StatusCode resp))]> ∅) ;;;
        ret (Some ("metrics service returned non-OK status: "
                   +:+ itoa (http.StatusCode resp)))
      else ret None
    end
  end.

(** validateExternalServices checks if all required external services are
    accessible; an error is [Some], [nil] is [None]. *)
Definition validateExternalServices : M Σ (option string) :=
  err <- validateOllamaService ;;
  match err with
  | Some e => ret (Some ("Ollama service validation failed: " +:+ e))
  | None =>
    err <- validateExternalValidationService ;;
    match err with
    | Some e =>
      ret (Some ("External validation service validation failed: " +:+ e))
    | None =>
      err <- validateExternalMetricsService ;;
      match err with
      | Some e =>
        ret (Some ("External metrics service validation failed: " +:+ e))
      | None => ret None
      end
    end
  end.

(** http.HandleFunc and http.ListenAndServe: the registration and the
    listener are observable; the listener returns only with an error. *)
Definition http_HandleFunc (pattern : string) : M Σ unit :=
  emit (EHandleFunc pattern).

Definition ListenAndServe (addr : string) : M Σ string :=
  err <- ask (http_ListenAndServe addr) ;;
  emit (EListenAndServe addr err) ;;;
  ret err.

Definition main : M Σ unit :=
  goEnv <- read (os_Getenv "GO_ENV") ;;
  (if negb (String.eqb goEnv "production") then
     err <- ask godotenv_Load ;;
     match err with
     | Some e =>
       logger_Warning "No .env file found or error loading .env"
         (<["error" := JSON.Str e]> ∅)
     | None => ret tt
     end
   else ret tt) ;;;
  loadConfig ;;;
  err <- validateExternalServices ;;
  match err with
  | Some e =>
    logger_Error "Failed to validate external services" (Some e) ∅ ;;;
    os_Exit 1
  | None =>
    http_HandleFunc "/" ;;;
    cfg <- get_config ;;
    logger_Info "Starting Ollama proxy server"
      (<["port" := JSON.Str (proxyPort cfg)]> ∅) ;;;
    err <- ListenAndServe (":" +:+ proxyPort cfg) ;;
    logger_Error "Failed to start server" (Some err) ∅ ;;;
    os_Exit 1
  end.

End Program.

(** ** Vocabulary of the properties *)

Definition is_ClientDo (e : Event) : bool :=
  match e with EClientDo _ _ _ => true | _ => false end.

Definition is_ServeHTTP (e : Event) : bool :=
  match e with EServeHTTP _ _ => true | _ => false end.

Definition is_sendMetrics (e : Event) : bool :=
  match e with EGo_sendMetrics _ => true | _ => false end.

Definition is_Listen (e : Event) : bool :=
  match e with EHandleFunc _ | EListenAndServe _ _ => true | _ => false end.

(** The outbound calls, the backend calls and the metrics dispatches of a
    run. *)
Definition client_calls (evs : list Event) : list Event := List.filter is_ClientDo evs.
Definition backend_calls (evs : list Event) : list Event := List.filter is_ServeHTTP evs.
Definition metrics_dispatches (evs : list Event) : list Event :=
  List.filter is_sendMetrics evs.

(** The verdict of the validation service on one call: the call succeeded,
    the status is exactly 200, the body decodes as [ValidationResponse],
    [valid] is true and [rateLimited] is false. *)
Definition approving (res : string + http.Response) : Prop :=
  exists resp v,
    res = inr resp
    /\ http.StatusCode resp = 200
    /\ ValidationResponse.Decode (http.ResponseBody resp) = Some v
    /\ ValidationResponse.Valid v = true
    /\ ValidationResponse.RateLimited v = false.

(** A run in which the validation call was approved. *)
Definition validation_approved (evs : list Event) : Prop :=
  exists client req res, In (EClientDo client req res) evs /\ approving res.

(** The bytes a sequence of writer calls writes, and the last status it
    sets (or [d] if it sets none). *)
Fixpoint written (ops : list http.WriterOp) : string :=
  match ops with
  | [] => ""
  | http.OpWrite b :: ops => b +:+ written ops
  | _ :: ops => written ops
  end.

Definition last_status (d : Z) (ops : list http.WriterOp) : Z :=
  fold_left
    (fun acc op => match op with http.OpWriteHeader c => c | _ => acc end) ops d.

(** The value a computation ended with, if it ended with one. *)
Definition value_of {A} (r : Result A) : option A :=
  match r with Ok a => Some a | _ => None end.

(** An outcome with events put in front of its own. *)
Definition after {Σ A} (evs : list Event) (o : Outcome Σ A) : Outcome Σ A :=
  mkOutcome (result o) (final o) (evs ++ events o).

(** The state a world [σ] leaves behind when nothing else changes. *)
Definition with_world {Σ} (st : State Σ) (σ : Σ) : State Σ :=
  mkState σ (config st) (reverseProxy st).

Definition is_Printf (e : Event) : bool :=
  match e with EPrintf _ => true | _ => false end.

Definition is_Log (e : Event) : bool :=
  match e with ELog _ _ _ _ | EPrintf _ => true | _ => false end.

(** The verdict as a test, for running examples. *)
Definition approvingb (res : string + http.Response) : bool :=
  match res with
  | inr resp =>
    (http.StatusCode resp =? 200)
    && match ValidationResponse.Decode (http.ResponseBody resp) with
       | Some v => ValidationResponse.Valid v && negb (ValidationResponse.RateLimited v)
       | None => false
       end
  | inl _ => false
  end.

Definition validation_approvedb (evs : list Event) : bool :=
  existsb (fun e => match e with EClientDo _ _ res => approvingb res | _ => false end)
    evs.

(** The member of an object under a name. *)
Definition member (name : string) (doc : JSON.value) : option JSON.value :=
  match doc with
  | JSON.Object m => snd <$> find (fun kv => String.eqb (fst kv) name) m
  | _ => None
  end.

(** A start-up probe that was answered with status 200. *)
Definition probe_ok (e : Event) : bool :=
  match e with
  | EClientDo _ _ (inr resp) => http.StatusCode resp =? http.StatusOK
  | _ => false
  end.

(** The request of an outbound call. *)
Definition call_target (e : Event) : string * string :=
  match e with
  | EClientDo _ req _ => (http.OutMethod req, http.OutURL req)
  | _ => ("", "")
  end.

(** *** Start-up probes *)

(** The events of one start-up probe of [url] and the error it returns: a
    GET answered with status 200 and no error; a GET answered otherwise,
    or not answered, and an error; or no call at all (the request could
    not be built) and an error. *)
Inductive probe_run (url : string) : option string -> list Event -> Prop :=
| probe_passed pre client req resp :
    forallb is_Log pre = true ->
    http.OutMethod req = "GET" -> http.OutURL req = url ->
    http.StatusCode resp = http.StatusOK ->
    probe_run url None (pre ++ [EClientDo client req (inr resp)])
| probe_failed pre client req res post err :
    forallb is_Log pre = true -> forallb is_Log post = true ->
    http.OutMethod req = "GET" -> http.OutURL req = url ->
    probe_ok (EClientDo client req res) = false ->
    probe_run url (Some err) (pre ++ EClientDo client req res :: post)
| probe_not_sent evs err :
    forallb is_Log evs = true ->
    probe_run url (Some err) evs.

(** The three probes, in the order [validateExternalServices] makes them. *)
Definition probe_targets (cfg : Config) : list (string * string) :=
  [("GET", ollamaURL cfg +:+ "/api/tags");
   ("GET", externalValidationURL cfg);
   ("GET", externalMetricsURL cfg)].

(** An error of the health check names the service that failed. *)
Definition names_failed_service (err : string) : Prop :=
  HasPrefix err "Ollama service validation failed: " = true
  \/ HasPrefix err "External validation service validation failed: " = true
  \/ HasPrefix err "External metrics service validation failed: " = true.

(** What the outbound calls of a health check that returned [err] look
    like: it returned no error exactly when it made three calls that were
    all answered with 200; the calls are the probes in order, each at most
    once; every call but the last was answered with 200. *)
Definition startup_calls (cfg : Config) (err : option string)
  (calls : list Event) : Prop :=
  (err = None <-> length calls = 3%nat /\ forallb probe_ok calls = true)
  /\ List.map call_target calls = firstn (length calls) (probe_targets cfg)
  /\ forallb probe_ok (removelast calls) = true
  /\ (forall e, err = Some e -> names_failed_service e).

(** *** The paths through the handler *)

Section Paths.

Context {Σ : Type} `{World Σ} {W : Type} `{http.ResponseWriter W}.

(** The API key the handler reads from a request. *)
Definition apiKey_of (cfg : Config) (r : http.Request) : string :=
  http.Header_Get (http.Request_Header r) (apiKeyHeaderName cfg).

(** Every header name of the request carries a value, as in every header
    map the server parses; [first_values] is then the copy the handler
    makes. *)
Definition headers_nonempty (r : http.Request) : Prop :=
  map_Forall (fun (_ : string) (v : list string) => v <> []) (http.Request_Header r).

Definition first_values (r : http.Request) : gmap string string :=
  omap head (http.Request_Header r).

(** The request details the handler builds for a request with the key
    [apiKey_of cfg r] and the body [bodyBytes]. *)
Definition details_of (cfg : Config) (r : http.Request) (bodyBytes : string)
  : RequestDetails.t :=
  {| RequestDetails.APIKey := apiKey_of cfg r;
     RequestDetails.IPAddress := http.RemoteAddr r;
     RequestDetails.UserAgent := http.Header_Get (http.Request_Header r) "User-Agent";
     RequestDetails.Headers := first_values r;
     RequestDetails.Model := getModelFromRequest (url.Path (http.URL r)) bodyBytes;
     RequestDetails.InputTokenLength := 0;
     RequestDetails.Endpoint := url.Path (http.URL r) |}.

(** The events of one validation call with verdict [b]: log lines only
    when no request could be sent, else log lines around one outbound
    call, a POST to the validation URL carrying the encoded details, whose
    answer approves exactly when [b] is true. *)
Definition validation_events (cfg : Config) (d : RequestDetails.t) (b : bool)
  (evs : list Event) : Prop :=
  (b = false /\ forallb is_Log evs = true)
  \/ exists client req res pre post,
      evs = pre ++ EClientDo client req res :: post
      /\ forallb is_Log pre = true /\ forallb is_Log post = true
      /\ http.OutMethod req = "POST"
      /\ http.OutURL req = externalValidationURL cfg
      /\ (exists payload, RequestDetails.Marshal d = inr payload
                          /\ http.OutBody req = Some payload)
      /\ (b = true <-> approving res).

(** The target of the reverse proxy when the handler asks for it: the one
    built before, else the parsed backend URL; none when that URL does not
    parse. *)
Definition proxy_target (st : State Σ) : option url.URL :=
  match reverseProxy st with
  | Some targetURL => Some targetURL
  | None =>
    match url_Parse (ollamaURL (config st)) with
    | inr targetURL => Some targetURL
    | inl _ => None
    end
  end.

(** The request handed to the backend for [r]. *)
Definition forwarded (targetURL : url.URL) (r : http.Request) (bodyBytes : string)
  : http.Forwarded :=
  {| http.FwdMethod := http.Method r;
     http.FwdURL := Director targetURL (http.URL r);
     http.FwdHeader := http.Request_Header r;
     http.FwdBody := bodyBytes |}.

(** The six ways a run of the handler goes, by result and events. *)
Inductive handler_run (w : W) (r : http.Request) (st : State Σ)
  (o : Outcome Σ W) : Prop :=
| run_missing_key t fields :
    apiKey_of (config st) r = "" ->
    result o = Ok (http.Error w "Unauthorized: Missing API key"
                     http.StatusUnauthorized) ->
    events o = [ELog t WARNING "Unauthorized: Missing API key" fields] ->
    handler_run w r st o
| run_panic message :
    apiKey_of (config st) r <> "" ->
    ~ headers_nonempty r ->
    result o = Panic message ->
    events o = [] ->
    handler_run w r st o
| run_unreadable err t fields :
    apiKey_of (config st) r <> "" ->
    headers_nonempty r ->
    http.Body r = http.ReadErr err ->
    result o = Ok (http.Error w "Error reading request body"
                     http.StatusBadRequest) ->
    events o = [ELog t ERROR "Error reading request body" fields] ->
    handler_run w r st o
| run_rejected bodyBytes evs t fields :
    apiKey_of (config st) r <> "" ->
    headers_nonempty r ->
    http.Body r = http.ReadOk bodyBytes ->
    validation_events (config st) (details_of (config st) r bodyBytes) false evs ->
    result o = Ok (http.Error w "Unauthorized: Invalid request"
                     http.StatusUnauthorized) ->
    events o = evs ++ [ELog t WARNING "Unauthorized: Invalid request" fields] ->
    handler_run w r st o
| run_fatal bodyBytes evs message :
    apiKey_of (config st) r <> "" ->
    headers_nonempty r ->
    http.Body r = http.ReadOk bodyBytes ->
    validation_events (config st) (details_of (config st) r bodyBytes) true evs ->
    proxy_target st = None ->
    result o = Exit 1 ->
    events o = evs ++ [EPrintf message] ->
    handler_run w r st o
| run_served bodyBytes evs targetURL ops t level message fields duration :
    apiKey_of (config st) r <> "" ->
    headers_nonempty r ->
    http.Body r = http.ReadOk bodyBytes ->
    validation_events (config st) (details_of (config st) r bodyBytes) true evs ->
    proxy_target st = Some targetURL ->
    result o = Ok (http.apply_ops ops w) ->
    events o
    = evs ++ [EServeHTTP (forwarded targetURL r bodyBytes) ops;
              ELog t level message fields;
              EGo_sendMetrics
                {| MetricsData.APIKey := apiKey_of (config st) r;
                   MetricsData.Model :=
                     getModelFromRequest (url.Path (http.URL r)) bodyBytes;
                   MetricsData.InputTokenLength :=
                     (getTokenCountsFromResponse (url.Path (http.URL r))
                        (written ops)).1;
                   MetricsData.OutputTokenLength :=
                     (getTokenCountsFromResponse (url.Path (http.URL r))
                        (written ops)).2;
                   MetricsData.RequestDurationMs := duration;
                   MetricsData.Endpoint := url.Path (http.URL r) |}] ->
    handler_run w r st o.

End Paths.

(** ** A scripted world

    A world for running the program on examples: the clock advances by one
    millisecond per reading, the outbound client receives the scripted
    answers in order (and no connection when the script is exhausted), the
    backend makes the reverse proxy perform the scripted writes.  Its URL
    parser covers the URLs of the examples: it splits an [http] or [https]
    URL into host, path and query, and, as [url.Parse] does, reports a
    control character anywhere or a space in the host. *)

Module Scenario.

Record world := mk {
  clock : Z;
  env : list (string * string);
  answers : list (string + http.Response);
  backend : list http.WriterOp
}.

(** The part of a string before the first byte satisfying [p], and the
    rest. *)
Fixpoint break (p : ascii -> bool) (s : string) : string * string :=
  match s with
  | String c r =>
    if p c then ("", s) else let '(a, b) := break p r in (String c a, b)
  | EmptyString => ("", "")
  end.

Definition is_ctl (c : ascii) : bool :=
  let n := N_of_ascii c in ((n <? 32) || (n =? 127))%N.

Definition split_path_query (s : string) : string * string :=
  let '(path, q) := break (Ascii.eqb "?") s in (path, from q 1).

Definition parse_after_scheme (scheme rest : string) : string + url.URL :=
  let '(host, tail) :=
    break (fun c => Ascii.eqb c "/" || Ascii.eqb c "?") rest in
  if existsb (Ascii.eqb " ") (list_ascii_of_string host)
  then inl "invalid character in host name"
  else
    let '(path, query) := split_path_query tail in
    inr (url.mk scheme host path query).

Definition Parse (s : string) : string + url.URL :=
  if existsb is_ctl (list_ascii_of_string s)
  then inl "net/url: invalid control character in URL"
  else if HasPrefix s "http://" then parse_after_scheme "http" (from s 7)
  else if HasPrefix s "https://" then parse_after_scheme "https" (from s 8)
  else let '(path, query) := split_path_query s in inr (url.mk "" "" path query).

Definition tick (σ : world) : Z * world :=
  (clock σ, mk (clock σ + 1000000) (env σ) (answers σ) (backend σ)).

Definition getenv (key : string) (σ : world) : string :=
  match find (fun kv => String.eqb (fst kv) key) (env σ) with
  | Some kv => snd kv
  | None => ""
  end.

Definition answer (σ : world) : (string + http.Response) * world :=
  match answers σ with
  | a :: rest => (a, mk (clock σ) (env σ) rest (backend σ))
  | [] => (inl "connection refused", σ)
  end.

#[global] Instance World_world : World world := {
  url_Parse := Parse;
  time_Now := tick;
  os_Getenv := getenv;
  godotenv_Load σ := (Some "open .env: no such file or directory", σ);
  tls_LoadX509KeyPair _ _ σ := (inl "open: no such file or directory", σ);
  client_Do _ _ := answer;
  proxy_ServeHTTP _ σ := (backend σ, σ);
  http_ListenAndServe _ σ := ("http: Server closed", σ)
}.

(** The default configuration of [loadConfig], with a server key. *)
Definition cfg : Config :=
  {| ollamaURL := "http://localhost:11434";
     externalValidationURL := "http://external-server.com/validate";
     externalMetricsURL := "http://external-server.com/log_metrics";
     apiKeyHeaderName := "X-API-Key";
     proxyPort := "8080";
     externalServerAPIKey := "server-key";
     externalServerCert := "";
     skipTLSVerify := false |}.

(** A configuration whose backend URL does not parse: the host holds a
    space. *)
Definition misconfigured : Config :=
  {| ollamaURL := "http://local host:11434";
     externalValidationURL := externalValidationURL cfg;
     externalMetricsURL := externalMetricsURL cfg;
     apiKeyHeaderName := apiKeyHeaderName cfg;
     proxyPort := proxyPort cfg;
     externalServerAPIKey := externalServerAPIKey cfg;
     externalServerCert := externalServerCert cfg;
     skipTLSVerify := skipTLSVerify cfg |}.

Definition chat_body : string :=
  jq "{'model':'llama2','messages':[{'role':'user','content':'Hello'}]}".

(** A chat request carrying the key [test-api-key]. *)
Definition chat_request : http.Request :=
  {| http.Method := "POST";
     http.URL := url.mk "" "" "/api/chat" "";
     http.Request_Header :=
       <["X-Api-Key" := ["test-api-key"]]>
         (<["Content-Type" := ["application/json"]]> ∅);
     http.Body := http.ReadOk chat_body;
     http.RemoteAddr := "192.0.2.1:1234" |}.

(** The same request without the key. *)
Definition anonymous_request : http.Request :=
  {| http.Method := "POST";
     http.URL := url.mk "" "" "/api/chat" "";
     http.Request_Header := <["Content-Type" := ["application/json"]]> ∅;
     http.Body := http.Body chat_request;
     http.RemoteAddr := "192.0.2.1:1234" |}.

Definition verdict (valid rateLimited : bool) : string + http.Response :=
  inr {| http.StatusCode := 200;
         http.ResponseBody :=
           jq "{'valid':" +:+ (if valid then "true" else "false")
           +:+ jq ",'rateLimited':" +:+ (if rateLimited then "true" else "false")
           +:+ "}" +:+ String "010"%char "" |}.

(** What the proxy writes for a chat reply of the backend. *)
Definition chat_reply : list http.WriterOp :=
  [http.OpHeaderSet "Content-Type" "application/json";
   http.OpWriteHeader 200;
   http.OpWrite
     (jq "{'model':'llama2','done':true,'prompt_eval_count':10,'eval_count':20}")].

(** What the proxy writes when the backend cannot be reached. *)
Definition bad_gateway : list http.WriterOp := [http.OpWriteHeader 502].

Definition start (c : Config) (answers : list (string + http.Response))
  (backend : list http.WriterOp) : State world :=
  mkState (mk 0 [] answers backend) c None.

(** Runs of the handler on a recorder: an approved chat request with
    a backend that answers; the same with a backend that cannot be
    reached; a rate-limited one; an approved one under the configuration
    whose backend URL does not parse; and a request without a key. *)
Definition served : Outcome world http.Recorder :=
  proxyHandler http.NewRecorder chat_request
    (start cfg [verdict true false] chat_reply).

Definition unreachable : Outcome world http.Recorder :=
  proxyHandler http.NewRecorder chat_request
    (start cfg [verdict true false] bad_gateway).

Definition rate_limited : Outcome world http.Recorder :=
  proxyHandler http.NewRecorder chat_request
    (start cfg [verdict true true] chat_reply).

Definition no_proxy : Outcome world http.Recorder :=
  proxyHandler http.NewRecorder chat_request
    (start misconfigured [verdict true false] chat_reply).

Definition anonymous : Outcome world http.Recorder :=
  proxyHandler http.NewRecorder anonymous_request
    (start cfg [verdict true false] chat_reply).

End Scenario.

(** ** Vocabulary of the further properties *)

(** The structured log lines of a run. *)
Definition is_ELog (e : Event) : bool :=
  match e with ELog _ _ _ _ => true | _ => false end.

Definition log_lines (evs : list Event) : list Event := List.filter is_ELog evs.

(** The request [validateRequest] and [sendMetrics] build: a POST that
    carries a JSON document and the three security headers. *)
Definition signed_post (cfg : Config) (url : string) (payload : JSON.value)
  (t : Z) : http.OutRequest :=
  set_header
    (set_header
       (set_header
          {| http.OutMethod := "POST"; http.OutURL := url;
             http.OutHeader := ∅; http.OutBody := Some payload |}
          "Content-Type" "application/json")
       "X-API-Key" (externalServerAPIKey cfg))
    "X-Request-ID" (itoa t).

(** A start-up probe with the two security headers. *)
Definition signed_get (cfg : Config) (url : string) (t : Z) : http.OutRequest :=
  set_header
    (set_header
       {| http.OutMethod := "GET"; http.OutURL := url;
          http.OutHeader := ∅; http.OutBody := None |}
       "X-API-Key" (externalServerAPIKey cfg))
    "X-Request-ID" (itoa t).

(** Whether a value is a number: the one kind of value whose end depends
    on what follows it. *)
Definition is_Number (v : JSON.value) : bool :=
  match v with JSON.Number _ => true | _ => false end.

(** Further inputs for running the program. *)

Module Cases.

(** A chat request whose body cannot be read. *)
Definition unreadable_request : http.Request :=
  {| http.Method := "POST";
     http.URL := url.mk "" "" "/api/chat" "";
     http.Request_Header := http.Request_Header Scenario.chat_request;
     http.Body := http.ReadErr "unexpected EOF";
     http.RemoteAddr := "192.0.2.1:1234" |}.

(** A chat request with a header name that carries no value. *)
Definition valueless_header_request : http.Request :=
  {| http.Method := "POST";
     http.URL := url.mk "" "" "/api/chat" "";
     http.Request_Header :=
       <["X-Trace" := []]> (http.Request_Header Scenario.chat_request);
     http.Body := http.Body Scenario.chat_request;
     http.RemoteAddr := "192.0.2.1:1234" |}.

(** The details and the metrics of the chat request. *)
Definition chat_details : RequestDetails.t :=
  details_of Scenario.cfg Scenario.chat_request Scenario.chat_body.

Definition chat_metrics : MetricsData.t :=
  {| MetricsData.APIKey := "test-api-key";
     MetricsData.Model := "llama2";
     MetricsData.InputTokenLength := 10;
     MetricsData.OutputTokenLength := 20;
     MetricsData.RequestDurationMs := 2;
     MetricsData.Endpoint := "/api/chat" |}.

(** A process start with the three services up. *)
Definition all_up : State Scenario.world :=
  Scenario.start Scenario.cfg
    [inr (http.mkResponse 200 ""); inr (http.mkResponse 200 "");
     inr (http.mkResponse 200 "")] [].

(** A process whose proxy was built for the default backend, and whose
    backend URL has since been replaced by one that does not parse. *)
Definition prebuilt : State Scenario.world :=
  mkState (Scenario.mk 0 [] [Scenario.verdict true false] Scenario.chat_reply)
    Scenario.misconfigured (Some (url.mk "http" "localhost:11434" "" "")).

(** A process started in production mode. *)
Definition production : State Scenario.world :=
  mkState (Scenario.mk 0 [("GO_ENV", "production"); ("PROXY_PORT", "9090")] [] [])
    Scenario.cfg None.

End Cases.


(* ================================================================== *)
(** * Properties *)
(* ================================================================== *)

(** ** Facts about string slicing *)

Section StringFacts.

Lemma len_app a b : len (a +:+ b) = (len a + len b)%nat.
Proof. unfold len. induction a as [|c a IH]; simpl; [done | by rewrite IH]. Qed.

Lemma app_cons c a b : String c a +:+ b = String c (a +:+ b).
Proof. reflexivity. Qed.

Lemma app_nil_l b : "" +:+ b = b.
Proof. reflexivity. Qed.

Lemma app_empty_r a : a +:+ "" = a.
Proof. induction a as [|c a IH]; [done | by rewrite app_cons, IH]. Qed.

Lemma app_assoc_s a b c : (a +:+ b) +:+ c = a +:+ (b +:+ c).
Proof. induction a as [|x a IH]; [done | by rewrite !app_cons, IH]. Qed.

Lemma substring_all s : String.substring 0 (len s) s = s.
Proof. unfold len. induction s as [|c s IH]; simpl; [done | by rewrite IH]. Qed.

Lemma substring_skip a b m :
  String.substring (len a) m (a +:+ b) = String.substring 0 m b.
Proof.
  unfold len. induction a as [|c a IH]; [done|].
  rewrite app_cons. simpl. exact IH.
Qed.

Lemma substring_head a b :
  String.substring 0 (len a) (a +:+ b) = a.
Proof.
  unfold len. induction a as [|c a IH].
  - rewrite app_nil_l. by destruct b.
  - rewrite app_cons. simpl. by rewrite IH.
Qed.

Lemma from_app a b : from (a +:+ b) (len a) = b.
Proof.
  unfold from, slice. rewrite len_app, substring_skip.
  replace (len a + len b - len a)%nat with (len b) by lia.
  apply substring_all.
Qed.

(** Every string splits at any position inside it. *)
Lemma slice_split s n :
  (n <= len s)%nat -> s = slice s 0 n +:+ from s n.
Proof.
  unfold from, slice, len. revert n.
  induction s as [|c s IH]; intros n Hn; simpl in *.
  - by destruct n.
  - destruct n as [|n]; simpl.
    + rewrite app_nil_l. f_equal. symmetry. apply (substring_all s).
    + rewrite app_cons. f_equal.
      specialize (IH n ltac:(lia)). rewrite Nat.sub_0_r in IH. exact IH.
Qed.


Lemma HasPrefix_app a b : HasPrefix (a +:+ b) a = true.
Proof.
  unfold HasPrefix, slice. rewrite len_app, Nat.sub_0_r, substring_head.
  rewrite String.eqb_refl, andb_true_r. apply Nat.leb_le. lia.
Qed.


Lemma HasPrefix_inv s t :
  HasPrefix s t = true -> s = t +:+ from s (len t).
Proof.
  unfold HasPrefix. intros [Hl He]%andb_true_iff.
  apply Nat.leb_le in Hl. apply String.eqb_eq in He.
  rewrite (slice_split s (len t)) at 1 by lia. by rewrite He.
Qed.



End StringFacts.

(** ** The JSON parser has fuel enough *)

Section Fuel.

Lemma len_String c s : len (String c s) = S (len s).
Proof. reflexivity. Qed.

Lemma skipws_len s : (len (skipws s) <= len s)%nat.
Proof.
  induction s as [|c s IH]; [done|]. simpl skipws.
  destruct (isSpace c); unfold len in *; simpl; lia.
Qed.

Lemma starts_with_len c s r : starts_with c s = Some r -> len s = S (len r).
Proof.
  destruct s as [|c' s]; [done|]. simpl.
  destruct (Ascii.eqb c' c); [|done]. by intros [= ->].
Qed.

Lemma digits_len s ds r : digits s = (ds, r) -> (len r <= len s)%nat.
Proof.
  revert ds r. induction s as [|c s IH]; intros ds r; simpl.
  - by intros [= <- <-].
  - destruct (isDigit c).
    + destruct (digits s) as [ds' r'] eqn:E. intros [= <- <-].
      specialize (IH _ _ eq_refl). unfold len in *; simpl; lia.
    + by intros [= <- <-].
Qed.

Lemma prepend_inv pre res str r :
  prepend pre res = Some (str, r) -> exists str', res = Some (str', r).
Proof. destruct res as [[s' r']|]; [|done]. intros [= _ <-]. eauto. Qed.

Ltac split_match H :=
  repeat match type of H with
         | context [if ?b then _ else _] => destruct b eqn:?
         | context [match ?x with _ => _ end] => destruct x eqn:?
         end;
  try discriminate H.

Lemma unquote_len_aux n : forall s str r,
  (len s <= n)%nat -> unquote s = Some (str, r) -> (len r < len s)%nat.
Proof.
  induction n as [|n IH]; intros s str r Hn Hu.
  - destruct s; [done|]. unfold len in Hn; simpl in Hn; lia.
  - destruct s as [|c r0]; [done|]. simpl in Hu.
    split_match Hu;
      try (injection Hu as <- <-; unfold len; simpl; lia);
      apply prepend_inv in Hu as [str' Hu];
      apply IH in Hu; unfold len in *; simpl in *; lia.
Qed.

Lemma unquote_len s str r :
  unquote s = Some (str, r) -> (len r < len s)%nat.
Proof. by apply (unquote_len_aux (len s)). Qed.

Lemma number_len s lit r : number s = Some (lit, r) -> (len r < len s)%nat.
Proof.
  unfold number. intros Hn.
  repeat match type of Hn with
         | context [starts_with ?c ?x] =>
           let E := fresh "E" in
           destruct (starts_with c x) eqn:E; [apply starts_with_len in E|clear E]
         | context [digits ?x] =>
           let E := fresh "E" in
           destruct (digits x) eqn:E; apply digits_len in E
         | context [if ?b then _ else _] => destruct b eqn:?
         | context [match ?x with _ => _ end] => destruct x eqn:?
         end;
    try discriminate Hn.
  all: repeat match goal with
         | H : Some _ = Some _ |- _ => injection H as <- <-
         | H : (_, _) = (_, _) |- _ => injection H as <- <-
         end.
  all: unfold len in *; simpl in *; try lia.
Qed.

Lemma literal_len lit v s v' r :
  lit <> "" -> literal lit v s = Some (v', r) -> (len r < len s)%nat.
Proof.
  unfold literal. intros Hl. destruct (HasPrefix s lit) eqn:E; [|done].
  intros [= _ <-]. apply HasPrefix_inv in E.
  assert (len s = len lit + len (from s (len lit)))%nat as ->
    by (rewrite E at 1; apply len_app).
  destruct lit; [done|]. unfold len; simpl; lia.
Qed.

Ltac fuel_facts H :=
  repeat match type of H with
         | context [skipws ?x] =>
           let E := fresh "E" in
           pose proof (skipws_len x);
           destruct (skipws x) eqn:E
         | context [starts_with ?c ?x] =>
           let E := fresh "E" in
           destruct (starts_with c x) eqn:E; [apply starts_with_len in E|clear E]
         | context [unquote ?x] =>
           let E := fresh "E" in
           destruct (unquote x) as [[? ?]|] eqn:E; [apply unquote_len in E|clear E]
         | context [number ?x] =>
           let E := fresh "E" in
           destruct (number x) as [[? ?]|] eqn:E; [apply number_len in E|clear E]
         | context [literal ?l ?v ?x] =>
           let E := fresh "E" in
           destruct (literal l v x) as [[? ?]|] eqn:E;
           [apply literal_len in E; [|done]|clear E]
         | context [if ?b then _ else _] => destruct b eqn:?
         end;
  try discriminate H.

(** A parse consumes input: what is left is shorter than what was given. *)
Lemma parse_len f :
  (forall s v r, parse_value f s = Some (v, r) -> (len r < len s)%nat)
  /\ (forall s acc v r,
        parse_elements f s acc = Some (v, r) -> (len r < len s)%nat)
  /\ (forall s acc v r,
        parse_members f s acc = Some (v, r) -> (len r < len s)%nat).
Proof.
  induction f as [|f (IHv & IHe & IHm)]; [done|].
  repeat split.
  - intros s v r Hp. simpl in Hp. unfold value_step in Hp. fuel_facts Hp;
      try (injection Hp as <- <-);
      try apply IHm in Hp; try apply IHe in Hp;
      unfold len in *; simpl in *; lia.
  - intros s acc v r Hp. simpl in Hp. unfold elements_step in Hp.
    destruct (parse_value f s) as [[v1 r1]|] eqn:Ev; [|done].
    apply IHv in Ev. fuel_facts Hp;
      try (injection Hp as <- <-); try apply IHe in Hp;
      unfold len in *; simpl in *; lia.
  - intros s acc v r Hp. simpl in Hp. unfold members_step in Hp.
    fuel_facts Hp.
    all: match type of Hp with
         | context [parse_value ?g ?x] =>
           destruct (parse_value g x) as [[v1 r1]|] eqn:Ev; [|done];
           apply IHv in Ev
         end.
    all: fuel_facts Hp;
      try (injection Hp as <- <-); try apply IHm in Hp;
      unfold len in *; simpl in *; lia.
Qed.

(** The steps look at their parsers only on shorter inputs. *)
Lemma value_step_ext e1 m1 e2 m2 s :
  (forall r acc, (len r < len s)%nat -> e1 r acc = e2 r acc) ->
  (forall r acc, (len r < len s)%nat -> m1 r acc = m2 r acc) ->
  value_step e1 m1 s = value_step e2 m2 s.
Proof.
  intros He Hm. unfold value_step.
  pose proof (skipws_len s). destruct (skipws s) as [|c r]; [done|].
  assert (len r < len s)%nat by (unfold len in *; simpl in *; lia).
  by rewrite He, Hm.
Qed.

Lemma elements_step_ext v1 e1 v2 e2 s acc :
  v1 s = v2 s ->
  (forall v r, v2 s = Some (v, r) -> (len r < len s)%nat) ->
  (forall r acc, (S (len r) < len s)%nat -> e1 r acc = e2 r acc) ->
  elements_step v1 e1 s acc = elements_step v2 e2 s acc.
Proof.
  intros Hv Hl He. unfold elements_step. rewrite Hv.
  destruct (v2 s) as [[v r]|] eqn:E; [|done]. specialize (Hl v r eq_refl).
  pose proof (skipws_len r). destruct (skipws r) as [|c r']; [done|].
  rewrite He; [done|]. unfold len in *; simpl in *; lia.
Qed.

Lemma members_step_ext v1 m1 v2 m2 s acc :
  (forall r, (len r < len s)%nat -> v1 r = v2 r) ->
  (forall x v r, v2 x = Some (v, r) -> (len r < len x)%nat) ->
  (forall r acc, (S (len r) < len s)%nat -> m1 r acc = m2 r acc) ->
  members_step v1 m1 s acc = members_step v2 m2 s acc.
Proof.
  intros Hv Hl Hm. unfold members_step.
  pose proof (skipws_len s).
  destruct (starts_with dquote (skipws s)) as [r|] eqn:E1; [|done].
  apply starts_with_len in E1.
  destruct (unquote r) as [[k r1]|] eqn:E2; [|done]. apply unquote_len in E2.
  pose proof (skipws_len r1).
  destruct (starts_with ":" (skipws r1)) as [r2|] eqn:E3; [|done].
  apply starts_with_len in E3.
  rewrite Hv by lia.
  destruct (v2 r2) as [[v r3]|] eqn:E4; [|done]. apply Hl in E4.
  pose proof (skipws_len r3). destruct (skipws r3) as [|c r4]; [done|].
  rewrite Hm; [done|]. unfold len in *; simpl in *; lia.
Qed.

(** Beyond twice the length of the input, more fuel changes nothing. *)
Lemma parse_fuel_step f :
  (forall s, (2 * len s + 2 <= f)%nat -> parse_value (S f) s = parse_value f s)
  /\ (forall s acc, (2 * len s + 3 <= f)%nat ->
        parse_elements (S f) s acc = parse_elements f s acc)
  /\ (forall s acc, (2 * len s + 3 <= f)%nat ->
        parse_members (S f) s acc = parse_members f s acc).
Proof.
  induction f as [|f (IHv & IHe & IHm)]; [repeat split; intros; lia|].
  destruct (parse_len f) as (Lv & _).
  repeat split.
  - intros s Hf. change (value_step (parse_elements (S f)) (parse_members (S f)) s
                         = value_step (parse_elements f) (parse_members f) s).
    apply value_step_ext; intros r acc Hr; [apply IHe | apply IHm]; lia.
  - intros s acc Hf.
    change (elements_step (parse_value (S f)) (parse_elements (S f)) s acc
            = elements_step (parse_value f) (parse_elements f) s acc).
    apply elements_step_ext.
    + apply IHv. lia.
    + apply Lv.
    + intros r acc' Hr. apply IHe. lia.
  - intros s acc Hf.
    change (members_step (parse_value (S f)) (parse_members (S f)) s acc
            = members_step (parse_value f) (parse_members f) s acc).
    apply members_step_ext.
    + intros r Hr. apply IHv. lia.
    + apply Lv.
    + intros r acc' Hr. apply IHm. lia.
Qed.

(** The fuel [parse] gives is enough: with any larger amount the parser
    returns the same, so it never fails for want of fuel. *)
Lemma parse_fuel_enough s f :
  (2 * len s + 4 <= f)%nat -> parse_value f s = parse s.
Proof.
  unfold parse. intros Hf.
  replace f with ((f - (2 * len s + 4)) + (2 * len s + 4))%nat by lia.
  induction (f - (2 * len s + 4))%nat as [|k IH]; [done|].
  rewrite <- IH. apply (parse_fuel_step (k + (2 * len s + 4))). lia.
Qed.

End Fuel.

(** ** The reverse-proxy director *)



(** The joining examples of the specification: base [/x/] and path [/y],
    base [/x] and path [y]. *)
Example join_trailing_and_leading : singleJoiningSlash "/x/" "/y" = "/x/y".
Proof. reflexivity. Qed.

Example join_neither : singleJoiningSlash "/x" "y" = "/x/y".
Proof. reflexivity. Qed.

Example join_only_trailing : singleJoiningSlash "/x/" "y" = "/x/y".
Proof. reflexivity. Qed.

Example join_only_leading : singleJoiningSlash "/x" "/y" = "/x/y".
Proof. reflexivity. Qed.

Example join_empty_base : singleJoiningSlash "" "/api/chat" = "/api/chat".
Proof. reflexivity. Qed.

(** ** Model and token extraction *)




(** The examples of the specification: a chat body under [/api/chat] and
    under a path that is not recognised; a body that is not JSON; a body
    whose members do not fit the request shape. *)
Example model_of_chat_request :
  getModelFromRequest "/api/chat"
    (jq "{'model':'llama2', 'messages':[{'role':'user','content':'Hello'}]}")
  = "llama2".
Proof. vm_compute. reflexivity. Qed.

Example model_of_unknown_path :
  getModelFromRequest "/api/unknown"
    (jq "{'model':'llama2', 'messages':[{'role':'user','content':'Hello'}]}")
  = "".
Proof. vm_compute. reflexivity. Qed.

Example model_of_prefixed_path :
  getModelFromRequest "/v1/api/create" (jq "{'model':'custom-model'}")
  = "custom-model".
Proof. vm_compute. reflexivity. Qed.

Example model_of_invalid_json :
  getModelFromRequest "/api/chat" "invalid json" = "".
Proof. vm_compute. reflexivity. Qed.

Example model_of_ill_typed_body :
  getModelFromRequest "/api/generate" (jq "{'model':'mistral', 'stream':'yes'}")
  = "".
Proof. vm_compute. reflexivity. Qed.




(** The examples of the specification. *)
Example tokens_of_chat_response :
  getTokenCountsFromResponse "/api/chat"
    (jq "{'prompt_eval_count':10,'eval_count':20}") = (10, 20).
Proof. vm_compute. reflexivity. Qed.

Example tokens_of_generate_response :
  getTokenCountsFromResponse "/api/generate"
    (jq "{'model':'mistral','response':'ok','done':true,'prompt_eval_count':15,'eval_count':25}")
  = (15, 25).
Proof. vm_compute. reflexivity. Qed.

Example tokens_of_embed_response :
  getTokenCountsFromResponse "/api/embed" (jq "{'prompt_eval_count':5}") = (5, 0).
Proof. vm_compute. reflexivity. Qed.

Example tokens_of_invalid_json :
  getTokenCountsFromResponse "/api/chat" "invalid json" = (0, 0).
Proof. vm_compute. reflexivity. Qed.

Example tokens_of_unknown_path :
  getTokenCountsFromResponse "/api/unknown"
    (jq "{'prompt_eval_count':10,'eval_count':20}") = (0, 0).
Proof. vm_compute. reflexivity. Qed.

(** A streamed reply is several documents, not one: it does not decode. *)
Example tokens_of_streamed_response :
  getTokenCountsFromResponse "/api/chat"
    (jq "{'done':false,'eval_count':1} {'done':true,'prompt_eval_count':10,'eval_count':20}")
  = (0, 0).
Proof. vm_compute. reflexivity. Qed.

(** ** Running computations *)

Section Exec.
Context {Σ : Type} `{World Σ}.

Lemma after_nil {A} (o : Outcome Σ A) : after [] o = o.
Proof. by destruct o. Qed.

Lemma after_after {A} e1 e2 (o : Outcome Σ A) :
  after e1 (after e2 o) = after (e1 ++ e2) o.
Proof. unfold after. simpl. by rewrite app_assoc. Qed.

Lemma bind_run {A B} (m : M Σ A) (k : A -> M Σ B) st a st1 e1 :
  m st = mkOutcome (Ok a) st1 e1 -> bind m k st = after e1 (k a st1).
Proof. intros E. unfold bind. by rewrite E. Qed.

Lemma bind_ret {A B} (a : A) (k : A -> M Σ B) st : bind (ret a) k st = k a st.
Proof. rewrite (bind_run _ _ _ a st []) by done. apply after_nil. Qed.

Lemma bind_get_config {B} (k : Config -> M Σ B) st :
  bind get_config k st = k (config st) st.
Proof. rewrite (bind_run _ _ _ (config st) st []) by done. apply after_nil. Qed.

Lemma bind_emit {B} e (k : unit -> M Σ B) st :
  bind (emit e) k st = after [e] (k tt st).
Proof. by rewrite (bind_run _ _ _ tt st [e]). Qed.

Lemma bind_ask {A B} (f : Σ -> A * Σ) (k : A -> M Σ B) st :
  bind (ask f) k st = k (f (world st)).1 (with_world st (f (world st)).2).
Proof.
  rewrite (bind_run _ _ _ (f (world st)).1 (with_world st (f (world st)).2) [])
    by done.
  apply after_nil.
Qed.

Lemma bind_now {B} (k : Z -> M Σ B) st :
  bind now k st
  = k (time_Now (world st)).1 (with_world st (time_Now (world st)).2).
Proof. apply bind_ask. Qed.

Lemma bind_read {A B} (f : Σ -> A) (k : A -> M Σ B) st :
  bind (read f) k st = k (f (world st)) st.
Proof. rewrite (bind_run _ _ _ (f (world st)) st []) by done. apply after_nil. Qed.

Lemma bind_bind {A B C} (m : M Σ A) (k1 : A -> M Σ B) (k2 : B -> M Σ C) st :
  bind (bind m k1) k2 st = bind m (fun a => bind (k1 a) k2) st.
Proof.
  unfold bind. destruct (m st) as [[a|msg|c] st1 e1]; simpl; [|done..].
  destruct (k1 a st1) as [[b|msg|c] st2 e2]; simpl; [|done..].
  by rewrite app_assoc.
Qed.

Lemma logger_Log_run level message fields (st : State Σ) :
  logger_Log level message fields st
  = mkOutcome (Ok tt) (with_world st (time_Now (world st)).2)
      [ELog (time_Now (world st)).1 level message fields].
Proof. unfold logger_Log. rewrite bind_now. done. Qed.

Lemma bind_Log {B} level message fields (k : unit -> M Σ B) st :
  bind (logger_Log level message fields) k st
  = after [ELog (time_Now (world st)).1 level message fields]
      (k tt (with_world st (time_Now (world st)).2)).
Proof. by rewrite (bind_run _ _ _ _ _ _ (logger_Log_run _ _ _ _)). Qed.

Lemma getSecureHTTPClient_run (st : State Σ) :
  exists c σ evs,
    getSecureHTTPClient st = mkOutcome (Ok c) (with_world st σ) evs
    /\ forallb is_Printf evs = true.
Proof.
  unfold getSecureHTTPClient. rewrite bind_get_config.
  destruct (negb _).
  - rewrite bind_bind, bind_ask.
    destruct (tls_LoadX509KeyPair _ _ _).1 as [err|cert].
    + rewrite bind_bind. unfold log_Printf. rewrite bind_emit, !bind_ret.
      unfold after, ret; simpl. eauto 10.
    + rewrite !bind_ret. unfold ret. eauto 10.
  - rewrite !bind_ret. unfold ret, with_world. destruct st; simpl.
    eexists _, _, []. split; [reflexivity | done].
Qed.


Lemma Client_Do_run client req (st : State Σ) :
  Client_Do client req st
  = mkOutcome (Ok (client_Do client req (world st)).1)
      (with_world st (client_Do client req (world st)).2)
      [EClientDo client req (client_Do client req (world st)).1].
Proof.
  unfold Client_Do. rewrite bind_ask, bind_emit. unfold ret, after. done.
Qed.


Lemma approving_dec res :
  approving res
  <-> match res with
      | inr resp =>
        http.StatusCode resp = 200
        /\ exists v, ValidationResponse.Decode (http.ResponseBody resp) = Some v
             /\ ValidationResponse.Valid v && negb (ValidationResponse.RateLimited v) = true
      | inl _ => False
      end.
Proof.
  unfold approving. split.
  - intros (resp & v & -> & Hs & Hd & Hv & Hr). split; [done|].
    exists v. by rewrite Hv, Hr.
  - destruct res as [err|resp]; [done|]. intros (Hs & v & Hd & Hv).
    apply andb_true_iff in Hv as [Hv Hr]. apply negb_true_iff in Hr.
    by exists resp, v.
Qed.

(** What a validation call leaves behind: nothing but log lines when the
    request could not be built, else log lines around exactly one outbound
    call, a POST to the validation URL carrying the encoded details; the
    verdict is [true] exactly when the answer to that call approves. *)
Lemma validateRequest_run (d : RequestDetails.t) (st : State Σ) :
  exists b σ evs,
    validateRequest d st = mkOutcome (Ok b) (with_world st σ) evs
    /\ validation_events (config st) d b evs.
Proof.
  unfold validateRequest, validation_events.
  destruct (RequestDetails.Marshal d) as [err|payload] eqn:EM.
  { unfold logger_Error. rewrite bind_Log. unfold ret, after; simpl.
    eexists _, _, _. split; [reflexivity|]. by left. }
  rewrite bind_get_config.
  destruct (http_NewRequest _ _ _) as [err|req] eqn:ER.
  { unfold logger_Error. rewrite bind_Log. unfold ret, after; simpl.
    eexists _, _, _. split; [reflexivity|]. by left. }
  rewrite bind_now.
  destruct (getSecureHTTPClient_run (with_world st (time_Now (world st)).2))
    as (c & σ & evs & Ec & Hevs).
  rewrite (bind_run _ _ _ _ _ _ Ec).
  rewrite (bind_run _ _ _ _ _ _ (Client_Do_run _ _ _)).
  set (req' := set_header _ _ _).
  assert (Hreq : http.OutMethod req' = "POST"
                 /\ http.OutURL req' = externalValidationURL (config st)
                 /\ http.OutBody req' = Some payload).
  { unfold http_NewRequest in ER. destruct (url_Parse _); [done|].
    injection ER as <-. done. }
  destruct Hreq as (Hm & Hu & Hb).
  assert (Hpre : forallb is_Log evs = true).
  { clear -Hevs. induction evs as [|[] evs IH]; simpl in *; try done. auto. }
  destruct (client_Do c req' _) as [res σ'] eqn:ED. simpl.
  destruct res as [err|resp].
  { unfold logger_Error. rewrite bind_Log. unfold ret, after; simpl.
    eexists _, _, _. split; [reflexivity|]. right.
    eexists c, req', _, evs, _. split; [reflexivity|].
    repeat split; eauto; try done. by intros ?%approving_dec. }
  destruct (http.StatusCode resp =? http.StatusOK) eqn:Es; simpl.
  2:{ unfold logger_Warning. rewrite bind_Log. unfold ret, after; simpl.
      eexists _, _, _. split; [reflexivity|]. right.
      eexists c, req', _, evs, _. split; [reflexivity|].
      repeat split; eauto; try done.
      intros [Hs _]%approving_dec. apply Z.eqb_neq in Es. done. }
  apply Z.eqb_eq in Es.
  destruct (ValidationResponse.Decode _) as [v|] eqn:Ev.
  - unfold ret, after; simpl.
    eexists _, _, _. split; [reflexivity|]. right.
    eexists c, req', _, evs, []. split; [reflexivity|].
    repeat split; eauto; try done.
    + intros Hv. apply approving_dec. split; [done|]. by exists v.
    + intros (_ & v' & Hd & Hv)%approving_dec. congruence.
  - unfold logger_Error. rewrite bind_Log. unfold ret, after; simpl.
    eexists _, _, _. split; [reflexivity|]. right.
    eexists c, req', _, evs, _. split; [reflexivity|].
    repeat split; eauto; try done.
    intros (_ & v' & Hd & Hv)%approving_dec. congruence.
Qed.

End Exec.

Section Wrapper.
Context {W : Type} `{http.ResponseWriter W}.

Lemma wrapper_Write b (rw : responseWriter W) :
  let '(res, rw') := http.Write b rw in
  res = (http.Write b (ResponseWriter rw)).1
  /\ ResponseWriter rw' = (http.Write b (ResponseWriter rw)).2
  /\ body rw' = body rw +:+ b
  /\ statusCode rw' = statusCode rw.
Proof.
  simpl. unfold responseWriter_Write.
  by destruct (http.Write b (ResponseWriter rw)).
Qed.

Lemma wrapper_op op (rw : responseWriter W) :
  ResponseWriter (http.apply_op op rw) = http.apply_op op (ResponseWriter rw)
  /\ body (http.apply_op op rw) = body rw +:+ written [op]
  /\ statusCode (http.apply_op op rw) = last_status (statusCode rw) [op].
Proof.
  destruct op; simpl; rewrite ?app_empty_r; try done.
  unfold responseWriter_Write.
  by destruct (http.Write b (ResponseWriter rw)).
Qed.

Lemma written_app ops1 ops2 : written (ops1 ++ ops2) = written ops1 +:+ written ops2.
Proof.
  induction ops1 as [|[] ops1 IH]; simpl; rewrite ?app_nil_l; try done.
  by rewrite IH, app_assoc_s.
Qed.

Lemma wrapper_ops ops (rw : responseWriter W) :
  ResponseWriter (http.apply_ops ops rw) = http.apply_ops ops (ResponseWriter rw)
  /\ body (http.apply_ops ops rw) = body rw +:+ written ops
  /\ statusCode (http.apply_ops ops rw) = last_status (statusCode rw) ops.
Proof.
  revert rw. induction ops as [|op ops IH]; intros rw.
  - simpl. by rewrite app_empty_r.
  - unfold http.apply_ops, last_status in *. simpl fold_left.
    destruct (IH (http.apply_op op rw)) as (-> & -> & ->).
    destruct (wrapper_op op rw) as (-> & -> & ->).
    change (written (op :: ops)) with (written ([op] ++ ops)).
    by rewrite written_app, app_assoc_s.
Qed.

End Wrapper.

Section Handler.
Context {Σ : Type} `{World Σ} {W : Type} `{http.ResponseWriter W}.

Lemma getReverseProxy_run (st : State Σ) :
  match proxy_target st with
  | Some targetURL =>
    getReverseProxy st
    = mkOutcome (Ok targetURL)
        (mkState (world st) (config st) (Some targetURL)) []
  | None =>
    exists message, getReverseProxy st = mkOutcome (Exit 1) st [EPrintf message]
  end.
Proof.
  unfold proxy_target, getReverseProxy.
  destruct st as [σ cfg [t|]]; simpl; [done|].
  destruct (url_Parse (ollamaURL cfg)) as [err|t]; [|done].
  unfold log_Fatalf. rewrite bind_emit. unfold after, os_Exit; simpl. eauto.
Qed.

Lemma proxyHandler_run (w : W) (r : http.Request) (st : State Σ) :
  handler_run w r st (proxyHandler w r st).
Proof.
  unfold proxyHandler. rewrite bind_now, bind_get_config.
  set (st0 := with_world st _). cbv zeta.
  change (config st0) with (config st).
  fold (apiKey_of (config st) r).
  destruct (String.eqb_spec (apiKey_of (config st) r) "") as [Hk|Hk].
  { unfold logger_Warning.
   rewrite bind_Log. unfold ret, after; simpl.
    by eapply run_missing_key. }
  unfold copyHeaders.
  destruct (bool_decide_reflect (map_Forall (fun _ v => v <> []) (http.Request_Header r))) as [Hh|Hh].
  2:{ by eapply run_panic. }
  rewrite bind_ret.
  destruct (http.Body r) as [bodyBytes|err] eqn:Eb.
  2:{ unfold logger_Error. rewrite bind_Log. unfold ret, after; simpl.
      by eapply run_unreadable. }
  fold (first_values r). fold (details_of (config st) r bodyBytes).
  destruct (validateRequest_run (details_of (config st) r bodyBytes) st0)
    as (b & σ & evs & Ev & Hev).
  rewrite (bind_run _ _ _ _ _ _ Ev).
  cbv beta. destruct b; cbn [negb]; cbv iota.
  2:{ unfold logger_Warning. rewrite bind_Log. unfold ret, after; simpl.
      by eapply run_rejected. }
  pose proof (getReverseProxy_run (with_world st0 σ)) as Hp.
  change (proxy_target (with_world st0 σ)) with (proxy_target st) in Hp.
  destruct (proxy_target st) as [targetURL|] eqn:Et.
  2:{ destruct Hp as [message Hp]. unfold bind at 1. rewrite Hp.
      unfold after; simpl. by eapply run_fatal. }
  rewrite (bind_run _ _ _ _ _ _ Hp).
  unfold ReverseProxy_ServeHTTP. rewrite bind_bind, bind_ask, bind_bind, bind_emit.
  rewrite !bind_ret, bind_now.
  fold (forwarded targetURL r bodyBytes).
  set (ops := (proxy_ServeHTTP _ _).1).
  destruct (wrapper_ops ops (mkResponseWriter w "" 0)) as (Hw & Hb & Hs).
  simpl in Hw, Hb, Hs. rewrite app_nil_l in Hb. rewrite Hb.
  destruct (getTokenCountsFromResponse _ (written ops)) as [inputTokens outputTokens] eqn:Etok.
  unfold logger_RequestLog. rewrite bind_Log. unfold go_sendMetrics.
  rewrite bind_emit. unfold ret, after; simpl. rewrite Hw.
  eapply run_served; simpl; try done.
  by rewrite Etok.
Qed.
End Handler.

(** ** Events of a run *)

Section Events.

Lemma logs_no_calls evs :
  forallb is_Log evs = true ->
  client_calls evs = [] /\ backend_calls evs = [] /\ metrics_dispatches evs = [].
Proof.
  unfold client_calls, backend_calls, metrics_dispatches.
  induction evs as [|[] evs IH]; simpl; try done; auto.
Qed.

Lemma logs_no_ClientDo evs client req res :
  forallb is_Log evs = true -> ~ In (EClientDo client req res) evs.
Proof.
  induction evs as [|e evs IH]; simpl; [tauto|].
  intros [He Hr]%andb_true_iff [->|Hin]; [done | by apply IH].
Qed.

Lemma filter_snoc (f : Event -> bool) evs e :
  List.filter f (evs ++ [e]) = List.filter f evs ++ (if f e then [e] else []).
Proof. by rewrite List.filter_app. Qed.

Context (cfg : Config) (d : RequestDetails.t) (b : bool) (evs : list Event).
Hypothesis Hev : validation_events cfg d b evs.

Lemma validation_no_backend :
  backend_calls evs = [] /\ metrics_dispatches evs = [].
Proof.
  destruct Hev as [[_ Hl]|(c & req & res & pre & post & -> & Hpre & Hpost & _)].
  - by destruct (logs_no_calls _ Hl) as (_ & ? & ?).
  - destruct (logs_no_calls _ Hpre) as (_ & Hb1 & Hm1).
    destruct (logs_no_calls _ Hpost) as (_ & Hb2 & Hm2).
    unfold backend_calls, metrics_dispatches in *.
    rewrite !List.filter_app. simpl. by rewrite Hb1, Hb2, Hm1, Hm2.
Qed.

Lemma validation_one_call :
  (length (client_calls evs) <= 1)%nat.
Proof.
  destruct Hev as [[_ Hl]|(c & req & res & pre & post & -> & Hpre & Hpost & _)].
  - destruct (logs_no_calls _ Hl) as (-> & _). simpl. lia.
  - destruct (logs_no_calls _ Hpre) as (Hc1 & _).
    destruct (logs_no_calls _ Hpost) as (Hc2 & _).
    unfold client_calls in *. rewrite List.filter_app. simpl.
    rewrite Hc1, Hc2. simpl. lia.
Qed.

Lemma validation_call_inv client req res :
  In (EClientDo client req res) evs ->
  http.OutMethod req = "POST"
  /\ http.OutURL req = externalValidationURL cfg
  /\ (exists payload, RequestDetails.Marshal d = inr payload
                      /\ http.OutBody req = Some payload)
  /\ (b = true <-> approving res).
Proof.
  intros Hin.
  destruct Hev as [[_ Hl]|(c & req' & res' & pre & post & -> & Hpre & Hpost & Hr)].
  - by apply logs_no_ClientDo in Hin.
  - apply in_app_or in Hin as [Hin|[Heq|Hin]].
    + by apply logs_no_ClientDo in Hin.
    + by injection Heq as -> -> ->.
    + by apply logs_no_ClientDo in Hin.
Qed.

Lemma validation_verdict : b = true <-> validation_approved evs.
Proof.
  split.
  - intros ->.
    destruct Hev as [[? _]|(c & req & res & pre & post & -> & _ & _ & _& _ & _ & Hb)];
      [done|].
    exists c, req, res. split; [|by apply Hb].
    apply in_or_app. right. by left.
  - intros (c & req & res & Hin & Ha).
    by apply (validation_call_inv _ _ _ Hin).
Qed.

End Events.

Lemma validation_approved_app evs tail :
  forallb (fun e => negb (is_ClientDo e)) tail = true ->
  validation_approved (evs ++ tail) <-> validation_approved evs.
Proof.
  intros Ht. unfold validation_approved. split.
  - intros (c & req & res & Hin & Ha). exists c, req, res. split; [|done].
    apply in_app_or in Hin as [Hin|Hin]; [done|].
    rewrite forallb_forall in Ht. by apply Ht in Hin.
  - intros (c & req & res & Hin & Ha). exists c, req, res. split; [|done].
    apply in_or_app. by left.
Qed.

Section HandlerClaims.
Context {Σ : Type} `{World Σ} {W : Type} `{http.ResponseWriter W}.


End HandlerClaims.

Lemma approvingb_spec res : approvingb res = true <-> approving res.
Proof.
  rewrite approving_dec. unfold approvingb.
  destruct res as [err|resp]; [done|].
  rewrite andb_true_iff, Z.eqb_eq.
  destruct (ValidationResponse.Decode _) as [v|]; split.
  - intros [? ?]. eauto.
  - intros [? (v' & [= <-] & ?)]. done.
  - intros [_ [=]].
  - intros [_ (v' & [=] & _)].
Qed.

Lemma validation_approvedb_spec evs :
  validation_approvedb evs = true <-> validation_approved evs.
Proof.
  unfold validation_approvedb, validation_approved.
  rewrite existsb_exists. split.
  - intros ([] & Hin & He); try done. apply approvingb_spec in He. eauto.
  - intros (c & req & res & Hin & Ha). exists (EClientDo c req res).
    split; [done|]. by apply approvingb_spec.
Qed.

Lemma In_app_tail (e : Event) evs tail :
  is_ClientDo e = true ->
  forallb (fun e => negb (is_ClientDo e)) tail = true ->
  In e (evs ++ tail) -> In e evs.
Proof.
  intros He Ht [Hin|Hin]%in_app_or; [done|].
  rewrite forallb_forall in Ht. apply Ht in Hin. by rewrite He in Hin.
Qed.

Lemma tokens_zero_when_undecodable path responseBody :
  ChatResponse.Unmarshal responseBody = None ->
  GenerateResponse.Unmarshal responseBody = None ->
  EmbedResponse.Unmarshal responseBody = None ->
  getTokenCountsFromResponse path responseBody = (0, 0).
Proof.
  intros Hc Hg He. unfold getTokenCountsFromResponse.
  rewrite Hc, Hg, He.
  destruct (HasSuffix path "/api/chat"); [done|].
  destruct (HasSuffix path "/api/generate"); [done|].
  by destruct (HasSuffix path "/api/embed").
Qed.

Section HandlerClaims2.
Context {Σ : Type} `{World Σ} {W : Type} `{http.ResponseWriter W}.

(** The key the handler reads is empty when the configured header name is
    absent from the request, carries no value, or carries the empty string
    as its first value. *)
Lemma apiKey_of_empty (cfg : Config) (r : http.Request) :
  apiKey_of cfg r = ""
  <-> match http.Request_Header r
              !! http.CanonicalHeaderKey (apiKeyHeaderName cfg) with
      | None | Some [] => True
      | Some (v :: _) => v = ""
      end.
Proof.
  unfold apiKey_of, http.Header_Get.
  by destruct (_ !! _) as [[|v vs]|].
Qed.

(** C2. When the configured API-key header is absent or empty the handler
    answers 401 Unauthorized and stops: the run consists of the warning
    line alone, so it makes no validation call (no outbound call at all),
    no backend call and no metrics dispatch, and it leaves the
    configuration and the proxy as they were. *)
Theorem C2_missing_key_unauthorized (w : W) (r : http.Request) (st : State Σ) :
  apiKey_of (config st) r = "" ->
  let o := proxyHandler w r st in
  result o = Ok (http.Error w "Unauthorized: Missing API key"
                   http.StatusUnauthorized)
  /\ (exists t fields,
        events o = [ELog t WARNING "Unauthorized: Missing API key" fields])
  /\ client_calls (events o) = []
  /\ backend_calls (events o) = []
  /\ metrics_dispatches (events o) = []
  /\ config (final o) = config st
  /\ reverseProxy (final o) = reverseProxy st.
Proof.
  intros Hk o. subst o. unfold proxyHandler.
  rewrite bind_now, bind_get_config. cbv zeta.
  change (config (with_world st _)) with (config st).
  fold (apiKey_of (config st) r). rewrite Hk. change (String.eqb "" "") with true. cbv iota.
  unfold logger_Warning. rewrite bind_Log. unfold ret, after; simpl.
  repeat split; eauto.
Qed.

(** C6. What is written through the response-capturing wrapper reaches the
    client's writer unchanged.  A [Write] appends the bytes to the capture
    buffer, passes the same bytes to the wrapped writer and returns what it
    returns; a [WriteHeader] records the status and passes it on; so after
    any sequence of calls the wrapped writer is in the state the same calls
    made on it directly would leave, the buffer holds all bytes written
    and the recorded status is the last one set.  In the handler: when the
    backend call happened, the client's writer received exactly the calls
    the reverse proxy made. *)
Theorem C6_wrapper_passes_response_through :
  (forall (b : string) (rw : responseWriter W),
      body (http.Write b rw).2 = body rw +:+ b
      /\ ResponseWriter (http.Write b rw).2 = (http.Write b (ResponseWriter rw)).2
      /\ (http.Write b rw).1 = (http.Write b (ResponseWriter rw)).1
      /\ statusCode (http.Write b rw).2 = statusCode rw)
  /\ (forall (code : Z) (rw : responseWriter W),
        statusCode (http.WriteHeader code rw) = code
        /\ ResponseWriter (http.WriteHeader code rw)
           = http.WriteHeader code (ResponseWriter rw)
        /\ body (http.WriteHeader code rw) = body rw)
  /\ (forall (ops : list http.WriterOp) (rw : responseWriter W),
        ResponseWriter (http.apply_ops ops rw)
        = http.apply_ops ops (ResponseWriter rw)
        /\ body (http.apply_ops ops rw) = body rw +:+ written ops
        /\ statusCode (http.apply_ops ops rw) = last_status (statusCode rw) ops)
  /\ (forall (w : W) (r : http.Request) (st : State Σ) fwd ops,
        In (EServeHTTP fwd ops) (events (proxyHandler w r st)) ->
        result (proxyHandler w r st) = Ok (http.apply_ops ops w)).
Proof.
  split; [|split; [|split]].
  - intros b rw. simpl. unfold responseWriter_Write.
    by destruct (http.Write b (ResponseWriter rw)).
  - done.
  - apply wrapper_ops.
  - intros w r st fwd ops Hin.
    destruct (proxyHandler_run w r st)
      as [t f _ _ He
         |msg _ _ _ He
         |err t f _ _ _ _ He
         |b' evs t f _ _ _ Hv _ He
         |b' evs msg _ _ _ Hv _ _ He
         |b' evs tgt ops' t l m f dur _ _ _ Hv _ Hr He];
      rewrite He in Hin.
    + by destruct Hin as [|[]].
    + done.
    + by destruct Hin as [|[]].
    + destruct (validation_no_backend _ _ _ _ Hv) as [Hnb _].
      assert (Hf : In (EServeHTTP fwd ops) (backend_calls (evs ++ [ELog t WARNING "Unauthorized: Invalid request" f])))
        by (by apply filter_In).
      unfold backend_calls in *. by rewrite filter_snoc, Hnb in Hf.
    + destruct (validation_no_backend _ _ _ _ Hv) as [Hnb _].
      assert (Hf : In (EServeHTTP fwd ops) (backend_calls (evs ++ [EPrintf msg])))
        by (by apply filter_In).
      unfold backend_calls in *. by rewrite filter_snoc, Hnb in Hf.
    + destruct (validation_no_backend _ _ _ _ Hv) as [Hnb _].
      match type of Hin with In _ (evs ++ ?tl) =>
        assert (Hf : In (EServeHTTP fwd ops) (backend_calls (evs ++ tl)))
          by (by apply filter_In) end.
      unfold backend_calls in *. rewrite List.filter_app, Hnb in Hf.
      simpl in Hf. destruct Hf as [[= _ <-]|[]]. done.
Qed.

End HandlerClaims2.

Section HandlerClaims3.
Context {Σ : Type} `{World Σ} {W : Type} `{http.ResponseWriter W}.

(** Every outbound call of a handler run is the validation call for the
    details of its request. *)
Lemma handler_call_inv (w : W) (r : http.Request) (st : State Σ) client req res :
  In (EClientDo client req res) (events (proxyHandler w r st)) ->
  exists bodyBytes payload,
    http.Body r = http.ReadOk bodyBytes
    /\ RequestDetails.Marshal (details_of (config st) r bodyBytes) = inr payload
    /\ http.OutBody req = Some payload
    /\ http.OutMethod req = "POST"
    /\ http.OutURL req = externalValidationURL (config st).
Proof.
  intros Hin.
  destruct (proxyHandler_run w r st)
    as [t f _ _ He
       |msg _ _ _ He
       |err t f _ _ _ _ He
       |b' evs t f _ _ Hb Hv _ He
       |b' evs msg _ _ Hb Hv _ _ He
       |b' evs tgt ops' t l m f dur _ _ Hb Hv _ _ He];
    rewrite He in Hin.
  - by destruct Hin as [|[]].
  - done.
  - by destruct Hin as [|[]].
  - apply In_app_tail in Hin; [|done..].
    destruct (validation_call_inv _ _ _ _ Hv _ _ _ Hin)
      as (? & ? & (payload & ? & ?) & _). eauto 10.
  - apply In_app_tail in Hin; [|done..].
    destruct (validation_call_inv _ _ _ _ Hv _ _ _ Hin)
      as (? & ? & (payload & ? & ?) & _). eauto 10.
  - apply In_app_tail in Hin; [|done..].
    destruct (validation_call_inv _ _ _ _ Hv _ _ _ Hin)
      as (? & ? & (payload & ? & ?) & _). eauto 10.
Qed.

(** C9. The request details sent to the validation service always have
    [inputTokenLength] equal to 0: every outbound call of a handler run
    carries the encoding of details whose [InputTokenLength] is 0 (the
    handler never assigns the field), and the encoded document has the
    member [inputTokenLength] with the number 0. *)
Theorem C9_validation_payload_input_tokens_zero
  (w : W) (r : http.Request) (st : State Σ) client req res :
  In (EClientDo client req res) (events (proxyHandler w r st)) ->
  exists details payload,
    RequestDetails.Marshal details = inr payload
    /\ http.OutBody req = Some payload
    /\ RequestDetails.InputTokenLength details = 0
    /\ member "inputTokenLength" payload = Some (JSON.Number "0").
Proof.
  intros (bodyBytes & payload & _ & Hm & Hb & _)%handler_call_inv.
  exists (details_of (config st) r bodyBytes), payload.
  repeat split; try done.
  injection Hm as <-. reflexivity.
Qed.

(** C7. The metrics a handler run dispatches carry the API key, the model
    and the endpoint of the request details the same run sent to the
    validation service, and these are the values read from the inbound
    request: the key from the configured header, the model from the request
    body, the endpoint from the request path.  Nothing the backend answers
    enters them. *)
Theorem C7_metrics_share_details_fields
  (w : W) (r : http.Request) (st : State Σ) (metrics : MetricsData.t) :
  In (EGo_sendMetrics metrics) (events (proxyHandler w r st)) ->
  exists bodyBytes details client req res payload,
    http.Body r = http.ReadOk bodyBytes
    /\ In (EClientDo client req res) (events (proxyHandler w r st))
    /\ http.OutBody req = Some payload
    /\ RequestDetails.Marshal details = inr payload
    /\ MetricsData.APIKey metrics = RequestDetails.APIKey details
    /\ MetricsData.Model metrics = RequestDetails.Model details
    /\ MetricsData.Endpoint metrics = RequestDetails.Endpoint details
    /\ RequestDetails.APIKey details = apiKey_of (config st) r
    /\ RequestDetails.Model details
       = getModelFromRequest (url.Path (http.URL r)) bodyBytes
    /\ RequestDetails.Endpoint details = url.Path (http.URL r).
Proof.
  intros Hin.
  destruct (proxyHandler_run w r st)
    as [t f _ _ He
       |msg _ _ _ He
       |err t f _ _ _ _ He
       |b' evs t f _ _ Hb Hv _ He
       |b' evs msg _ _ Hb Hv _ _ He
       |b' evs tgt ops' t l m f dur _ _ Hb Hv _ _ He];
    rewrite He in *.
  - by destruct Hin as [|[]].
  - done.
  - by destruct Hin as [|[]].
  - destruct (validation_no_backend _ _ _ _ Hv) as [_ Hnm].
    unfold metrics_dispatches in *.
    match type of Hin with In _ (evs ++ ?tl) =>
      assert (Hf : In (EGo_sendMetrics metrics) (List.filter is_sendMetrics (evs ++ tl)))
        by (by apply filter_In) end.
    by rewrite filter_snoc, Hnm in Hf.
  - destruct (validation_no_backend _ _ _ _ Hv) as [_ Hnm].
    unfold metrics_dispatches in *.
    assert (Hf : In (EGo_sendMetrics metrics) (List.filter is_sendMetrics (evs ++ [EPrintf msg])))
      by (by apply filter_In).
    by rewrite filter_snoc, Hnm in Hf.
  - destruct (validation_no_backend _ _ _ _ Hv) as [_ Hnm].
    unfold metrics_dispatches in *.
    match type of Hin with In _ (evs ++ ?tl) =>
      assert (Hf : In (EGo_sendMetrics metrics) (List.filter is_sendMetrics (evs ++ tl)))
        by (by apply filter_In) end.
    rewrite List.filter_app, Hnm in Hf. simpl in Hf.
    destruct Hf as [[= <-]|[]].
    destruct Hv as [[? _]|(c & req & res & pre & post & -> & _ & _ & _ & _ & (payload & Hm & Hbd) & _)];
      [done|].
    exists b', (details_of (config st) r b'), c, req, res, payload.
    repeat split; try done.
    rewrite <- app_assoc. apply in_or_app. right. by left.
Qed.


End HandlerClaims3.

Section HandlerClaims4.
Context {Σ : Type} `{World Σ} {W : Type} `{http.ResponseWriter W}.


End HandlerClaims4.

(** ** The claims on the scripted world *)

(** C2 on the request without a key. *)
Lemma C2_witness :
  apiKey_of (config (Scenario.start Scenario.cfg [Scenario.verdict true false] Scenario.chat_reply))
    Scenario.anonymous_request = ""
  /\ result Scenario.anonymous
     = Ok (http.Error http.NewRecorder "Unauthorized: Missing API key"
             http.StatusUnauthorized)
  /\ client_calls (events Scenario.anonymous) = []
  /\ backend_calls (events Scenario.anonymous) = []
  /\ metrics_dispatches (events Scenario.anonymous) = [].
Proof.
  split; [reflexivity|].
  pose proof (C2_missing_key_unauthorized http.NewRecorder
                Scenario.anonymous_request
                (Scenario.start Scenario.cfg [Scenario.verdict true false]
                   Scenario.chat_reply) eq_refl) as (Hr & _ & Hc & Hb & Hm & _).
  exact (conj Hr (conj Hc (conj Hb Hm))).
Defined.

(** The reply the client of the anonymous request receives. *)
Example anonymous_reply :
  (http.Code <$> value_of (result Scenario.anonymous)) = Some 401.
Proof. vm_compute. reflexivity. Qed.

Example anonymous_reply_body :
  (http.Written <$> value_of (result Scenario.anonymous))
  = Some ("Unauthorized: Missing API key" +:+ String "010"%char "").
Proof. vm_compute. reflexivity. Qed.

(** The configured header name is looked up in its canonical form. *)
Example canonical_key_name : http.CanonicalHeaderKey "X-API-Key" = "X-Api-Key".
Proof. vm_compute. reflexivity. Qed.

Example anonymous_trace :
  List.map (fun e => match e with ELog _ _ m _ => m | _ => "" end)
    (events Scenario.anonymous)
  = ["Unauthorized: Missing API key"].
Proof. vm_compute. reflexivity. Qed.



Example no_proxy_result : result Scenario.no_proxy = Exit 1.
Proof. vm_compute. reflexivity. Qed.

Example no_proxy_last_line :
  last (events Scenario.no_proxy)
  = Some (EPrintf "Failed to parse Ollama URL: invalid character in host name").
Proof. vm_compute. reflexivity. Qed.



(** The backend cannot be reached: the client sees 502, the metrics carry
    zero counts. *)
Example unreachable_reply :
  (http.Code <$> value_of (result Scenario.unreachable)) = Some 502.
Proof. vm_compute. reflexivity. Qed.

Example unreachable_metrics :
  metrics_dispatches (events Scenario.unreachable)
  = [EGo_sendMetrics
       {| MetricsData.APIKey := "test-api-key";
          MetricsData.Model := "llama2";
          MetricsData.InputTokenLength := 0;
          MetricsData.OutputTokenLength := 0;
          MetricsData.RequestDurationMs := 2;
          MetricsData.Endpoint := "/api/chat" |}].
Proof. vm_compute. reflexivity. Qed.

Example served_metrics :
  metrics_dispatches (events Scenario.served)
  = [EGo_sendMetrics
       {| MetricsData.APIKey := "test-api-key";
          MetricsData.Model := "llama2";
          MetricsData.InputTokenLength := 10;
          MetricsData.OutputTokenLength := 20;
          MetricsData.RequestDurationMs := 2;
          MetricsData.Endpoint := "/api/chat" |}].
Proof. vm_compute. reflexivity. Qed.

Example served_reply :
  ((fun rr => (http.Code rr, http.Written rr)) <$> value_of (result Scenario.served))
  = Some (200, jq "{'model':'llama2','done':true,'prompt_eval_count':10,'eval_count':20}").
Proof. vm_compute. reflexivity. Qed.

(** A rate-limited request is answered 401, whatever the backend would
    say. *)
Example rate_limited_reply :
  (http.Code <$> value_of (result Scenario.rate_limited)) = Some 401
  /\ backend_calls (events Scenario.rate_limited) = []
  /\ metrics_dispatches (events Scenario.rate_limited) = [].
Proof. vm_compute. done. Qed.

(** C7 on the approved chat request. *)
Lemma C7_witness :
  In (EGo_sendMetrics
        {| MetricsData.APIKey := "test-api-key";
           MetricsData.Model := "llama2";
           MetricsData.InputTokenLength := 10;
           MetricsData.OutputTokenLength := 20;
           MetricsData.RequestDurationMs := 2;
           MetricsData.Endpoint := "/api/chat" |})
     (events Scenario.served)
  /\ exists details client req res payload,
       In (EClientDo client req res) (events Scenario.served)
       /\ http.OutBody req = Some payload
       /\ RequestDetails.Marshal details = inr payload
       /\ RequestDetails.APIKey details = "test-api-key"
       /\ RequestDetails.Model details = "llama2"
       /\ RequestDetails.Endpoint details = "/api/chat".
Proof.
  assert (Hin : In (EGo_sendMetrics
        {| MetricsData.APIKey := "test-api-key";
           MetricsData.Model := "llama2";
           MetricsData.InputTokenLength := 10;
           MetricsData.OutputTokenLength := 20;
           MetricsData.RequestDurationMs := 2;
           MetricsData.Endpoint := "/api/chat" |})
     (events Scenario.served)).
  { vm_compute. right. right. right. left. reflexivity. }
  split; [exact Hin|].
  destruct (C7_metrics_share_details_fields _ _ _ _ Hin)
    as (b & d & c & req & res & payload & _ & Hc & Hb & Hm & Hk & Hmo & He & _).
  exists d, c, req, res, payload.
  simpl in Hk, Hmo, He. rewrite <- Hk, <- Hmo, <- He.
  exact (conj Hc (conj Hb (conj Hm (conj eq_refl (conj eq_refl eq_refl))))).
Defined.

(** ** The start-up health check *)

Section Startup.
Context {Σ : Type} `{World Σ}.

Lemma Printf_logs evs : forallb is_Printf evs = true -> forallb is_Log evs = true.
Proof. induction evs as [|[] evs IH]; simpl in *; try done; auto. Qed.

Lemma Client_Get_run client url (st : State Σ) :
  (exists err,
      Client_Get client url st = mkOutcome (Ok (inl err)) st [])
  \/ (exists req,
        http.OutMethod req = "GET" /\ http.OutURL req = url
        /\ Client_Get client url st = Client_Do client req st).
Proof.
  unfold Client_Get, http_NewRequest.
  destruct (url_Parse url) as [err|u]; [left; eauto|right].
  eexists. split; [|split]; [| |reflexivity]; done.
Qed.

Lemma validateOllamaService_run (st : State Σ) :
  exists err σ evs,
    validateOllamaService st = mkOutcome (Ok err) (with_world st σ) evs
    /\ probe_run (ollamaURL (config st) +:+ "/api/tags") err evs.
Proof.
  unfold validateOllamaService.
  destruct (getSecureHTTPClient_run st) as (c & σ & evs & Ec & Hevs%Printf_logs).
  rewrite (bind_run _ _ _ _ _ _ Ec), bind_get_config.
  change (config (with_world st σ)) with (config st).
  destruct (Client_Get_run c (ollamaURL (config st) +:+ "/api/tags") (with_world st σ))
    as [[err Eg]|(req & Hm & Hu & Eg)].
  - rewrite (bind_run _ _ _ _ _ _ Eg).
    unfold logger_Error. rewrite bind_Log. unfold ret, after; simpl.
    eexists _, _, _. split; [reflexivity|].
    apply probe_not_sent. rewrite forallb_app, Hevs. done.
  - rewrite (bind_run _ _ _ _ _ _ (eq_trans Eg (Client_Do_run _ _ _))).
    destruct (client_Do c req _).1 as [err|resp] eqn:Er.
    + unfold logger_Error. rewrite bind_Log. unfold ret, after; simpl.
      eexists _, _, _. split; [reflexivity|].
      by apply (probe_failed _ evs c req (inl err) [_]).
    + destruct (http.StatusCode resp =? http.StatusOK) eqn:Es; cbn [negb]; cbv iota.
      * unfold ret, after; simpl. eexists _, _, _. split; [reflexivity|].
        rewrite ?app_nil_r. apply probe_passed; try done. by apply Z.eqb_eq.
      * unfold logger_Warning. rewrite bind_Log. unfold ret, after; simpl.
        eexists _, _, _. split; [reflexivity|].
        by apply (probe_failed _ evs c req (inr resp) [_]).
Qed.

Lemma NewRequest_GET url req :
  http_NewRequest "GET" url None = inr req ->
  forall k1 v1 k2 v2,
    http.OutMethod (set_header (set_header req k1 v1) k2 v2) = "GET"
    /\ http.OutURL (set_header (set_header req k1 v1) k2 v2) = url.
Proof.
  unfold http_NewRequest. destruct (url_Parse url); [done|].
  by intros [= <-].
Qed.

Lemma validateExternalValidationService_run (st : State Σ) :
  exists err σ evs,
    validateExternalValidationService st = mkOutcome (Ok err) (with_world st σ) evs
    /\ probe_run (externalValidationURL (config st)) err evs.
Proof.
  unfold validateExternalValidationService.
  destruct (getSecureHTTPClient_run st) as (c & σ & evs & Ec & Hevs%Printf_logs).
  rewrite (bind_run _ _ _ _ _ _ Ec), bind_get_config.
  change (config (with_world st σ)) with (config st).
  destruct (http_NewRequest _ _ _) as [err|req0] eqn:En.
  { unfold logger_Error. rewrite bind_Log. unfold ret, after; simpl.
    eexists _, _, _. split; [reflexivity|].
    apply probe_not_sent. rewrite forallb_app, Hevs. done. }
  rewrite bind_now, (bind_run _ _ _ _ _ _ (Client_Do_run _ _ _)).
  set (req := set_header _ _ _).
  destruct (NewRequest_GET _ _ En "X-API-Key" (externalServerAPIKey (config st))
              "X-Request-ID" (itoa (time_Now (world (with_world st σ))).1))
    as [Hm Hu].
  fold req in Hm, Hu.
  destruct (client_Do c req _).1 as [err|resp] eqn:Er.
  - unfold logger_Error. rewrite bind_Log. unfold ret, after; simpl.
    eexists _, _, _. split; [reflexivity|].
    by apply (probe_failed _ evs c req (inl err) [_]).
  - destruct (http.StatusCode resp =? http.StatusOK) eqn:Es; cbn [negb]; cbv iota.
    + unfold ret, after; simpl. eexists _, _, _. split; [reflexivity|].
      rewrite ?app_nil_r. apply probe_passed; try done. by apply Z.eqb_eq.
    + unfold logger_Warning. rewrite bind_Log. unfold ret, after; simpl.
      eexists _, _, _. split; [reflexivity|].
      by apply (probe_failed _ evs c req (inr resp) [_]).
Qed.

Lemma validateExternalMetricsService_run (st : State Σ) :
  exists err σ evs,
    validateExternalMetricsService st = mkOutcome (Ok err) (with_world st σ) evs
    /\ probe_run (externalMetricsURL (config st)) err evs.
Proof.
  unfold validateExternalMetricsService.
  destruct (getSecureHTTPClient_run st) as (c & σ & evs & Ec & Hevs%Printf_logs).
  rewrite (bind_run _ _ _ _ _ _ Ec), bind_get_config.
  change (config (with_world st σ)) with (config st).
  destruct (http_NewRequest _ _ _) as [err|req0] eqn:En.
  { unfold logger_Error. rewrite bind_Log. unfold ret, after; simpl.
    eexists _, _, _. split; [reflexivity|].
    apply probe_not_sent. rewrite forallb_app, Hevs. done. }
  rewrite bind_now, (bind_run _ _ _ _ _ _ (Client_Do_run _ _ _)).
  set (req := set_header _ _ _).
  destruct (NewRequest_GET _ _ En "X-API-Key" (externalServerAPIKey (config st))
              "X-Request-ID" (itoa (time_Now (world (with_world st σ))).1))
    as [Hm Hu].
  fold req in Hm, Hu.
  destruct (client_Do c req _).1 as [err|resp] eqn:Er.
  - unfold logger_Error. rewrite bind_Log. unfold ret, after; simpl.
    eexists _, _, _. split; [reflexivity|].
    by apply (probe_failed _ evs c req (inl err) [_]).
  - destruct (http.StatusCode resp =? http.StatusOK) eqn:Es; cbn [negb]; cbv iota.
    + unfold ret, after; simpl. eexists _, _, _. split; [reflexivity|].
      rewrite ?app_nil_r. apply probe_passed; try done. by apply Z.eqb_eq.
    + unfold logger_Warning. rewrite bind_Log. unfold ret, after; simpl.
      eexists _, _, _. split; [reflexivity|].
      by apply (probe_failed _ evs c req (inr resp) [_]).
Qed.

End Startup.

Lemma logs_no_listen evs :
  forallb is_Log evs = true -> List.filter is_Listen evs = [].
Proof. induction evs as [|[] evs IH]; simpl; try done; auto. Qed.

(** The outbound calls of one probe: one call answered with 200 when it
    passed; no call, or one call not answered with 200, when it failed. *)
Lemma probe_run_calls url err evs :
  probe_run url err evs ->
  List.filter is_Listen evs = []
  /\ match err with
     | None =>
       exists c, client_calls evs = [c] /\ probe_ok c = true
                 /\ call_target c = ("GET", url)
     | Some _ =>
       client_calls evs = []
       \/ exists c, client_calls evs = [c] /\ probe_ok c = false
                    /\ call_target c = ("GET", url)
     end.
Proof.
  unfold client_calls.
  intros [pre c req resp Hpre Hm Hu Hs
         |pre c req res post e Hpre Hpost Hm Hu Hok
         |evs' e Hl].
  - rewrite !List.filter_app, (logs_no_listen _ Hpre).
    destruct (logs_no_calls _ Hpre) as (Hc & _). unfold client_calls in Hc.
    rewrite Hc. simpl. split; [done|]. eexists. split; [done|].
    simpl. rewrite Hm, Hu. split; [by apply Z.eqb_eq | done].
  - rewrite !List.filter_app, (logs_no_listen _ Hpre).
    destruct (logs_no_calls _ Hpre) as (Hc & _).
    destruct (logs_no_calls _ Hpost) as (Hc' & _).
    unfold client_calls in Hc, Hc'. simpl.
    rewrite Hc, Hc', (logs_no_listen _ Hpost). split; [done|]. right.
    eexists. split; [done|]. simpl. by rewrite Hm, Hu.
  - split; [by apply logs_no_listen|]. left.
    by destruct (logs_no_calls _ Hl) as (Hc & _).
Qed.

Section Startup2.
Context {Σ : Type} `{World Σ}.

Ltac startup_done :=
  unfold startup_calls, probe_targets, names_failed_service;
  cbn [app length List.map firstn removelast forallb];
  repeat match goal with
         | H : call_target _ = _ |- _ => rewrite H; clear H
         | H : probe_ok _ = _ |- _ => rewrite H; clear H
         end;
  repeat split; try done; try (intros [? ?]; done); try (intros ? [= <-]);
  rewrite ?HasPrefix_app; auto.

Lemma validateExternalServices_run (st : State Σ) :
  exists err σ evs,
    validateExternalServices st = mkOutcome (Ok err) (with_world st σ) evs
    /\ startup_calls (config st) err (client_calls evs)
    /\ List.filter is_Listen evs = [].
Proof.
  unfold validateExternalServices.
  destruct (validateOllamaService_run st) as (e1 & σ1 & evs1 & E1 & P1).
  rewrite (bind_run _ _ _ _ _ _ E1).
  apply probe_run_calls in P1 as [L1 C1].
  destruct e1 as [e1|].
  { unfold ret, after; simpl. eexists _, _, _. split; [reflexivity|].
    rewrite app_nil_r. split; [|done].
    destruct C1 as [->|(c & -> & ? & ?)]; startup_done. }
  destruct C1 as (c1 & C1 & ? & ?).
  destruct (validateExternalValidationService_run (with_world st σ1))
    as (e2 & σ2 & evs2 & E2 & P2).
  rewrite (bind_run _ _ _ _ _ _ E2).
  change (config (with_world st σ1)) with (config st) in P2.
  apply probe_run_calls in P2 as [L2 C2].
  destruct e2 as [e2|].
  { unfold ret, after; simpl. eexists _, _, _. split; [reflexivity|].
    rewrite app_nil_r. unfold client_calls in *.
    rewrite !List.filter_app, L1, L2, C1. split; [|done].
    destruct C2 as [->|(c & -> & ? & ?)]; startup_done. }
  destruct C2 as (c2 & C2 & ? & ?).
  destruct (validateExternalMetricsService_run (with_world (with_world st σ1) σ2))
    as (e3 & σ3 & evs3 & E3 & P3).
  rewrite (bind_run _ _ _ _ _ _ E3).
  change (config (with_world (with_world st σ1) σ2)) with (config st) in P3.
  apply probe_run_calls in P3 as [L3 C3].
  unfold client_calls in *.
  destruct e3 as [e3|].
  - unfold ret, after; simpl. eexists _, _, _. split; [reflexivity|].
    rewrite app_nil_r.
    rewrite !List.filter_app, L1, L2, L3, C1, C2. split; [|done].
    destruct C3 as [->|(c & -> & ? & ?)]; startup_done.
  - destruct C3 as (c3 & C3 & ? & ?).
    unfold ret, after; simpl. eexists _, _, _. split; [reflexivity|].
    rewrite app_nil_r.
    rewrite !List.filter_app, L1, L2, L3, C1, C2, C3. split; [|done].
    startup_done.
Qed.

End Startup2.

Section Main.
Context {Σ : Type} `{World Σ}.

Lemma getEnvOrDefault_run key defaultValue (st : State Σ) :
  exists value, getEnvOrDefault key defaultValue st = mkOutcome (Ok value) st [].
Proof.
  unfold getEnvOrDefault. rewrite bind_read.
  destruct (negb _); unfold ret; eauto.
Qed.

Lemma loadConfig_run (st : State Σ) :
  exists cfg,
    loadConfig st = mkOutcome (Ok tt) (mkState (world st) cfg (reverseProxy st)) [].
Proof.
  unfold loadConfig.
  repeat match goal with
         | |- context [bind (getEnvOrDefault ?k ?d) _ st] =>
           let v := fresh "v" in let E := fresh "E" in
           destruct (getEnvOrDefault_run k d st) as [v E];
           rewrite (bind_run _ _ _ _ _ _ E), after_nil; clear E
         end.
  unfold set_config. eauto.
Qed.


End Main.

(** C9 on the approved chat request. *)
Lemma C9_witness :
  exists client req res,
    In (EClientDo client req res) (events Scenario.served)
    /\ exists details payload,
         RequestDetails.Marshal details = inr payload
         /\ http.OutBody req = Some payload
         /\ RequestDetails.InputTokenLength details = 0
         /\ member "inputTokenLength" payload = Some (JSON.Number "0").
Proof.
  assert (Hin : exists client req res,
             In (EClientDo client req res) (events Scenario.served)).
  { vm_compute. eexists _, _, _. left. reflexivity. }
  destruct Hin as (client & req & res & Hin).
  exists client, req, res. split; [exact Hin|].
  exact (C9_validation_payload_input_tokens_zero _ _ _ _ _ _ Hin).
Defined.

(** The validation payload of the approved chat request. *)
Example served_validation_payload :
  List.map (fun e => match e with
                     | EClientDo _ req _ => http.OutBody req
                     | _ => None
                     end)
    (client_calls (events Scenario.served))
  = [Some (JSON.Object
             [("apiKey", JSON.Str "test-api-key");
              ("ipAddress", JSON.Str "192.0.2.1:1234");
              ("userAgent", JSON.Str "");
              ("headers",
               JSON.Object [("Content-Type", JSON.Str "application/json");
                            ("X-Api-Key", JSON.Str "test-api-key")]);
              ("model", JSON.Str "llama2");
              ("inputTokenLength", JSON.Number "0");
              ("endpoint", JSON.Str "/api/chat")])].
Proof. vm_compute. reflexivity. Qed.

(** Start-up with a metrics service that answers 500: two probes pass, the
    third fails, the process exits before the listener is started. *)
Example startup_metrics_down :
  let o := main (Scenario.start Scenario.cfg
                   [inr (http.mkResponse 200 ""); inr (http.mkResponse 200 "");
                    inr (http.mkResponse 500 "")] []) in
  result o = Exit 1
  /\ List.map call_target (client_calls (events o))
     = [("GET", "http://localhost:11434/api/tags");
        ("GET", "http://external-server.com/validate");
        ("GET", "http://external-server.com/log_metrics")]
  /\ List.filter is_Listen (events o) = []
  /\ last (events o)
     = Some (ELog 4000000 ERROR "Failed to validate external services"
               (<["error" :=
                    JSON.Str "External metrics service validation failed: metrics service returned non-OK status: 500"]> ∅)).
Proof. vm_compute. done. Qed.

(** Start-up with all three services up: the handler is registered and the
    listener started on the configured port. *)
Example startup_all_up :
  let o := main (Scenario.start Scenario.cfg
                   [inr (http.mkResponse 200 ""); inr (http.mkResponse 200 "");
                    inr (http.mkResponse 200 "")] []) in
  List.filter is_Listen (events o)
  = [EHandleFunc "/"; EListenAndServe ":8080" "http: Server closed"].
Proof. vm_compute. reflexivity. Qed.

(** Start-up with an unreachable backend: one probe, no more. *)
Example startup_backend_down :
  let o := main (Scenario.start Scenario.cfg [] []) in
  result o = Exit 1
  /\ List.map call_target (client_calls (events o))
     = [("GET", "http://localhost:11434/api/tags")]
  /\ List.filter is_Listen (events o) = [].
Proof. vm_compute. done. Qed.

(* ================================================================== *)
(** * Further properties of the code *)
(* ================================================================== *)

(** ** Outbound calls *)

Section Outbound.
Context {Σ : Type} `{World Σ}.

(** The three runs of [getSecureHTTPClient]: no certificate configured, a
    certificate that fails to load, a certificate that loads. *)
Lemma getSecureHTTPClient_exec (st : State Σ) :
  let cert := externalServerCert (config st) in
  let client certs :=
    {| http.InsecureSkipVerify := skipTLSVerify (config st);
       http.Certificates := certs;
       http.Timeout := 10 * 1000000000 |} in
  (cert = "" /\ getSecureHTTPClient st = mkOutcome (Ok (client [])) st [])
  \/ (cert <> ""
      /\ exists err,
          (tls_LoadX509KeyPair cert cert (world st)).1 = inl err
          /\ getSecureHTTPClient st
             = mkOutcome (Ok (client []))
                 (with_world st (tls_LoadX509KeyPair cert cert (world st)).2)
                 [EPrintf ("Warning: Failed to load certificate: " +:+ err)])
  \/ (cert <> ""
      /\ exists pair,
          (tls_LoadX509KeyPair cert cert (world st)).1 = inr pair
          /\ getSecureHTTPClient st
             = mkOutcome (Ok (client [pair]))
                 (with_world st (tls_LoadX509KeyPair cert cert (world st)).2) []).
Proof.
  intros cert client. subst cert client.
  unfold getSecureHTTPClient. rewrite bind_get_config.
  destruct (String.eqb_spec (externalServerCert (config st)) "") as [E|E];
    cbn [negb]; cbv iota.
  - left. split; [done|]. rewrite !bind_ret. unfold ret. done.
  - right. rewrite bind_bind, bind_ask.
    destruct (tls_LoadX509KeyPair _ _ _).1 as [err|pair] eqn:El.
    + left. split; [done|]. exists err. split; [done|].
      rewrite bind_bind. unfold log_Printf. rewrite bind_emit, !bind_ret.
      unfold after, ret; simpl. done.
    + right. split; [done|]. exists pair. split; [done|].
      rewrite !bind_ret. unfold ret. done.
Qed.

(** In every case it returns a client and emits nothing but what it
    prints. *)
Lemma getSecureHTTPClient_total (st : State Σ) :
  exists certs σ evs,
    getSecureHTTPClient st
    = mkOutcome (Ok {| http.InsecureSkipVerify := skipTLSVerify (config st);
                       http.Certificates := certs;
                       http.Timeout := 10 * 1000000000 |})
        (with_world st σ) evs
    /\ forallb is_Printf evs = true.
Proof.
  destruct (getSecureHTTPClient_exec st)
    as [[_ E]|[(_ & err & _ & E)|(_ & pair & _ & E)]]; rewrite E.
  - exists [], (world st), []. by destruct st.
  - eexists [], _, _. done.
  - eexists [pair], _, []. done.
Qed.

(** The runs of [validateRequest], event by event: the request cannot be
    built; or it is sent and the call fails, is answered with another
    status than 200, is answered with a body that does not decode, or is
    answered with a verdict. *)
Lemma validateRequest_exec (d : RequestDetails.t) (st : State Σ) :
  let cfg := config st in
  let fields : gmap string JSON.value :=
    <["endpoint" := JSON.Str (RequestDetails.Endpoint d)]>
      (<["api_key" := JSON.Str (RequestDetails.APIKey d)]> ∅) in
  (exists err t σ,
      url_Parse (externalValidationURL cfg) = inl err
      /\ validateRequest d st
         = mkOutcome (Ok false) (with_world st σ)
             [ELog t ERROR "Error creating validation request"
                (<["error" := JSON.Str err]> fields)])
  \/ (exists payload certs pre res b post σ,
        let t := (time_Now (world st)).1 in
        let client :=
          {| http.InsecureSkipVerify := skipTLSVerify cfg;
             http.Certificates := certs;
             http.Timeout := 10 * 1000000000 |} in
        let req := signed_post cfg (externalValidationURL cfg) payload t in
        RequestDetails.Marshal d = inr payload
        /\ (exists u, url_Parse (externalValidationURL cfg) = inr u)
        /\ validateRequest d st
           = mkOutcome (Ok b) (with_world st σ)
               (pre ++ EClientDo client req res :: post)
        /\ forallb is_Printf pre = true
        /\ ((exists err t',
                res = inl err /\ b = false
                /\ post = [ELog t' ERROR "Error calling validation server"
                             (<["error" := JSON.Str err]> fields)])
            \/ (exists resp t',
                   res = inr resp /\ http.StatusCode resp <> 200 /\ b = false
                   /\ post = [ELog t' WARNING "Validation server returned non-OK status"
                                (<["status_code" :=
                                     JSON.Number (itoa (http.StatusCode resp))]> fields)])
            \/ (exists resp t',
                   res = inr resp /\ http.StatusCode resp = 200
                   /\ ValidationResponse.Decode (http.ResponseBody resp) = None
                   /\ b = false
                   /\ post = [ELog t' ERROR "Error decoding validation response"
                                (<["error" := JSON.Str decode_error]> fields)])
            \/ (exists resp v,
                   res = inr resp /\ http.StatusCode resp = 200
                   /\ ValidationResponse.Decode (http.ResponseBody resp) = Some v
                   /\ b = ValidationResponse.Valid v
                          && negb (ValidationResponse.RateLimited v)
                   /\ post = []))).
Proof.
  intros cfg fields. subst cfg fields.
  unfold validateRequest.
  destruct (RequestDetails.Marshal d) as [err|payload] eqn:EM; [done|].
  rewrite bind_get_config.
  unfold http_NewRequest.
  destruct (url_Parse (externalValidationURL (config st))) as [err|u] eqn:EU.
  { left. unfold logger_Error. rewrite bind_Log. unfold ret, after; simpl.
    eexists _, _, _. split; [reflexivity|]. reflexivity. }
  right. rewrite bind_now.
  set (t := (time_Now (world st)).1).
  set (st1 := with_world st _).
  destruct (getSecureHTTPClient_total st1) as (certs & σ & pre & Ec & Hpre).
  rewrite (bind_run _ _ _ _ _ _ Ec).
  rewrite (bind_run _ _ _ _ _ _ (Client_Do_run _ _ _)).
  change (config st1) with (config st).
  fold (signed_post (config st) (externalValidationURL (config st)) payload t).
  set (req := signed_post _ _ _ _).
  set (client := http.mkClient _ _ _).
  exists payload, certs, pre.
  destruct (client_Do client req _) as [res σ'] eqn:ED. simpl.
  destruct res as [err|resp].
  { unfold logger_Error. rewrite bind_Log. unfold ret, after; simpl.
    eexists _, _, _, _. split; [done|]. split; [by exists u|].
    split; [reflexivity|]. split; [done|].
    left. eauto 10. }
  destruct (http.StatusCode resp =? http.StatusOK) eqn:Es; simpl.
  2:{ unfold logger_Warning. rewrite bind_Log. unfold ret, after; simpl.
      eexists _, _, _, _. split; [done|]. split; [by exists u|].
      split; [reflexivity|]. split; [done|].
      right; left. apply Z.eqb_neq in Es. eauto 10. }
  apply Z.eqb_eq in Es.
  destruct (ValidationResponse.Decode _) as [v|] eqn:Ev.
  - unfold ret, after; simpl.
    eexists _, _, _, _. split; [done|]. split; [by exists u|].
    split; [reflexivity|]. split; [done|].
    right; right; right. eauto 10.
  - unfold logger_Error. rewrite bind_Log. unfold ret, after; simpl.
    eexists _, _, _, _. split; [done|]. split; [by exists u|].
    split; [reflexivity|]. split; [done|].
    right; right; left. eauto 10.
Qed.

(** The runs of [sendMetrics], event by event. *)
Lemma sendMetrics_exec (m : MetricsData.t) (st : State Σ) :
  let cfg := config st in
  let fields : gmap string JSON.value :=
    <["endpoint" := JSON.Str (MetricsData.Endpoint m)]>
      (<["model" := JSON.Str (MetricsData.Model m)]>
         (<["api_key" := JSON.Str (MetricsData.APIKey m)]> ∅)) in
  (exists err t σ,
      url_Parse (externalMetricsURL cfg) = inl err
      /\ sendMetrics m st
         = mkOutcome (Ok tt) (with_world st σ)
             [ELog t ERROR "Error creating metrics request"
                (<["error" := JSON.Str err]> fields)])
  \/ (exists payload certs pre res post σ,
        let t := (time_Now (world st)).1 in
        let client :=
          {| http.InsecureSkipVerify := skipTLSVerify cfg;
             http.Certificates := certs;
             http.Timeout := 10 * 1000000000 |} in
        let req := signed_post cfg (externalMetricsURL cfg) payload t in
        MetricsData.Marshal m = inr payload
        /\ (exists u, url_Parse (externalMetricsURL cfg) = inr u)
        /\ sendMetrics m st
           = mkOutcome (Ok tt) (with_world st σ)
               (pre ++ EClientDo client req res :: post)
        /\ forallb is_Printf pre = true
        /\ ((exists err t',
                res = inl err
                /\ post = [ELog t' ERROR "Error sending metrics"
                             (<["error" := JSON.Str err]> fields)])
            \/ (exists resp t',
                   res = inr resp /\ http.StatusCode resp <> 200
                   /\ post = [ELog t' WARNING "Metrics server returned non-OK status"
                                (<["status_code" :=
                                     JSON.Number (itoa (http.StatusCode resp))]> fields)])
            \/ (exists resp,
                   res = inr resp /\ http.StatusCode resp = 200 /\ post = []))).
Proof.
  intros cfg fields. subst cfg fields.
  unfold sendMetrics.
  destruct (MetricsData.Marshal m) as [err|payload] eqn:EM; [done|].
  rewrite bind_get_config.
  unfold http_NewRequest.
  destruct (url_Parse (externalMetricsURL (config st))) as [err|u] eqn:EU.
  { left. unfold logger_Error. rewrite logger_Log_run.
    eexists _, _, _. split; [reflexivity|]. reflexivity. }
  right. rewrite bind_now.
  set (t := (time_Now (world st)).1).
  set (st1 := with_world st _).
  destruct (getSecureHTTPClient_total st1) as (certs & σ & pre & Ec & Hpre).
  rewrite (bind_run _ _ _ _ _ _ Ec).
  rewrite (bind_run _ _ _ _ _ _ (Client_Do_run _ _ _)).
  change (config st1) with (config st).
  fold (signed_post (config st) (externalMetricsURL (config st)) payload t).
  set (req := signed_post _ _ _ _).
  set (client := http.mkClient _ _ _).
  exists payload, certs, pre.
  destruct (client_Do client req _) as [res σ'] eqn:ED. simpl.
  destruct res as [err|resp].
  { unfold logger_Error. rewrite logger_Log_run. unfold after; simpl.
    eexists _, _, _. split; [done|]. split; [by exists u|].
    split; [reflexivity|]. split; [done|]. left. eauto 10. }
  destruct (http.StatusCode resp =? http.StatusOK) eqn:Es; simpl.
  - apply Z.eqb_eq in Es. unfold ret, after; simpl.
    eexists _, _, _. split; [done|]. split; [by exists u|].
    split; [reflexivity|]. split; [done|]. right; right. eauto 10.
  - unfold logger_Warning. rewrite logger_Log_run. unfold after; simpl.
    eexists _, _, _. split; [done|]. split; [by exists u|].
    split; [reflexivity|]. split; [done|].
    right; left. apply Z.eqb_neq in Es. eauto 10.
Qed.

End Outbound.

Lemma signed_post_header cfg url payload t :
  http.OutHeader (signed_post cfg url payload t)
  = <["X-Request-Id" := [itoa t]]>
      (<["X-Api-Key" := [externalServerAPIKey cfg]]>
         (<["Content-Type" := ["application/json"]]> ∅)).
Proof. reflexivity. Qed.

(** The one outbound call among log lines. *)
Lemma call_in_middle client req res pre c r s post :
  forallb is_Log pre = true -> forallb is_Log post = true ->
  In (EClientDo client req res) (pre ++ EClientDo c r s :: post) ->
  client = c /\ req = r /\ res = s.
Proof.
  intros Hpre Hpost [Hin|[Heq|Hin]]%in_app_or.
  - by apply logs_no_ClientDo in Hin.
  - by injection Heq as -> -> ->.
  - by apply logs_no_ClientDo in Hin.
Qed.

Lemma Printf_no_lines evs : forallb is_Printf evs = true -> log_lines evs = [].
Proof. unfold log_lines. induction evs as [|[] evs IH]; simpl; try done; auto. Qed.

Lemma Printf_no_calls evs :
  forallb is_Printf evs = true ->
  client_calls evs = [] /\ backend_calls evs = [] /\ metrics_dispatches evs = [].
Proof. intros ?%Printf_logs. by apply logs_no_calls. Qed.

Section OutboundProperties.
Context {Σ : Type} `{World Σ}.

(** X9. Every outbound call of [validateRequest] is a POST to the
    configured validation URL that carries the encoded request details and
    exactly three headers: [Content-Type: application/json], [X-Api-Key]
    with the server's own key (not the caller's) and [X-Request-Id] with
    the clock reading taken when the request was built.  The client that
    makes it has a time-out of ten seconds and skips TLS verification
    exactly when [skipTLSVerify] is set. *)
Theorem X9_validation_call_shape (d : RequestDetails.t) (st : State Σ)
  client req res :
  In (EClientDo client req res) (events (validateRequest d st)) ->
  http.OutMethod req = "POST"
  /\ http.OutURL req = externalValidationURL (config st)
  /\ (exists payload, RequestDetails.Marshal d = inr payload
                      /\ http.OutBody req = Some payload)
  /\ http.OutHeader req
     = <["X-Request-Id" := [itoa (time_Now (world st)).1]]>
         (<["X-Api-Key" := [externalServerAPIKey (config st)]]>
            (<["Content-Type" := ["application/json"]]> ∅))
  /\ http.InsecureSkipVerify client = skipTLSVerify (config st)
  /\ http.Timeout client = 10 * 1000000000.
Proof.
  intros Hin.
  destruct (validateRequest_exec d st)
    as [(err & t & σ & _ & E)
       |(payload & certs & pre & res' & b & post & σ & EM & _ & E & Hpre & Hpost)];
    rewrite E in Hin; simpl in Hin.
  - by destruct Hin as [|[]].
  - apply call_in_middle in Hin as (-> & -> & ->).
    + repeat split; try done. by exists payload.
    + by apply Printf_logs.
    + destruct Hpost as [(? & ? & _ & _ & ->)|[(? & ? & _ & _ & _ & ->)
        |[(? & ? & _ & _ & _ & _ & ->)|(? & ? & _ & _ & _ & _ & ->)]]]; done.
Qed.

(** X10. [validateRequest] always returns, with a verdict: it never
    panics or ends the process, leaves configuration and proxy alone, and
    makes at most one outbound call.  A validation URL that does not
    parse gives [false] without any call.  It writes at most one log line:
    none when it returns [true], and when it returns [false] none only if
    the service itself denied (a 200 reply that decodes, with [valid]
    false or [rateLimited] true); every other failure is logged. *)
Theorem X10_validateRequest_fails_closed (d : RequestDetails.t) (st : State Σ) :
  let o := validateRequest d st in
  exists b,
    result o = Ok b
    /\ config (final o) = config st
    /\ reverseProxy (final o) = reverseProxy st
    /\ (length (client_calls (events o)) <= 1)%nat
    /\ (length (log_lines (events o)) <= 1)%nat
    /\ (forall err,
          url_Parse (externalValidationURL (config st)) = inl err ->
          b = false /\ client_calls (events o) = []
          /\ exists t fields,
              log_lines (events o)
              = [ELog t ERROR "Error creating validation request" fields]
              /\ fields !! "error" = Some (JSON.Str err))
    /\ (b = true -> log_lines (events o) = [])
    /\ (b = false -> log_lines (events o) = [] ->
        exists client req resp v,
          In (EClientDo client req (inr resp)) (events o)
          /\ http.StatusCode resp = 200
          /\ ValidationResponse.Decode (http.ResponseBody resp) = Some v
          /\ (ValidationResponse.Valid v = false
              \/ ValidationResponse.RateLimited v = true)).
Proof.
  intros o. subst o.
  destruct (validateRequest_exec d st)
    as [(err & t & σ & EU & E)
       |(payload & certs & pre & res & b & post & σ & EM & EU & E & Hpre & Hpost)];
    rewrite E; simpl.
  - exists false. split_and!; try done; try lia.
    intros err' Eu. rewrite EU in Eu. injection Eu as <-.
    split; [done|]. split; [done|].
    eexists _, _. split; [reflexivity|]. by rewrite lookup_insert_eq.
  - exists b.
    destruct (Printf_no_calls _ Hpre) as (Hc & _).
    pose proof (Printf_no_lines _ Hpre) as Hl.
    unfold client_calls, log_lines in *. rewrite !List.filter_app, Hc, Hl. simpl.
    assert (Hu : forall err,
               url_Parse (externalValidationURL (config st)) <> inl err).
    { intros err Eu. destruct EU as [u EU]. by rewrite Eu in EU. }
    destruct Hpost as [(err & t' & -> & -> & ->)|[(resp & t' & -> & Hs & -> & ->)
        |[(resp & t' & -> & Hs & Hd & -> & ->)|(resp & v & -> & Hs & Hd & -> & ->)]]];
      simpl; (split_and!; try done; try lia); try (by intros err' ?%Hu).
    intros Hb _. exists {| http.InsecureSkipVerify := skipTLSVerify (config st);
                              http.Certificates := certs;
                              http.Timeout := 10 * 1000000000 |}.
      eexists _, resp, v. split; [apply in_or_app; right; by left|].
      repeat split; try done.
      destruct (ValidationResponse.Valid v); [right|by left].
      by destruct (ValidationResponse.RateLimited v).
Qed.

(** X11. Every outbound call of [sendMetrics] is a POST to the configured
    metrics URL whose document has the six members [apiKey], [model],
    [inputTokenLength], [outputTokenLength], [requestDurationMs] and
    [endpoint] of the metrics, in that order, with the same three headers
    and the same client settings as a validation call. *)
Theorem X11_metrics_call_shape (m : MetricsData.t) (st : State Σ)
  client req res :
  In (EClientDo client req res) (events (sendMetrics m st)) ->
  http.OutMethod req = "POST"
  /\ http.OutURL req = externalMetricsURL (config st)
  /\ http.OutBody req
     = Some (JSON.Object
               [("apiKey", JSON.Str (MetricsData.APIKey m));
                ("model", JSON.Str (MetricsData.Model m));
                ("inputTokenLength",
                 JSON.Number (itoa (MetricsData.InputTokenLength m)));
                ("outputTokenLength",
                 JSON.Number (itoa (MetricsData.OutputTokenLength m)));
                ("requestDurationMs",
                 JSON.Number (itoa (MetricsData.RequestDurationMs m)));
                ("endpoint", JSON.Str (MetricsData.Endpoint m))])
  /\ http.OutHeader req
     = <["X-Request-Id" := [itoa (time_Now (world st)).1]]>
         (<["X-Api-Key" := [externalServerAPIKey (config st)]]>
            (<["Content-Type" := ["application/json"]]> ∅))
  /\ http.InsecureSkipVerify client = skipTLSVerify (config st)
  /\ http.Timeout client = 10 * 1000000000.
Proof.
  intros Hin.
  destruct (sendMetrics_exec m st)
    as [(err & t & σ & _ & E)
       |(payload & certs & pre & res' & post & σ & EM & _ & E & Hpre & Hpost)];
    rewrite E in Hin; simpl in Hin.
  - by destruct Hin as [|[]].
  - apply call_in_middle in Hin as (-> & -> & ->).
    + injection EM as <-. done.
    + by apply Printf_logs.
    + destruct Hpost as [(? & ? & _ & ->)|[(? & ? & _ & _ & ->)
        |(? & _ & _ & ->)]]; done.
Qed.

(** X12. [sendMetrics] reports nothing to its caller and cannot fail: it
    always returns, leaves configuration and proxy alone, makes at most
    one outbound call (no retry), no backend call and no further
    dispatch.  What goes wrong is only logged: it writes no log line
    exactly when its call was answered with status 200, and one line
    otherwise. *)
Theorem X12_sendMetrics_never_fails (m : MetricsData.t) (st : State Σ) :
  let o := sendMetrics m st in
  result o = Ok tt
  /\ config (final o) = config st
  /\ reverseProxy (final o) = reverseProxy st
  /\ (length (client_calls (events o)) <= 1)%nat
  /\ backend_calls (events o) = []
  /\ metrics_dispatches (events o) = []
  /\ (length (log_lines (events o)) <= 1)%nat
  /\ (log_lines (events o) = []
      <-> exists client req resp,
            In (EClientDo client req (inr resp)) (events o)
            /\ http.StatusCode resp = 200).
Proof.
  intros o. subst o.
  destruct (sendMetrics_exec m st)
    as [(err & t & σ & EU & E)
       |(payload & certs & pre & res & post & σ & EM & EU & E & Hpre & Hpost)];
    rewrite E; simpl.
  - split_and!; try done; try lia.
    split; [done|]. by intros (? & ? & ? & [|[]] & _).
  - destruct (Printf_no_calls _ Hpre) as (Hc & Hb & Hm).
    pose proof (Printf_no_lines _ Hpre) as Hl.
    unfold client_calls, backend_calls, metrics_dispatches, log_lines in *.
    rewrite !List.filter_app, Hc, Hb, Hm, Hl. simpl.
    assert (Hmid : forall c r s,
               In (EClientDo c r s)
                 (pre ++ EClientDo
                    {| http.InsecureSkipVerify := skipTLSVerify (config st);
                       http.Certificates := certs;
                       http.Timeout := 10 * 1000000000 |}
                    (signed_post (config st) (externalMetricsURL (config st))
                       payload (time_Now (world st)).1) res :: post) ->
               s = res).
    { intros c r s Hin. apply call_in_middle in Hin as (_ & _ & ->); [done| |].
      - by apply Printf_logs.
      - destruct Hpost as [(? & ? & _ & ->)|[(? & ? & _ & _ & ->)
          |(? & _ & _ & ->)]]; done. }
    destruct Hpost as [(err & t' & -> & ->)|[(resp & t' & -> & Hs & ->)
        |(resp & -> & Hs & ->)]];
      simpl; (split_and!; try done; try lia).
    + split; [done|]. by intros (c & r & resp & [=]%Hmid & _).
    + split; [done|]. intros (c & r & resp' & [= ->]%Hmid & Hs'). done.
    + split; [|done]. intros _. eexists _, _, resp.
      split; [|done]. apply in_or_app. right. by left.
Qed.

(** X13. [getSecureHTTPClient] always returns a client, with a time-out of
    ten seconds and [InsecureSkipVerify] equal to [skipTLSVerify].  With no
    certificate path configured it touches nothing.  With one, it loads
    certificate and key from that same path; a failure to load is printed
    as a warning and the client is returned without a certificate. *)
Theorem X13_certificate_failure_is_not_fatal (st : State Σ) :
  let o := getSecureHTTPClient st in
  let cert := externalServerCert (config st) in
  exists client,
    result o = Ok client
    /\ http.InsecureSkipVerify client = skipTLSVerify (config st)
    /\ http.Timeout client = 10 * 1000000000
    /\ config (final o) = config st
    /\ reverseProxy (final o) = reverseProxy st
    /\ (cert = "" ->
        http.Certificates client = [] /\ events o = [] /\ final o = st)
    /\ (cert <> "" ->
        world (final o) = (tls_LoadX509KeyPair cert cert (world st)).2
        /\ match (tls_LoadX509KeyPair cert cert (world st)).1 with
           | inl err =>
             http.Certificates client = []
             /\ events o
                = [EPrintf ("Warning: Failed to load certificate: " +:+ err)]
           | inr keyPair => http.Certificates client = [keyPair] /\ events o = []
           end).
Proof.
  intros o cert. subst o cert.
  destruct (getSecureHTTPClient_exec st)
    as [[Hc E]|[(Hc & err & El & E)|(Hc & pair & El & E)]]; rewrite E; simpl.
  - eexists. split; [reflexivity|]. simpl. split_and!; try done.
  - eexists. split; [reflexivity|]. simpl. split_and!; try done.
    intros _. by rewrite El.
  - eexists. split; [reflexivity|]. simpl. split_and!; try done.
    intros _. by rewrite El.
Qed.

End OutboundProperties.

(** X9 on the details of the chat request. *)
Lemma X9_witness :
  exists client req res,
    In (EClientDo client req res)
      (events (validateRequest Cases.chat_details
                 (Scenario.start Scenario.cfg [Scenario.verdict true false] [])))
    /\ http.OutMethod req = "POST"
    /\ http.OutURL req = "http://external-server.com/validate"
    /\ http.OutHeader req
       = <["X-Request-Id" := [itoa 0]]>
           (<["X-Api-Key" := ["server-key"]]>
              (<["Content-Type" := ["application/json"]]> ∅)).
Proof.
  assert (Hin : exists client req res,
             In (EClientDo client req res)
               (events (validateRequest Cases.chat_details
                          (Scenario.start Scenario.cfg
                             [Scenario.verdict true false] [])))).
  { vm_compute. eexists _, _, _. left. reflexivity. }
  destruct Hin as (client & req & res & Hin).
  exists client, req, res. split; [exact Hin|].
  destruct (X9_validation_call_shape _ _ _ _ _ Hin)
    as (Hm & Hu & _ & Hh & _).
  exact (conj Hm (conj Hu Hh)).
Defined.

(** X11 on the metrics of the chat request. *)
Lemma X11_witness :
  exists client req res,
    In (EClientDo client req res)
      (events (sendMetrics Cases.chat_metrics
                 (Scenario.start Scenario.cfg [inr (http.mkResponse 200 "")] [])))
    /\ http.OutMethod req = "POST"
    /\ http.OutURL req = "http://external-server.com/log_metrics"
    /\ http.Timeout client = 10 * 1000000000.
Proof.
  assert (Hin : exists client req res,
             In (EClientDo client req res)
               (events (sendMetrics Cases.chat_metrics
                          (Scenario.start Scenario.cfg
                             [inr (http.mkResponse 200 "")] [])))).
  { vm_compute. eexists _, _, _. left. reflexivity. }
  destruct Hin as (client & req & res & Hin).
  exists client, req, res. split; [exact Hin|].
  destruct (X11_metrics_call_shape _ _ _ _ _ Hin)
    as (Hm & Hu & _ & _ & _ & Ht).
  exact (conj Hm (conj Hu Ht)).
Defined.

(** ** The validation reply *)

(** A member name selects a field only if it equals the field's name up to
    ASCII case. *)
Lemma find_field_name fields key n t :
  find_field fields key = Some (n, t) -> fold_name n = fold_name key.
Proof.
  unfold find_field.
  destruct (find (fun f => String.eqb (fst f) key) fields) as [f|] eqn:E1.
  - intros [= ->]. apply find_some in E1 as [_ He].
    apply String.eqb_eq in He. simpl in He. by rewrite He.
  - intros E2. apply find_some in E2 as [_ He].
    by apply String.eqb_eq in He.
Qed.

(** A field holds a value after decoding only if some member naming the
    field carried that value. *)
Lemma field_value_member fields name m v :
  field_value fields name (Object m) = Some v ->
  exists k, In (k, v) m /\ fold_name k = fold_name name.
Proof.
  unfold field_value.
  assert (Hgen : forall acc,
             fold_left
               (fun acc '(k, x) =>
                  match find_field fields k with
                  | Some (n, _) =>
                    if String.eqb n name
                    then match x with Null => acc | _ => Some x end
                    else acc
                  | None => acc
                  end) m acc = Some v ->
             acc = Some v \/ exists k, In (k, v) m /\ fold_name k = fold_name name).
  { induction m as [|[k x] m IH]; intros acc; simpl; [by left|].
    intros [Hacc|(k' & Hin & Hk)]%IH; [|right; eauto].
    destruct (find_field fields k) as [[n t]|] eqn:Ef; [|by left].
    destruct (String.eqb_spec n name) as [->|]; [|by left].
    apply find_field_name in Ef.
    destruct x; try (by left); injection Hacc as <-; right; eauto. }
  intros [[=]|?]%Hgen. done.
Qed.

(** X17. A reply of the validation service approves only if the first
    JSON value of its body is an object with a member named [valid], up to
    the case of its letters, whose value is [true]: a field that is absent
    counts as false. *)
Theorem X17_approval_needs_valid_member (res : string + http.Response) :
  approving res ->
  exists resp members name,
    res = inr resp
    /\ JSON.parse_first (http.ResponseBody resp) = Some (JSON.Object members)
    /\ In (name, JSON.Bool true) members
    /\ fold_name name = "VALID".
Proof.
  intros (resp & v & -> & _ & Hd & Hv & _).
  unfold ValidationResponse.Decode, Decode.Decode in Hd.
  destruct (parse_first (http.ResponseBody resp)) as [doc|] eqn:Ep; [|done].
  destruct (conforms doc _); [|done]. injection Hd as <-.
  unfold ValidationResponse.of_value in Hv. simpl in Hv.
  unfold bool_field in Hv.
  destruct (field_value ValidationResponse.fields "valid" doc) as [[]|] eqn:Ef;
    try done.
  subst b. destruct doc as [| | | | |m]; try done.
  apply field_value_member in Ef as (k & Hin & Hk).
  exists resp, m, k. done.
Qed.

(** X17 on the approving reply. *)
Lemma X17_witness :
  approving (Scenario.verdict true false)
  /\ exists resp members name,
       Scenario.verdict true false = inr resp
       /\ JSON.parse_first (http.ResponseBody resp) = Some (JSON.Object members)
       /\ In (name, JSON.Bool true) members
       /\ fold_name name = "VALID".
Proof.
  assert (Ha : approving (Scenario.verdict true false))
    by (apply approvingb_spec; vm_compute; reflexivity).
  split; [exact Ha|].
  exact (X17_approval_needs_valid_member _ Ha).
Defined.

(** ** The handler *)

Lemma validation_calls_when_approved cfg d evs :
  validation_events cfg d true evs -> client_calls evs <> [].
Proof.
  intros [[? _]|(c & req & res & pre & post & -> & _)]; [done|].
  unfold client_calls. rewrite List.filter_app. simpl.
  by destruct (List.filter is_ClientDo pre).
Qed.

Lemma validation_no_ServeHTTP cfg d b evs fwd ops :
  validation_events cfg d b evs -> ~ In (EServeHTTP fwd ops) evs.
Proof.
  intros Hv Hin. destruct (validation_no_backend _ _ _ _ Hv) as [Hnb _].
  assert (Hf : In (EServeHTTP fwd ops) (backend_calls evs)) by (by apply filter_In).
  by rewrite Hnb in Hf.
Qed.

Lemma insert_sorted_perm e l : insert_sorted e l ≡ₚ e :: l.
Proof.
  induction l as [|x l IH]; simpl; [done|].
  destruct (String.leb _ _); [done|]. rewrite IH. apply Permutation_swap.
Qed.

Lemma sorted_entries_perm (m : gmap string string) :
  sorted_entries m ≡ₚ map_to_list m.
Proof.
  unfold sorted_entries. induction (map_to_list m) as [|e l IH]; simpl; [done|].
  by rewrite insert_sorted_perm, IH.
Qed.

Lemma member_entries (l : list (string * string)) (k : string) :
  member k (JSON.Object (map (fun '(k, v) => (k, JSON.Str v)) l))
  = JSON.Str <$> (list_to_map l : gmap string string) !! k.
Proof.
  unfold member.
  induction l as [|[k' v'] l IH]; simpl; [done|].
  destruct (String.eqb_spec k' k) as [->|Hne]; simpl.
  - by rewrite lookup_insert_eq.
  - by rewrite lookup_insert_ne.
Qed.

(** Looking up a name in the encoding of a map is looking it up in the
    map. *)
Lemma member_sorted_entries (m : gmap string string) (k : string) :
  member k (JSON.Object (map (fun '(k, v) => (k, JSON.Str v)) (sorted_entries m)))
  = JSON.Str <$> m !! k.
Proof.
  rewrite member_entries. f_equal.
  rewrite <- (list_to_map_to_list m) at 2. f_equal.
  apply list_to_map_proper; [|apply sorted_entries_perm].
  rewrite sorted_entries_perm. apply NoDup_fst_map_to_list.
Qed.

Section HandlerRuns.
Context {Σ : Type} `{World Σ} {W : Type} `{http.ResponseWriter W}.

Lemma bind_panic {A B} (message : string) (k : A -> M Σ B) (st : State Σ) :
  bind (panic message) k st = mkOutcome (Panic message) st [].
Proof. reflexivity. Qed.

(** The run of the handler in which the backend call happened, in full. *)
Lemma proxyHandler_served (w : W) (r : http.Request) (st : State Σ) fwd ops :
  In (EServeHTTP fwd ops) (events (proxyHandler w r st)) ->
  exists bodyBytes evs targetURL t_end t_log σ,
    let path := url.Path (http.URL r) in
    let apiKey := apiKey_of (config st) r in
    let model := getModelFromRequest path bodyBytes in
    let status := last_status 0 ops in
    let duration := t_end - (time_Now (world st)).1 in
    let tokens := getTokenCountsFromResponse path (written ops) in
    http.Body r = http.ReadOk bodyBytes
    /\ validation_events (config st) (details_of (config st) r bodyBytes) true evs
    /\ proxy_target st = Some targetURL
    /\ fwd = forwarded targetURL r bodyBytes
    /\ proxyHandler w r st
       = mkOutcome (Ok (http.apply_ops ops w))
           (mkState σ (config st) (Some targetURL))
           (evs ++
            [EServeHTTP fwd ops;
             ELog t_log
               (if 400 <=? status then ERROR
                else if 300 <=? status then WARNING else INFO)
               (http.Method r +:+ " " +:+ path +:+ " " +:+ itoa status)
               (<["duration_ms" := JSON.Number (itoa (Milliseconds duration))]>
                  (<["status_code" := JSON.Number (itoa status)]>
                     (<["remote_addr" := JSON.Str (http.RemoteAddr r)]>
                        (<["path" := JSON.Str path]>
                           (<["method" := JSON.Str (http.Method r)]>
                              (<["duration_ms" :=
                                   JSON.Number (itoa (Milliseconds duration))]>
                                 (<["output_tokens" := JSON.Number (itoa tokens.2)]>
                                    (<["input_tokens" :=
                                         JSON.Number (itoa tokens.1)]>
                                       (<["model" := JSON.Str model]>
                                          (<["api_key" := JSON.Str apiKey]>
                                             (<["endpoint" := JSON.Str path]>
                                                (<["user_agent" :=
                                                     JSON.Str
                                                       (http.Header_Get
                                                          (http.Request_Header r)
                                                          "User-Agent")]> ∅))))))))))));
             EGo_sendMetrics
               {| MetricsData.APIKey := apiKey;
                  MetricsData.Model := model;
                  MetricsData.InputTokenLength := tokens.1;
                  MetricsData.OutputTokenLength := tokens.2;
                  MetricsData.RequestDurationMs := Milliseconds duration;
                  MetricsData.Endpoint := path |}]).
Proof.
  unfold proxyHandler. rewrite bind_now, bind_get_config.
  set (st0 := with_world st _). cbv zeta.
  change (config st0) with (config st).
  fold (apiKey_of (config st) r).
  destruct (String.eqb_spec (apiKey_of (config st) r) "") as [Hk|Hk].
  { unfold logger_Warning. rewrite bind_Log. unfold ret, after; simpl.
    by intros [|[]]. }
  unfold copyHeaders.
  destruct (bool_decide_reflect
              (map_Forall (fun _ v => v <> []) (http.Request_Header r))) as [Hh|Hh].
  2:{ by intros []. }
  rewrite bind_ret.
  destruct (http.Body r) as [bodyBytes|err] eqn:Eb.
  2:{ unfold logger_Error. rewrite bind_Log. unfold ret, after; simpl.
      by intros [|[]]. }
  fold (first_values r). fold (details_of (config st) r bodyBytes).
  destruct (validateRequest_run (details_of (config st) r bodyBytes) st0)
    as (b & σ & evs & Ev & Hev).
  rewrite (bind_run _ _ _ _ _ _ Ev).
  cbv beta. destruct b; cbn [negb]; cbv iota.
  2:{ unfold logger_Warning. rewrite bind_Log. unfold ret, after; simpl.
      intros [Hin|[|[]]]%in_app_or; [|done].
      by apply (validation_no_ServeHTTP _ _ _ _ _ _ Hev) in Hin. }
  pose proof (getReverseProxy_run (with_world st0 σ)) as Hp.
  change (proxy_target (with_world st0 σ)) with (proxy_target st) in Hp.
  destruct (proxy_target st) as [targetURL|] eqn:Et.
  2:{ destruct Hp as [message Hp]. unfold bind at 1. rewrite Hp.
      unfold after; simpl.
      intros [Hin|[|[]]]%in_app_or; [|done].
      by apply (validation_no_ServeHTTP _ _ _ _ _ _ Hev) in Hin. }
  rewrite (bind_run _ _ _ _ _ _ Hp).
  unfold ReverseProxy_ServeHTTP. rewrite bind_bind, bind_ask, bind_bind, bind_emit.
  rewrite !bind_ret, bind_now.
  fold (forwarded targetURL r bodyBytes).
  set (ops' := (proxy_ServeHTTP _ _).1).
  destruct (wrapper_ops ops' (mkResponseWriter w "" 0)) as (Hw & Hb & Hs).
  simpl in Hw, Hb, Hs. rewrite app_nil_l in Hb. rewrite Hb, Hs.
  destruct (getTokenCountsFromResponse _ (written ops'))
    as [inputTokens outputTokens] eqn:Etok.
  unfold logger_RequestLog. rewrite bind_Log. unfold go_sendMetrics.
  rewrite bind_emit. unfold ret, after; simpl. rewrite Hw.
  intros [Hin|[Heq|[|[|[]]]]]%in_app_or; try done.
  { by apply (validation_no_ServeHTTP _ _ _ _ _ _ Hev) in Hin. }
  injection Heq as <- <-.
  eexists bodyBytes, evs, targetURL, _, _, _.
  split; [done|]. split; [done|]. split; [done|]. split; [done|].
  rewrite Etok. reflexivity.
Qed.

(** Where a run of the handler leaves the process: as it was but for the
    world, unless the backend call happened, and then with the proxy it
    used. *)
Lemma proxyHandler_final (w : W) (r : http.Request) (st : State Σ) :
  (exists σ,
      final (proxyHandler w r st) = with_world st σ
      /\ backend_calls (events (proxyHandler w r st)) = [])
  \/ (exists σ targetURL fwd ops,
        proxy_target st = Some targetURL
        /\ final (proxyHandler w r st) = mkState σ (config st) (Some targetURL)
        /\ backend_calls (events (proxyHandler w r st)) = [EServeHTTP fwd ops]).
Proof.
  set (P := fun o : Outcome Σ W =>
              (exists σ, final o = with_world st σ /\ backend_calls (events o) = [])
              \/ (exists σ targetURL fwd ops,
                    proxy_target st = Some targetURL
                    /\ final o = mkState σ (config st) (Some targetURL)
                    /\ backend_calls (events o) = [EServeHTTP fwd ops])).
  change (P (proxyHandler w r st)).
  assert (Hquiet : forall (a : Result W) σ evs,
             backend_calls evs = [] -> P (mkOutcome a (with_world st σ) evs)).
  { intros a σ evs Hb. left. by exists σ. }
  unfold proxyHandler. rewrite bind_now, bind_get_config.
  set (st0 := with_world st _). cbv zeta.
  change (config st0) with (config st).
  fold (apiKey_of (config st) r).
  destruct (String.eqb_spec (apiKey_of (config st) r) "") as [Hk|Hk].
  { unfold logger_Warning. rewrite bind_Log. by apply Hquiet. }
  unfold copyHeaders.
  destruct (bool_decide_reflect
              (map_Forall (fun _ v => v <> []) (http.Request_Header r))) as [Hh|Hh].
  2:{ by apply Hquiet. }
  rewrite bind_ret.
  destruct (http.Body r) as [bodyBytes|err] eqn:Ebd.
  2:{ unfold logger_Error. rewrite bind_Log. by apply Hquiet. }
  fold (first_values r). fold (details_of (config st) r bodyBytes).
  destruct (validateRequest_run (details_of (config st) r bodyBytes) st0)
    as (b & σ & evs & Ev & Hev).
  destruct (validation_no_backend _ _ _ _ Hev) as [Hnb _].
  rewrite (bind_run _ _ _ _ _ _ Ev).
  cbv beta. destruct b; cbn [negb]; cbv iota.
  2:{ unfold logger_Warning. rewrite bind_Log, after_after. apply Hquiet.
      cbn [events ret]. rewrite app_nil_r.
      unfold backend_calls in *. by rewrite filter_snoc, Hnb. }
  pose proof (getReverseProxy_run (with_world st0 σ)) as Hp.
  change (proxy_target (with_world st0 σ)) with (proxy_target st) in Hp.
  destruct (proxy_target st) as [targetURL|] eqn:Et.
  2:{ destruct Hp as [message Hp]. unfold bind at 1. rewrite Hp.
      unfold after; simpl. apply Hquiet.
      unfold backend_calls in *. by rewrite filter_snoc, Hnb. }
  rewrite (bind_run _ _ _ _ _ _ Hp).
  unfold ReverseProxy_ServeHTTP. rewrite bind_bind, bind_ask, bind_bind, bind_emit.
  rewrite !bind_ret, bind_now.
  set (ops := (proxy_ServeHTTP _ _).1).
  destruct (getTokenCountsFromResponse _ _) as [inputTokens outputTokens].
  unfold logger_RequestLog. rewrite bind_Log. unfold go_sendMetrics.
  rewrite bind_emit. unfold ret, after; simpl.
  right. eexists _, targetURL, _, ops. split; [done|]. split; [reflexivity|].
  simpl. unfold backend_calls in *. by rewrite List.filter_app, Hnb.
Qed.

End HandlerRuns.

Section HandlerProperties.
Context {Σ : Type} `{World Σ} {W : Type} `{http.ResponseWriter W}.

(** X1. A request that carries a key and whose body cannot be read is
    answered 400 Bad Request with the text [Error reading request body].
    The run consists of one ERROR line, which records the read error and
    the key: no outbound call, no backend call and no metrics dispatch
    happen, and configuration and proxy stay as they were. *)
Theorem X1_unreadable_body_is_bad_request (w : W) (r : http.Request)
  (st : State Σ) (err : string) :
  apiKey_of (config st) r <> "" ->
  headers_nonempty r ->
  http.Body r = http.ReadErr err ->
  let o := proxyHandler w r st in
  result o = Ok (http.Error w "Error reading request body" http.StatusBadRequest)
  /\ (exists t fields,
        events o = [ELog t ERROR "Error reading request body" fields]
        /\ fields !! "error" = Some (JSON.Str err)
        /\ fields !! "api_key" = Some (JSON.Str (apiKey_of (config st) r)))
  /\ client_calls (events o) = []
  /\ backend_calls (events o) = []
  /\ metrics_dispatches (events o) = []
  /\ config (final o) = config st
  /\ reverseProxy (final o) = reverseProxy st.
Proof.
  intros Hk Hh Hb o. subst o. unfold proxyHandler.
  rewrite bind_now, bind_get_config. cbv zeta.
  change (config (with_world st _)) with (config st).
  fold (apiKey_of (config st) r).
  destruct (String.eqb_spec (apiKey_of (config st) r) "") as [Hk'|_]; [done|].
  unfold copyHeaders. rewrite bool_decide_eq_true_2 by exact Hh.
  rewrite bind_ret, Hb.
  unfold logger_Error. rewrite bind_Log. unfold ret, after; simpl.
  split_and!; try done.
  eexists _, _. split; [reflexivity|].
  split; [by rewrite lookup_insert_eq|].
  rewrite lookup_insert_ne by done. by rewrite lookup_insert_eq.
Qed.

(** X2. The copy loop over the request headers takes [v[0]] of every
    header name.  A request that carries a key and has a header name with
    an empty value list therefore makes the handler panic, before it has
    logged, called or written anything. *)
Theorem X2_header_without_value_panics (w : W) (r : http.Request)
  (st : State Σ) (name : string) :
  apiKey_of (config st) r <> "" ->
  http.Request_Header r !! name = Some [] ->
  let o := proxyHandler w r st in
  (exists message, result o = Panic message)
  /\ events o = []
  /\ config (final o) = config st
  /\ reverseProxy (final o) = reverseProxy st.
Proof.
  intros Hk Hn o. subst o. unfold proxyHandler.
  rewrite bind_now, bind_get_config. cbv zeta.
  change (config (with_world st _)) with (config st).
  fold (apiKey_of (config st) r).
  destruct (String.eqb_spec (apiKey_of (config st) r) "") as [Hk'|_]; [done|].
  unfold copyHeaders. rewrite bool_decide_eq_false_2.
  2:{ intros Hall. by apply (Hall name []). }
  rewrite bind_panic. cbn [result events final]. eauto.
Qed.

(** X3. Whatever the request and the state, one run of the handler makes
    at most one outbound call, at most one backend call and at most one
    metrics dispatch; a metrics dispatch happens only in a run with a
    backend call, and a backend call only in a run with an outbound
    (validation) call. *)
Theorem X3_handler_effects_bounded (w : W) (r : http.Request) (st : State Σ) :
  let evs := events (proxyHandler w r st) in
  (length (client_calls evs) <= 1)%nat
  /\ (length (backend_calls evs) <= 1)%nat
  /\ (length (metrics_dispatches evs) <= 1)%nat
  /\ (metrics_dispatches evs <> [] -> backend_calls evs <> [])
  /\ (backend_calls evs <> [] -> client_calls evs <> []).
Proof.
  intros evs. subst evs.
  destruct (proxyHandler_run w r st)
    as [t f _ _ He
       |msg _ _ _ He
       |err t f _ _ _ _ He
       |b' evs t f _ _ _ Hv _ He
       |b' evs msg _ _ _ Hv _ _ He
       |b' evs tgt ops t l m f dur _ _ _ Hv _ _ He];
    rewrite He; try (simpl; split_and!; (done || lia));
    destruct (validation_no_backend _ _ _ _ Hv) as [Hnb Hnm];
    pose proof (validation_one_call _ _ _ _ Hv) as Hone;
    unfold client_calls, backend_calls, metrics_dispatches in *;
    rewrite !List.filter_app, ?Hnb, ?Hnm; simpl; rewrite ?app_nil_r;
    split_and!; try done; try lia.
  intros _. by apply validation_calls_when_approved in Hv.
Qed.

(** X4. The handler never changes the configuration, and the reverse
    proxy is built at most once.  A proxy built before is kept and used as
    it is: every backend call goes to the target it captured, whatever
    [ollamaURL] now says.  When none was built before, the run either
    leaves it unbuilt and makes no backend call, or builds it from the
    parsed [ollamaURL], keeps it and makes its one backend call through
    it. *)
Theorem X4_proxy_built_once (w : W) (r : http.Request) (st : State Σ) :
  let o := proxyHandler w r st in
  config (final o) = config st
  /\ (forall targetURL,
        reverseProxy st = Some targetURL ->
        reverseProxy (final o) = Some targetURL
        /\ forall fwd ops,
             In (EServeHTTP fwd ops) (events o) ->
             http.FwdURL fwd = Director targetURL (http.URL r))
  /\ (reverseProxy st = None ->
        (reverseProxy (final o) = None /\ backend_calls (events o) = [])
        \/ exists targetURL fwd ops,
             url_Parse (ollamaURL (config st)) = inr targetURL
             /\ reverseProxy (final o) = Some targetURL
             /\ backend_calls (events o) = [EServeHTTP fwd ops]
             /\ http.FwdURL fwd = Director targetURL (http.URL r)).
Proof.
  intros o. subst o.
  assert (Hfwd : forall fwd ops,
             In (EServeHTTP fwd ops) (events (proxyHandler w r st)) ->
             exists u, proxy_target st = Some u
                       /\ http.FwdURL fwd = Director u (http.URL r)).
  { intros fwd ops Hin.
    destruct (proxyHandler_served w r st fwd ops Hin)
      as (bodyBytes & evs & u & _ & _ & _ & _ & _ & Hp & -> & _).
    by exists u. }
  destruct (proxyHandler_final w r st)
    as [(σ & -> & Hb)|(σ & u & fwd & ops & Hp & -> & Hb)]; simpl.
  - split; [done|]. split.
    + intros u Hu. split; [done|]. intros fwd ops Hin.
      destruct (Hfwd fwd ops Hin) as (u' & Hp & ->).
      unfold proxy_target in Hp. rewrite Hu in Hp. by injection Hp as <-.
    + intros Hn. by left.
  - split; [done|].
    assert (Hf : http.FwdURL fwd = Director u (http.URL r)).
    { destruct (Hfwd fwd ops) as (u' & Hp' & ->).
      - apply (proj1 (filter_In is_ServeHTTP _ _)).
        unfold backend_calls in Hb. rewrite Hb. by left.
      - rewrite Hp in Hp'. by injection Hp' as <-. }
    split.
    + intros u' Hu. unfold proxy_target in Hp. rewrite Hu in Hp.
      injection Hp as ->. split; [done|]. intros fwd' ops' Hin.
      destruct (Hfwd fwd' ops' Hin) as (u'' & Hp' & ->).
      unfold proxy_target in Hp'. rewrite Hu in Hp'. by injection Hp' as <-.
    + intros Hn. right. exists u, fwd, ops.
      unfold proxy_target in Hp. rewrite Hn in Hp.
      destruct (url_Parse (ollamaURL (config st))) as [err|u'] eqn:Eu; [done|].
      injection Hp as ->. done.
Qed.

(** X5. The document sent to the validation service describes the inbound
    request: [apiKey] is the key read from the configured header,
    [ipAddress] the remote address, [userAgent] the User-Agent header,
    [endpoint] the URL path, and [headers] has, for every header name of
    the request, its first value (further values are dropped) and no other
    member. *)
Theorem X5_validation_payload_carries_request
  (w : W) (r : http.Request) (st : State Σ) client req res :
  In (EClientDo client req res) (events (proxyHandler w r st)) ->
  exists payload headers,
    http.OutBody req = Some payload
    /\ member "apiKey" payload = Some (JSON.Str (apiKey_of (config st) r))
    /\ member "ipAddress" payload = Some (JSON.Str (http.RemoteAddr r))
    /\ member "userAgent" payload
       = Some (JSON.Str (http.Header_Get (http.Request_Header r) "User-Agent"))
    /\ member "endpoint" payload = Some (JSON.Str (url.Path (http.URL r)))
    /\ member "headers" payload = Some headers
    /\ forall name,
         member name headers
         = JSON.Str <$> (http.Request_Header r !! name ≫= head).
Proof.
  intros (bodyBytes & payload & _ & Hm & Hb & _)%handler_call_inv.
  injection Hm as <-.
  eexists _, _. split; [exact Hb|].
  split_and!; try reflexivity.
  intros name. unfold details_of; cbn [RequestDetails.Headers].
  cbn [snd]. rewrite member_sorted_entries.
  unfold first_values. by rewrite lookup_omap.
Qed.


(** X7. The request handed to the reverse proxy is the inbound one: the
    same method, the same header map, and a body holding exactly the bytes
    the handler read from the inbound body for model extraction.  Its URL
    is the director's rewriting of the inbound URL for the proxy's
    target. *)
Theorem X7_request_forwarded_unchanged
  (w : W) (r : http.Request) (st : State Σ) fwd ops :
  In (EServeHTTP fwd ops) (events (proxyHandler w r st)) ->
  http.Body r = http.ReadOk (http.FwdBody fwd)
  /\ http.FwdMethod fwd = http.Method r
  /\ http.FwdHeader fwd = http.Request_Header r
  /\ exists targetURL,
       proxy_target st = Some targetURL
       /\ http.FwdURL fwd = Director targetURL (http.URL r).
Proof.
  intros Hin.
  destruct (proxyHandler_served w r st fwd ops Hin)
    as (bodyBytes & evs & u & _ & _ & _ & Hb & _ & Hp & -> & _).
  split_and!; try done. by exists u.
Qed.

End HandlerProperties.

(** X4 on a process whose backend URL no longer parses: the proxy built
    before is used. *)
Lemma X4_witness :
  reverseProxy Cases.prebuilt = Some (url.mk "http" "localhost:11434" "" "")
  /\ reverseProxy (final (proxyHandler http.NewRecorder Scenario.chat_request
                            Cases.prebuilt))
     = Some (url.mk "http" "localhost:11434" "" "")
  /\ forall fwd ops,
       In (EServeHTTP fwd ops)
         (events (proxyHandler http.NewRecorder Scenario.chat_request
                    Cases.prebuilt)) ->
       http.FwdURL fwd
       = Director (url.mk "http" "localhost:11434" "" "")
           (http.URL Scenario.chat_request).
Proof.
  split; [reflexivity|].
  exact (proj1 (proj2 (X4_proxy_built_once http.NewRecorder Scenario.chat_request
                         Cases.prebuilt))
           (url.mk "http" "localhost:11434" "" "") eq_refl).
Defined.

(** X1 on a chat request whose body cannot be read. *)
Lemma X1_witness :
  apiKey_of Scenario.cfg Cases.unreadable_request <> ""
  /\ headers_nonempty Cases.unreadable_request
  /\ result (proxyHandler http.NewRecorder Cases.unreadable_request
               (Scenario.start Scenario.cfg [] []))
     = Ok (http.Error http.NewRecorder "Error reading request body"
             http.StatusBadRequest)
  /\ client_calls (events (proxyHandler http.NewRecorder Cases.unreadable_request
                             (Scenario.start Scenario.cfg [] []))) = [].
Proof.
  assert (Hk : apiKey_of Scenario.cfg Cases.unreadable_request <> "")
    by (vm_compute; discriminate).
  assert (Hh : headers_nonempty Cases.unreadable_request)
    by (unfold headers_nonempty; apply (bool_decide_eq_true_1 _); vm_compute; reflexivity).
  split; [exact Hk|]. split; [exact Hh|].
  pose proof (X1_unreadable_body_is_bad_request http.NewRecorder
                Cases.unreadable_request (Scenario.start Scenario.cfg [] [])
                "unexpected EOF" Hk Hh eq_refl) as (Hr & _ & Hc & _).
  exact (conj Hr Hc).
Defined.

(** X2 on a chat request with the valueless header [X-Trace]. *)
Lemma X2_witness :
  apiKey_of Scenario.cfg Cases.valueless_header_request <> ""
  /\ http.Request_Header Cases.valueless_header_request !! "X-Trace" = Some []
  /\ (exists message,
        result (proxyHandler http.NewRecorder Cases.valueless_header_request
                  (Scenario.start Scenario.cfg [Scenario.verdict true false]
                     Scenario.chat_reply))
        = Panic message)
  /\ events (proxyHandler http.NewRecorder Cases.valueless_header_request
               (Scenario.start Scenario.cfg [Scenario.verdict true false]
                  Scenario.chat_reply)) = [].
Proof.
  assert (Hk : apiKey_of Scenario.cfg Cases.valueless_header_request <> "")
    by (vm_compute; discriminate).
  assert (Hn : http.Request_Header Cases.valueless_header_request !! "X-Trace"
               = Some []) by (vm_compute; reflexivity).
  split; [exact Hk|]. split; [exact Hn|].
  pose proof (X2_header_without_value_panics http.NewRecorder
                Cases.valueless_header_request
                (Scenario.start Scenario.cfg [Scenario.verdict true false]
                   Scenario.chat_reply) "X-Trace" Hk Hn) as (Hr & He & _).
  exact (conj Hr He).
Defined.

(** X5 on the approved chat request. *)
Lemma X5_witness :
  exists client req res,
    In (EClientDo client req res) (events Scenario.served)
    /\ exists payload headers,
         http.OutBody req = Some payload
         /\ member "apiKey" payload = Some (JSON.Str "test-api-key")
         /\ member "headers" payload = Some headers
         /\ member "Content-Type" headers = Some (JSON.Str "application/json").
Proof.
  assert (Hin : exists client req res,
             In (EClientDo client req res) (events Scenario.served)).
  { vm_compute. eexists _, _, _. left. reflexivity. }
  destruct Hin as (client & req & res & Hin).
  exists client, req, res. split; [exact Hin|].
  destruct (X5_validation_payload_carries_request _ _ _ _ _ _ Hin)
    as (payload & headers & Hb & Hk & _ & _ & _ & Hh & Hall).
  exists payload, headers.
  split; [exact Hb|]. split; [exact Hk|]. split; [exact Hh|].
  exact (Hall "Content-Type").
Defined.


(** X7 on the approved chat request. *)
Lemma X7_witness :
  exists fwd ops,
    In (EServeHTTP fwd ops) (events Scenario.served)
    /\ http.Body Scenario.chat_request = http.ReadOk (http.FwdBody fwd)
    /\ http.FwdMethod fwd = "POST"
    /\ http.FwdHeader fwd = http.Request_Header Scenario.chat_request.
Proof.
  assert (Hin : exists fwd ops, In (EServeHTTP fwd ops) (events Scenario.served)).
  { vm_compute. eexists _, _. right. left. reflexivity. }
  destruct Hin as (fwd & ops & Hin).
  exists fwd, ops. split; [exact Hin|].
  destruct (X7_request_forwarded_unchanged _ _ _ _ _ Hin) as (Hb & Hm & Hh & _).
  exact (conj Hb (conj Hm Hh)).
Defined.

(** ** The director under the default backend URL *)

(** X8. For a backend URL without a path (or with the path [/]) and
    without a query, as the default [http://localhost:11434], the director
    changes scheme and host only: an inbound path that starts with a slash
    and the inbound query are forwarded as they are. *)
Theorem X8_director_keeps_path_under_bare_backend (targetURL reqURL : url.URL) :
  url.Path targetURL = "" \/ url.Path targetURL = "/" ->
  url.RawQuery targetURL = "" ->
  HasPrefix (url.Path reqURL) "/" = true ->
  Director targetURL reqURL
  = url.mk (url.Scheme targetURL) (url.Host targetURL)
      (url.Path reqURL) (url.RawQuery reqURL).
Proof.
  intros Hp Hq Hs. unfold Director. rewrite Hq. simpl. f_equal.
  unfold singleJoiningSlash. rewrite Hs.
  apply HasPrefix_inv in Hs. destruct Hp as [-> | ->]; simpl.
  - done.
  - by rewrite Hs at 2.
Qed.

(** X8 on the default backend URL. *)
Lemma X8_witness :
  Director (url.mk "http" "localhost:11434" "" "")
    (url.mk "" "" "/api/chat" "stream=1")
  = url.mk "http" "localhost:11434" "/api/chat" "stream=1".
Proof.
  exact (X8_director_keeps_path_under_bare_backend
           (url.mk "http" "localhost:11434" "" "")
           (url.mk "" "" "/api/chat" "stream=1")
           (or_introl eq_refl) eq_refl eq_refl).
Defined.

(** ** Configuration and start-up *)

Lemma call_after_logs client req res pre tail :
  forallb is_Log pre = true ->
  In (EClientDo client req res) (pre ++ tail) ->
  In (EClientDo client req res) tail.
Proof.
  intros Hpre [Hin|Hin]%in_app_or; [|done]. by apply logs_no_ClientDo in Hin.
Qed.

Ltac probe_leaf Hevs :=
  unfold ret, after; cbn [events app];
  let Hin := fresh "Hin" in
  intros Hin; apply (call_after_logs _ _ _ _ _ Hevs) in Hin;
  simpl in Hin;
  repeat match type of Hin with
         | _ \/ _ => destruct Hin as [Hin|Hin]
         | False => destruct Hin
         | _ = _ => simplify_eq; try done
         end.

Section StartupProperties.
Context {Σ : Type} `{World Σ}.

(** An empty value counts as unset. *)
Lemma getEnvOrDefault_exec key defaultValue (st : State Σ) :
  getEnvOrDefault key defaultValue st
  = mkOutcome
      (Ok (if String.eqb (os_Getenv key (world st)) "" then defaultValue
           else os_Getenv key (world st)))
      st [].
Proof.
  unfold getEnvOrDefault. rewrite bind_read.
  by destruct (String.eqb _ _).
Qed.

Lemma loadConfig_exec (st : State Σ) :
  let pick key defaultValue :=
    if String.eqb (os_Getenv key (world st)) "" then defaultValue
    else os_Getenv key (world st) in
  loadConfig st
  = mkOutcome (Ok tt)
      (mkState (world st)
         {| ollamaURL := pick "OLLAMA_URL" "http://localhost:11434";
            externalValidationURL :=
              pick "EXTERNAL_VALIDATION_URL" "http://external-server.com/validate";
            externalMetricsURL :=
              pick "EXTERNAL_METRICS_URL" "http://external-server.com/log_metrics";
            apiKeyHeaderName := pick "API_KEY_HEADER_NAME" "X-API-Key";
            proxyPort := pick "PROXY_PORT" "8080";
            externalServerAPIKey := pick "EXTERNAL_SERVER_API_KEY" "";
            externalServerCert := pick "EXTERNAL_SERVER_CERT" "";
            skipTLSVerify := String.eqb (pick "SKIP_TLS_VERIFY" "false") "true" |}
         (reverseProxy st))
      [].
Proof.
  unfold loadConfig.
  repeat (rewrite (bind_run _ _ _ _ _ _ (getEnvOrDefault_exec _ _ _)), after_nil).
  reflexivity.
Qed.

(** X14. [loadConfig] reads nothing but the environment and writes
    nothing but the configuration: each variable becomes the value of its
    environment variable, or its default when that is unset or empty.  So
    the three URLs, the header name and the port are never empty; the
    server key and the certificate path are empty by default; and
    [skipTLSVerify] is set exactly when [SKIP_TLS_VERIFY] is the string
    [true].  The result does not depend on the configuration before. *)
Theorem X14_loadConfig_defaults (st : State Σ) :
  let o := loadConfig st in
  let env key := os_Getenv key (world st) in
  let pick key defaultValue :=
    if String.eqb (env key) "" then defaultValue else env key in
  let cfg := config (final o) in
  result o = Ok tt
  /\ events o = []
  /\ world (final o) = world st
  /\ reverseProxy (final o) = reverseProxy st
  /\ cfg
     = {| ollamaURL := pick "OLLAMA_URL" "http://localhost:11434";
          externalValidationURL :=
            pick "EXTERNAL_VALIDATION_URL" "http://external-server.com/validate";
          externalMetricsURL :=
            pick "EXTERNAL_METRICS_URL" "http://external-server.com/log_metrics";
          apiKeyHeaderName := pick "API_KEY_HEADER_NAME" "X-API-Key";
          proxyPort := pick "PROXY_PORT" "8080";
          externalServerAPIKey := env "EXTERNAL_SERVER_API_KEY";
          externalServerCert := env "EXTERNAL_SERVER_CERT";
          skipTLSVerify := String.eqb (env "SKIP_TLS_VERIFY") "true" |}
  /\ (ollamaURL cfg <> "" /\ externalValidationURL cfg <> ""
      /\ externalMetricsURL cfg <> "" /\ apiKeyHeaderName cfg <> ""
      /\ proxyPort cfg <> "")
  /\ (skipTLSVerify cfg = true <-> env "SKIP_TLS_VERIFY" = "true")
  /\ (forall c, config (final (loadConfig (mkState (world st) c (reverseProxy st))))
                = cfg).
Proof.
  intros o env pick cfg. subst o env pick cfg. rewrite loadConfig_exec.
  cbn [final config result events world reverseProxy].
  assert (Hne : forall key d, d <> "" ->
             (if String.eqb (os_Getenv key (world st)) "" then d
              else os_Getenv key (world st)) <> "").
  { intros key d Hd. by destruct (String.eqb_spec (os_Getenv key (world st)) ""). }
  assert (Hid : forall key,
             (if String.eqb (os_Getenv key (world st)) "" then ""
              else os_Getenv key (world st)) = os_Getenv key (world st)).
  { intros key. by destruct (String.eqb_spec (os_Getenv key (world st)) ""). }
  assert (Hskip : String.eqb
                    (if String.eqb (os_Getenv "SKIP_TLS_VERIFY" (world st)) ""
                     then "false" else os_Getenv "SKIP_TLS_VERIFY" (world st))
                    "true"
                  = String.eqb (os_Getenv "SKIP_TLS_VERIFY" (world st)) "true").
  { destruct (String.eqb_spec (os_Getenv "SKIP_TLS_VERIFY" (world st)) "") as [E|E];
      [by rewrite E | done]. }
  rewrite !Hid, Hskip.
  split_and!;
    cbn [ollamaURL externalValidationURL externalMetricsURL apiKeyHeaderName
         proxyPort externalServerAPIKey externalServerCert skipTLSVerify];
    try done; try (by apply Hne).
  - apply String.eqb_eq.
  - intros c. rewrite loadConfig_exec.
    cbn [final config world reverseProxy]. by rewrite !Hid, Hskip.
Qed.

(** X15. When [main] gets to start the server, its run ends with: the
    handler registered for [/], the INFO line naming the port, the listener
    started on [":" + port], and, once the listener returns, the ERROR line
    with its error and exit status 1.  The port is the configured one; it
    is never empty, and in production mode ([GO_ENV=production], no
    [.env] file read) it is [PROXY_PORT] from the environment, or 8080. *)
Theorem X15_main_listens_on_configured_port (st : State Σ) :
  List.filter is_Listen (events (main st)) <> [] ->
  exists pre port t err t',
    events (main st)
    = pre ++ [EHandleFunc "/";
              ELog t INFO "Starting Ollama proxy server"
                (<["port" := JSON.Str port]> ∅);
              EListenAndServe (":" +:+ port) err;
              ELog t' ERROR "Failed to start server"
                (<["error" := JSON.Str err]> ∅)]
    /\ List.filter is_Listen pre = []
    /\ result (main st) = Exit 1
    /\ port = proxyPort (config (final (main st)))
    /\ port <> ""
    /\ (os_Getenv "GO_ENV" (world st) = "production" ->
        port = if String.eqb (os_Getenv "PROXY_PORT" (world st)) "" then "8080"
               else os_Getenv "PROXY_PORT" (world st)).
Proof.
  set (P := fun o : Outcome Σ unit =>
     List.filter is_Listen (events o) <> [] ->
     exists pre port t err t',
       events o
       = pre ++ [EHandleFunc "/";
                 ELog t INFO "Starting Ollama proxy server"
                   (<["port" := JSON.Str port]> ∅);
                 EListenAndServe (":" +:+ port) err;
                 ELog t' ERROR "Failed to start server"
                   (<["error" := JSON.Str err]> ∅)]
       /\ List.filter is_Listen pre = []
       /\ result o = Exit 1
       /\ port = proxyPort (config (final o))
       /\ port <> ""
       /\ (os_Getenv "GO_ENV" (world st) = "production" ->
           port = if String.eqb (os_Getenv "PROXY_PORT" (world st)) "" then "8080"
                  else os_Getenv "PROXY_PORT" (world st))).
  change (P (main st)).
  unfold main. rewrite bind_read.
  assert (exists σ0 evs0,
             forallb is_Log evs0 = true
             /\ (os_Getenv "GO_ENV" (world st) = "production" -> σ0 = world st)
             /\ forall B (k : unit -> M Σ B),
                 bind (if negb (String.eqb (os_Getenv "GO_ENV" (world st)) "production")
                       then err <- ask godotenv_Load ;;
                            match err with
                            | Some e =>
                              logger_Warning "No .env file found or error loading .env"
                                (<["error" := JSON.Str e]> ∅)
                            | None => ret tt
                            end
                       else ret tt) k st
                 = after evs0 (k tt (with_world st σ0)))
    as (σ0 & evs0 & Hl0 & Hprod & ->).
  { destruct (String.eqb_spec (os_Getenv "GO_ENV" (world st)) "production")
      as [Eg|Eg]; cbn [negb].
    - exists (world st), []. split; [done|]. split; [done|]. intros B k.
      rewrite bind_ret, after_nil. by destruct st.
    - destruct (godotenv_Load (world st)).1 as [e|] eqn:El.
      + eexists _, [ELog _ _ _ _]. split; [done|]. split; [intros ?; contradiction|]. intros B k.
        rewrite bind_bind, bind_ask, El. unfold logger_Warning.
        by rewrite bind_Log.
      + eexists _, []. split; [done|]. split; [intros ?; contradiction|]. intros B k.
        by rewrite bind_bind, bind_ask, El, bind_ret, after_nil. }
  rewrite (bind_run _ _ _ _ _ _ (loadConfig_exec _)), after_nil.
  set (cfg := mkConfig _ _ _ _ _ _ _ _).
  set (st1 := mkState _ cfg _).
  destruct (validateExternalServices_run st1) as (err & σ & evs & E & Hs & Hli).
  rewrite (bind_run _ _ _ _ _ _ E).
  pose proof (logs_no_listen _ Hl0) as Hli0.
  destruct err as [e|].
  - unfold logger_Error. rewrite bind_Log. subst P.
    unfold os_Exit, after; simpl.
    rewrite !List.filter_app, Hli0, Hli. simpl. done.
  - unfold http_HandleFunc, logger_Info, ListenAndServe.
    rewrite bind_emit, bind_get_config, bind_Log, bind_bind, bind_ask, bind_bind,
      bind_emit, bind_ret.
    unfold logger_Error. rewrite bind_Log. subst P.
    unfold os_Exit, after; simpl. intros _.
    eexists (evs0 ++ evs), _, _, _, _. split; [by rewrite <- app_assoc|].
    split; [by rewrite List.filter_app, Hli0, Hli|].
    split; [done|]. split; [done|]. split.
    + by destruct (String.eqb_spec (os_Getenv "PROXY_PORT" σ0) "").
    + intros Hprd. by rewrite (Hprod Hprd).
Qed.

Lemma validateOllamaService_calls (st : State Σ) client req res :
  In (EClientDo client req res) (events (validateOllamaService st)) ->
  req = {| http.OutMethod := "GET";
           http.OutURL := ollamaURL (config st) +:+ "/api/tags";
           http.OutHeader := ∅; http.OutBody := None |}.
Proof.
  set (P := fun o : Outcome Σ (option string) =>
              In (EClientDo client req res) (events o) ->
              req = {| http.OutMethod := "GET";
                       http.OutURL := ollamaURL (config st) +:+ "/api/tags";
                       http.OutHeader := ∅; http.OutBody := None |}).
  change (P (validateOllamaService st)).
  unfold validateOllamaService.
  destruct (getSecureHTTPClient_run st) as (c & σ & evs & Ec & Hevs%Printf_logs).
  rewrite (bind_run _ _ _ _ _ _ Ec), bind_get_config.
  change (config (with_world st σ)) with (config st).
  unfold Client_Get, http_NewRequest.
  destruct (url_Parse _) as [err|u].
  - rewrite bind_ret. unfold logger_Error. rewrite bind_Log.
    subst P. probe_leaf Hevs.
  - rewrite (bind_run _ _ _ _ _ _ (Client_Do_run _ _ _)).
    destruct (client_Do c _ _).1 as [err|resp].
    + unfold logger_Error. rewrite bind_Log. subst P. probe_leaf Hevs.
    + destruct (negb _).
      * unfold logger_Warning. rewrite bind_Log. subst P. probe_leaf Hevs.
      * subst P. probe_leaf Hevs.
Qed.

Lemma validateExternalValidationService_calls (st : State Σ) client req res :
  In (EClientDo client req res) (events (validateExternalValidationService st)) ->
  exists t, req = signed_get (config st) (externalValidationURL (config st)) t.
Proof.
  set (P := fun o : Outcome Σ (option string) =>
              In (EClientDo client req res) (events o) ->
              exists t,
                req = signed_get (config st) (externalValidationURL (config st)) t).
  change (P (validateExternalValidationService st)).
  unfold validateExternalValidationService.
  destruct (getSecureHTTPClient_run st) as (c & σ & evs & Ec & Hevs%Printf_logs).
  rewrite (bind_run _ _ _ _ _ _ Ec), bind_get_config.
  change (config (with_world st σ)) with (config st).
  unfold http_NewRequest.
  destruct (url_Parse _) as [err|u].
  - unfold logger_Error. rewrite bind_Log. subst P. probe_leaf Hevs.
  - rewrite bind_now, (bind_run _ _ _ _ _ _ (Client_Do_run _ _ _)).
    fold (signed_get (config st) (externalValidationURL (config st))
            (time_Now (world (with_world st σ))).1).
    destruct (client_Do c _ _).1 as [err|resp].
    + unfold logger_Error. rewrite bind_Log. subst P. probe_leaf Hevs. eauto.
    + destruct (negb _).
      * unfold logger_Warning. rewrite bind_Log. subst P. probe_leaf Hevs. eauto.
      * subst P. probe_leaf Hevs. eauto.
Qed.

Lemma validateExternalMetricsService_calls (st : State Σ) client req res :
  In (EClientDo client req res) (events (validateExternalMetricsService st)) ->
  exists t, req = signed_get (config st) (externalMetricsURL (config st)) t.
Proof.
  set (P := fun o : Outcome Σ (option string) =>
              In (EClientDo client req res) (events o) ->
              exists t,
                req = signed_get (config st) (externalMetricsURL (config st)) t).
  change (P (validateExternalMetricsService st)).
  unfold validateExternalMetricsService.
  destruct (getSecureHTTPClient_run st) as (c & σ & evs & Ec & Hevs%Printf_logs).
  rewrite (bind_run _ _ _ _ _ _ Ec), bind_get_config.
  change (config (with_world st σ)) with (config st).
  unfold http_NewRequest.
  destruct (url_Parse _) as [err|u].
  - unfold logger_Error. rewrite bind_Log. subst P. probe_leaf Hevs.
  - rewrite bind_now, (bind_run _ _ _ _ _ _ (Client_Do_run _ _ _)).
    fold (signed_get (config st) (externalMetricsURL (config st))
            (time_Now (world (with_world st σ))).1).
    destruct (client_Do c _ _).1 as [err|resp].
    + unfold logger_Error. rewrite bind_Log. subst P. probe_leaf Hevs. eauto.
    + destruct (negb _).
      * unfold logger_Warning. rewrite bind_Log. subst P. probe_leaf Hevs. eauto.
      * subst P. probe_leaf Hevs. eauto.
Qed.

(** X16. The start-up probes are GET requests without a body.  The probe
    of the backend goes to [ollamaURL + "/api/tags"] and carries no header;
    the probes of the validation and the metrics service go to their
    configured URLs and carry exactly [X-Api-Key] with the server's key and
    [X-Request-Id] with a clock reading. *)
Theorem X16_probe_requests (st : State Σ) :
  (forall client req res,
      In (EClientDo client req res) (events (validateOllamaService st)) ->
      http.OutMethod req = "GET"
      /\ http.OutURL req = ollamaURL (config st) +:+ "/api/tags"
      /\ http.OutHeader req = ∅
      /\ http.OutBody req = None)
  /\ (forall client req res,
        In (EClientDo client req res)
          (events (validateExternalValidationService st)) ->
        http.OutMethod req = "GET"
        /\ http.OutURL req = externalValidationURL (config st)
        /\ (exists t,
              http.OutHeader req
              = <["X-Request-Id" := [itoa t]]>
                  (<["X-Api-Key" := [externalServerAPIKey (config st)]]> ∅))
        /\ http.OutBody req = None)
  /\ (forall client req res,
        In (EClientDo client req res)
          (events (validateExternalMetricsService st)) ->
        http.OutMethod req = "GET"
        /\ http.OutURL req = externalMetricsURL (config st)
        /\ (exists t,
              http.OutHeader req
              = <["X-Request-Id" := [itoa t]]>
                  (<["X-Api-Key" := [externalServerAPIKey (config st)]]> ∅))
        /\ http.OutBody req = None).
Proof.
  split; [|split].
  - by intros client req res ->%validateOllamaService_calls.
  - intros client req res [t ->]%validateExternalValidationService_calls.
    split_and!; try done. by exists t.
  - intros client req res [t ->]%validateExternalMetricsService_calls.
    split_and!; try done. by exists t.
Qed.

End StartupProperties.

(** X16 on the probe of the validation service. *)
Lemma X16_witness :
  exists client req res,
    In (EClientDo client req res)
      (events (validateExternalValidationService Cases.all_up))
    /\ http.OutMethod req = "GET"
    /\ http.OutURL req = "http://external-server.com/validate"
    /\ http.OutBody req = None.
Proof.
  assert (Hin : exists client req res,
             In (EClientDo client req res)
               (events (validateExternalValidationService Cases.all_up))).
  { vm_compute. eexists _, _, _. left. reflexivity. }
  destruct Hin as (client & req & res & Hin).
  exists client, req, res. split; [exact Hin|].
  destruct (proj1 (proj2 (X16_probe_requests Cases.all_up)) _ _ _ Hin)
    as (Hm & Hu & _ & Hb).
  exact (conj Hm (conj Hu Hb)).
Defined.

(** X15 on a start with the three services up. *)
Lemma X15_witness :
  List.filter is_Listen (events (main Cases.all_up)) <> []
  /\ exists pre port t err t',
       events (main Cases.all_up)
       = pre ++ [EHandleFunc "/";
                 ELog t INFO "Starting Ollama proxy server"
                   (<["port" := JSON.Str port]> ∅);
                 EListenAndServe (":" +:+ port) err;
                 ELog t' ERROR "Failed to start server"
                   (<["error" := JSON.Str err]> ∅)]
       /\ port <> "".
Proof.
  assert (Hl : List.filter is_Listen (events (main Cases.all_up)) <> [])
    by (vm_compute; discriminate).
  split; [exact Hl|].
  destruct (X15_main_listens_on_configured_port Cases.all_up Hl)
    as (pre & port & t & err & t' & He & _ & _ & _ & Hp & _).
  exists pre, port, t, err, t'. exact (conj He Hp).
Defined.

(** ** Bodies with more than one document *)

Section Frame.

Lemma skipws_app s t : skipws s <> "" -> skipws (s +:+ t) = skipws s +:+ t.
Proof.
  induction s as [|c s IH]; [done|]. rewrite app_cons. simpl.
  destruct (isSpace c); [exact IH | done].
Qed.

Lemma skipws_blank_app s t : skipws s = "" -> skipws (s +:+ t) = skipws t.
Proof.
  induction s as [|c s IH]; [done|]. rewrite app_cons. simpl.
  destruct (isSpace c); [exact IH | done].
Qed.

Lemma starts_with_app c s r t :
  starts_with c s = Some r -> starts_with c (s +:+ t) = Some (r +:+ t).
Proof.
  destruct s as [|c' s]; [done|]. rewrite app_cons. simpl.
  destruct (Ascii.eqb c' c); [|done]. by intros [= ->].
Qed.

Lemma starts_with_app_None c s t :
  s <> "" -> starts_with c s = None -> starts_with c (s +:+ t) = None.
Proof.
  destruct s as [|c' s]; [done|]. rewrite app_cons. simpl.
  by destruct (Ascii.eqb c' c).
Qed.

Lemma prepend_app pre res res' str r t :
  prepend pre res = Some (str, r) ->
  (forall str', res = Some (str', r) -> res' = Some (str', r +:+ t)) ->
  prepend pre res' = Some (str, r +:+ t).
Proof.
  destruct res as [[s' r']|]; [|done]. intros [= <- <-] Hr.
  by rewrite (Hr s' eq_refl).
Qed.

(** The look-ahead of [unquote] after a first surrogate: unless the input
    goes on with a second [\u] escape, the surrogate is replaced. *)
Lemma surrogate_tail (rr : N) (X : string) :
  (forall g1 g2 g3 g4 r3,
      X <> String backslash (String "u" (String g1 (String g2 (String g3 (String g4 r3)))))) ->
  match X with
  | String b (String u (String g1 (String g2 (String g3 (String g4 r3))))) =>
    match (if Ascii.eqb b backslash && Ascii.eqb u "u"
           then getu4 g1 g2 g3 g4 else None) with
    | Some rr1 =>
      if (DecodeRune rr rr1 =? ReplacementChar)%N
      then prepend (EncodeRune ReplacementChar) (unquote X)
      else prepend (EncodeRune (DecodeRune rr rr1)) (unquote r3)
    | None => prepend (EncodeRune ReplacementChar) (unquote X)
    end
  | _ => prepend (EncodeRune ReplacementChar) (unquote X)
  end = prepend (EncodeRune ReplacementChar) (unquote X).
Proof.
  intros Hx.
  destruct X as [|b [|u [|g1 [|g2 [|g3 [|g4 r3]]]]]]; try reflexivity.
  destruct (Ascii.eqb_spec b backslash) as [->|]; [|reflexivity].
  destruct (Ascii.eqb_spec u "u") as [->|]; [|reflexivity].
  by destruct (Hx g1 g2 g3 g4 r3).
Qed.

Lemma unquote_escape_prefix r2 t str r g1 g2 g3 g4 r3' :
  unquote r2 = Some (str, r) ->
  r2 +:+ t
  = String backslash (String "u" (String g1 (String g2 (String g3 (String g4 r3'))))) ->
  exists r3,
    r2 = String backslash (String "u" (String g1 (String g2 (String g3 (String g4 r3))))).
Proof.
  intros Hu Ht.
  destruct r2 as [|b [|u [|h1 [|h2 [|h3 [|h4 r3]]]]]];
    rewrite ?app_cons, ?app_nil_l in Ht; simplify_eq; try done.
  by exists r3.
Qed.

(** A string literal ends at its closing quote: what follows it does not
    change how it reads. *)
Lemma unquote_app_aux n : forall s str r t,
  (len s <= n)%nat -> unquote s = Some (str, r) ->
  unquote (s +:+ t) = Some (str, r +:+ t).
Proof.
  induction n as [|n IH]; intros s str r t Hn Hu.
  - destruct s; [done|]. exfalso; unfold len in Hn; simpl in Hn; lia.
  - destruct s as [|c r0]; [done|].
    rewrite app_cons. simpl in Hu |- *.
    destruct (Ascii.eqb c dquote). { by injection Hu as <- <-. }
    destruct (Ascii.eqb c backslash).
    2:{ destruct (N_of_ascii c <? 32)%N; [done|].
        eapply prepend_app; [exact Hu|]. intros str' Hs.
        apply IH; [|done]. unfold len in *; simpl in *; lia. }
    destruct r0 as [|e r1]; [done|]. rewrite app_cons.
    destruct (simple_escape e).
    { eapply prepend_app; [exact Hu|]. intros str' Hs.
      apply IH; [|done]. unfold len in *; simpl in *; lia. }
    destruct (Ascii.eqb e "u"); [|done].
    destruct r1 as [|h1 [|h2 [|h3 [|h4 r2]]]]; try done.
    rewrite !app_cons.
    destruct (getu4 h1 h2 h3 h4) as [rr|]; [|done].
    assert (Hlen : forall x, (len x <= len r2)%nat -> (len x <= n)%nat).
    { intros x Hx. unfold len in *; simpl in *; lia. }
    destruct (IsSurrogate rr).
    2:{ eapply prepend_app; [exact Hu|]. intros str' Hs. by apply IH; [apply Hlen|]. }
    assert (Hshort :
              (forall g1 g2 g3 g4 r3,
                  r2 <> String backslash (String "u" (String g1 (String g2 (String g3 (String g4 r3)))))) ->
              prepend (EncodeRune ReplacementChar) (unquote r2) = Some (str, r) ->
              match r2 +:+ t with
              | String b (String u (String g1 (String g2 (String g3 (String g4 r3))))) =>
                match (if Ascii.eqb b backslash && Ascii.eqb u "u"
                       then getu4 g1 g2 g3 g4 else None) with
                | Some rr1 =>
                  if (DecodeRune rr rr1 =? ReplacementChar)%N
                  then prepend (EncodeRune ReplacementChar) (unquote (r2 +:+ t))
                  else prepend (EncodeRune (DecodeRune rr rr1)) (unquote r3)
                | None => prepend (EncodeRune ReplacementChar) (unquote (r2 +:+ t))
                end
              | _ => prepend (EncodeRune ReplacementChar) (unquote (r2 +:+ t))
              end = Some (str, r +:+ t)).
    { intros Hform Hu'. rewrite surrogate_tail.
      - eapply prepend_app; [exact Hu'|]. intros str' Hs. by apply IH; [apply Hlen|].
      - intros g1 g2 g3 g4 r3 Heq.
        destruct (unquote r2) as [[str' r']|] eqn:E; [|done].
        destruct (unquote_escape_prefix _ _ _ _ _ _ _ _ _ E Heq) as [r3' ->].
        by destruct (Hform g1 g2 g3 g4 r3'). }
    destruct r2 as [|b [|u [|g1 [|g2 [|g3 [|g4 r3]]]]]];
      try (apply Hshort; [done | exact Hu]).
    destruct (Ascii.eqb_spec b backslash) as [->|Hb];
      [destruct (Ascii.eqb_spec u "u") as [->|Hu']|].
    + clear Hshort. rewrite !app_cons. cbv beta match.
      rewrite ?Ascii.eqb_refl. cbn [andb] in Hu |- *. cbv beta match in Hu |- *.
      destruct (getu4 g1 g2 g3 g4) as [rr1|].
      * destruct (DecodeRune rr rr1 =? ReplacementChar)%N.
        -- eapply prepend_app; [exact Hu|]. intros str' Hs.
           exact (IH _ str' r t (Hlen _ (le_n _)) Hs).
        -- eapply prepend_app; [exact Hu|]. intros str' Hs.
           apply IH; [|done]. apply Hlen. unfold len; simpl; lia.
      * eapply prepend_app; [exact Hu|]. intros str' Hs.
        exact (IH _ str' r t (Hlen _ (le_n _)) Hs).
    + apply Hshort; [intros ? ? ? ? ? [=]; done|].
      revert Hu. destruct (Ascii.eqb_spec u "u"); [done|]. by rewrite andb_false_r.
    + apply Hshort; [intros ? ? ? ? ? [=]; done|].
      revert Hu. by destruct (Ascii.eqb_spec b backslash).
Qed.

Lemma unquote_app s str r t :
  unquote s = Some (str, r) -> unquote (s +:+ t) = Some (str, r +:+ t).
Proof. by apply (unquote_app_aux (len s)). Qed.

(** A run of digits followed by something is not extended by what comes
    after that. *)
Lemma digits_app s ds r t :
  digits s = (ds, r) -> r <> "" -> digits (s +:+ t) = (ds, r +:+ t).
Proof.
  revert ds r. induction s as [|c s IH]; intros ds r.
  - by intros [= <- <-].
  - rewrite app_cons. simpl. destruct (isDigit c).
    + destruct (digits s) as [ds' r'] eqn:E. intros [= <- <-] Hr.
      by rewrite (IH _ _ eq_refl Hr).
    + by intros [= <- <-].
Qed.

Lemma number_exponent_app (f : string -> string) (lit0 r5 lit r t : string) :
  match r5 with
  | String e r6 =>
    if Ascii.eqb e "e" || Ascii.eqb e "E" then
      let '(es, r7) :=
        match starts_with "+" r6 with
        | Some r => ("+", r)
        | None =>
          match starts_with "-" r6 with
          | Some r => ("-", r)
          | None => ("", r6)
          end
        end in
      let '(ds, r8) := digits r7 in
      if String.eqb ds "" then None
      else Some (f (String e es +:+ ds), r8)
    else Some (lit0, r5)
  | EmptyString => Some (lit0, r5)
  end = Some (lit, r) ->
  r <> "" ->
  match r5 +:+ t with
  | String e r6 =>
    if Ascii.eqb e "e" || Ascii.eqb e "E" then
      let '(es, r7) :=
        match starts_with "+" r6 with
        | Some r => ("+", r)
        | None =>
          match starts_with "-" r6 with
          | Some r => ("-", r)
          | None => ("", r6)
          end
        end in
      let '(ds, r8) := digits r7 in
      if String.eqb ds "" then None
      else Some (f (String e es +:+ ds), r8)
    else Some (lit0, r5 +:+ t)
  | EmptyString => Some (lit0, r5 +:+ t)
  end = Some (lit, r +:+ t).
Proof.
  intros Hn Hr.
  destruct r5 as [|e r6]; [by injection Hn as <- <-|].
  rewrite app_cons. cbv beta match.
  destruct (Ascii.eqb e "e" || Ascii.eqb e "E"); [|by injection Hn as <- <-].
  destruct r6 as [|y r6']; [done|].
  rewrite app_cons. simpl starts_with in Hn |- *.
  assert (Hd : forall r7,
             (let '(ds, r8) := digits r7 in
              if String.eqb ds "" then None
              else Some (f (String e
                           (if Ascii.eqb y "+" then "+"
                            else if Ascii.eqb y "-" then "-" else "") +:+ ds), r8))
             = Some (lit, r) ->
             (let '(ds, r8) := digits (r7 +:+ t) in
              if String.eqb ds "" then None
              else Some (f (String e
                           (if Ascii.eqb y "+" then "+"
                            else if Ascii.eqb y "-" then "-" else "") +:+ ds), r8))
             = Some (lit, r +:+ t)).
  { intros r7. destruct (digits r7) as [ds r8] eqn:E.
    destruct (String.eqb ds "") eqn:Eds; [done|]. intros [= <- <-].
    by rewrite (digits_app _ _ _ t E Hr), Eds. }
  destruct (Ascii.eqb y "+"); [by apply Hd|].
  destruct (Ascii.eqb y "-"); [by apply Hd|].
  rewrite <- app_cons. by apply Hd.
Qed.

Lemma number_fraction_app (sign ip r2 lit r t : string) :
  match
    match starts_with "." r2 with
    | Some r3 =>
      let '(fs, r4) := digits r3 in
      if String.eqb fs "" then None else Some ("." +:+ fs, r4)
    | None => Some ("", r2)
    end
  with
  | None => None
  | Some (fp, r5) =>
    match r5 with
    | String e r6 =>
      if Ascii.eqb e "e" || Ascii.eqb e "E" then
        let '(es, r7) :=
          match starts_with "+" r6 with
          | Some r => ("+", r)
          | None =>
            match starts_with "-" r6 with
            | Some r => ("-", r)
            | None => ("", r6)
            end
          end in
        let '(ds, r8) := digits r7 in
        if String.eqb ds "" then None
        else Some (sign +:+ ip +:+ fp +:+ String e es +:+ ds, r8)
      else Some (sign +:+ ip +:+ fp, r5)
    | EmptyString => Some (sign +:+ ip +:+ fp, r5)
    end
  end = Some (lit, r) ->
  r <> "" ->
  match
    match starts_with "." (r2 +:+ t) with
    | Some r3 =>
      let '(fs, r4) := digits r3 in
      if String.eqb fs "" then None else Some ("." +:+ fs, r4)
    | None => Some ("", r2 +:+ t)
    end
  with
  | None => None
  | Some (fp, r5) =>
    match r5 with
    | String e r6 =>
      if Ascii.eqb e "e" || Ascii.eqb e "E" then
        let '(es, r7) :=
          match starts_with "+" r6 with
          | Some r => ("+", r)
          | None =>
            match starts_with "-" r6 with
            | Some r => ("-", r)
            | None => ("", r6)
            end
          end in
        let '(ds, r8) := digits r7 in
        if String.eqb ds "" then None
        else Some (sign +:+ ip +:+ fp +:+ String e es +:+ ds, r8)
      else Some (sign +:+ ip +:+ fp, r5)
    | EmptyString => Some (sign +:+ ip +:+ fp, r5)
    end
  end = Some (lit, r +:+ t).
Proof.
  intros Hn Hr.
  destruct r2 as [|x r2']. { by injection Hn as <- <-. }
  rewrite app_cons. simpl starts_with in Hn |- *.
  destruct (Ascii.eqb x ".").
  - destruct (digits r2') as [fs r4] eqn:E.
    destruct (String.eqb fs "") eqn:Efs; [done|].
    assert (r4 <> "") as Hr4. { intros ->. by injection Hn as <- <-. }
    rewrite (digits_app _ _ _ t E Hr4), Efs.
    exact (number_exponent_app (fun x => sign +:+ ip +:+ ("." +:+ fs) +:+ x)
             (sign +:+ ip +:+ ("." +:+ fs)) r4 lit r t Hn Hr).
  - exact (number_exponent_app (fun x => sign +:+ ip +:+ "" +:+ x)
             (sign +:+ ip +:+ "") (String x r2') lit r t Hn Hr).
Qed.

(** A number literal followed by something reads the same whatever comes
    after that. *)
Lemma number_app s lit r t :
  number s = Some (lit, r) -> r <> "" -> number (s +:+ t) = Some (lit, r +:+ t).
Proof.
  unfold number. intros Hn Hr.
  assert (Hbody : forall sign s1,
    match s1 with
    | String c r1 =>
      if isDigit c then
        let '(ip, r2) :=
          if Ascii.eqb c "0" then ("0", r1)
          else let '(ds, r) := digits r1 in (String c ds, r) in
        let frac :=
          match starts_with "." r2 with
          | Some r3 =>
            let '(fs, r4) := digits r3 in
            if String.eqb fs "" then None else Some ("." +:+ fs, r4)
          | None => Some ("", r2)
          end in
        match frac with
        | None => None
        | Some (fp, r5) =>
          match r5 with
          | String e r6 =>
            if Ascii.eqb e "e" || Ascii.eqb e "E" then
              let '(es, r7) :=
                match starts_with "+" r6 with
                | Some r => ("+", r)
                | None =>
                  match starts_with "-" r6 with
                  | Some r => ("-", r)
                  | None => ("", r6)
                  end
                end in
              let '(ds, r8) := digits r7 in
              if String.eqb ds "" then None
              else Some (sign +:+ ip +:+ fp +:+ String e es +:+ ds, r8)
            else Some (sign +:+ ip +:+ fp, r5)
          | EmptyString => Some (sign +:+ ip +:+ fp, r5)
          end
        end
      else None
    | EmptyString => None
    end = Some (lit, r) ->
    match s1 +:+ t with
    | String c r1 =>
      if isDigit c then
        let '(ip, r2) :=
          if Ascii.eqb c "0" then ("0", r1)
          else let '(ds, r) := digits r1 in (String c ds, r) in
        let frac :=
          match starts_with "." r2 with
          | Some r3 =>
            let '(fs, r4) := digits r3 in
            if String.eqb fs "" then None else Some ("." +:+ fs, r4)
          | None => Some ("", r2)
          end in
        match frac with
        | None => None
        | Some (fp, r5) =>
          match r5 with
          | String e r6 =>
            if Ascii.eqb e "e" || Ascii.eqb e "E" then
              let '(es, r7) :=
                match starts_with "+" r6 with
                | Some r => ("+", r)
                | None =>
                  match starts_with "-" r6 with
                  | Some r => ("-", r)
                  | None => ("", r6)
                  end
                end in
              let '(ds, r8) := digits r7 in
              if String.eqb ds "" then None
              else Some (sign +:+ ip +:+ fp +:+ String e es +:+ ds, r8)
            else Some (sign +:+ ip +:+ fp, r5)
          | EmptyString => Some (sign +:+ ip +:+ fp, r5)
          end
        end
      else None
    | EmptyString => None
    end = Some (lit, r +:+ t)).
  { intros sign s1 Hb. destruct s1 as [|c r1]; [done|].
    rewrite app_cons. cbv beta match.
    destruct (isDigit c); [|done].
    destruct (Ascii.eqb c "0").
    - by apply number_fraction_app.
    - destruct (digits r1) as [ds r2] eqn:E.
      assert (r2 <> "") as Hr2. { intros ->. by injection Hb as <- <-. }
      rewrite (digits_app _ _ _ t E Hr2).
      by apply number_fraction_app. }
  destruct s as [|c0 s0]; [done|].
  rewrite app_cons. simpl starts_with in Hn |- *.
  destruct (Ascii.eqb c0 "-").
  - exact (Hbody "-" s0 Hn).
  - exact (Hbody "" (String c0 s0) Hn).
Qed.

Lemma literal_app lit v s v' r t :
  literal lit v s = Some (v', r) -> literal lit v (s +:+ t) = Some (v', r +:+ t).
Proof.
  unfold literal. destruct (HasPrefix s lit) eqn:E; [|done].
  intros [= <- <-]. apply HasPrefix_inv in E.
  remember (from s (len lit)) as r0 eqn:Er. clear Er. subst s.
  by rewrite app_assoc_s, HasPrefix_app, from_app.
Qed.

Lemma skipws_cons_app s c r t :
  skipws s = String c r -> skipws (s +:+ t) = String c (r +:+ t).
Proof. intros E. rewrite skipws_app; [by rewrite E | by rewrite E]. Qed.

Lemma starts_with_skipws_app c s r t :
  starts_with c (skipws s) = Some r ->
  starts_with c (skipws (s +:+ t)) = Some (r +:+ t).
Proof.
  intros E. destruct (skipws s) as [|c' r'] eqn:Es; [done|].
  rewrite (skipws_cons_app _ _ _ t Es).
  by apply (starts_with_app c (String c' r')).
Qed.

Lemma starts_with_skipws_None c s t :
  skipws s <> "" ->
  starts_with c (skipws s) = None ->
  starts_with c (skipws (s +:+ t)) = None.
Proof.
  intros Hs E. rewrite skipws_app by done. by apply starts_with_app_None.
Qed.

(** What a parse returns does not depend on what follows the value, once
    the value is known to have ended: always for a value other than a
    number, and for a number when something follows it. *)
Lemma parse_app f t :
  (forall s v r,
      parse_value f s = Some (v, r) -> r <> "" \/ is_Number v = false ->
      parse_value f (s +:+ t) = Some (v, r +:+ t))
  /\ (forall s acc v r,
        parse_elements f s acc = Some (v, r) ->
        parse_elements f (s +:+ t) acc = Some (v, r +:+ t))
  /\ (forall s acc v r,
        parse_members f s acc = Some (v, r) ->
        parse_members f (s +:+ t) acc = Some (v, r +:+ t)).
Proof.
  induction f as [|f (IHv & IHe & IHm)]; [done|].
  assert (Hws_v : forall s v r, parse_value f s = Some (v, r) -> skipws s <> "").
  { intros s v r Hp Hs. destruct f; [done|]. simpl in Hp. unfold value_step in Hp.
    by rewrite Hs in Hp. }
  assert (Hws_e : forall s acc v r,
             parse_elements f s acc = Some (v, r) -> skipws s <> "").
  { intros s acc v r Hp. destruct f; [done|]. simpl in Hp.
    unfold elements_step in Hp.
    destruct (parse_value f s) as [[v1 r1]|] eqn:Ev; [|done].
    intros Hs. destruct f; [done|]. simpl in Ev. unfold value_step in Ev.
    by rewrite Hs in Ev. }
  assert (Hws_m : forall s acc v r,
             parse_members f s acc = Some (v, r) -> skipws s <> "").
  { intros s acc v r Hp Hs. destruct f; [done|]. simpl in Hp.
    unfold members_step in Hp. by rewrite Hs in Hp. }
  split; [|split].
  - intros s v r Hp Hr. simpl in Hp |- *. unfold value_step in Hp |- *.
    destruct (skipws s) as [|c r0] eqn:Es; [done|].
    rewrite (skipws_cons_app _ _ _ t Es).
    destruct (Ascii.eqb c "{").
    { destruct (starts_with "}" (skipws r0)) as [r'|] eqn:E1.
      - injection Hp as <- <-. by rewrite (starts_with_skipws_app _ _ _ t E1).
      - rewrite (starts_with_skipws_None _ _ t (Hws_m _ _ _ _ Hp) E1).
        by apply IHm. }
    destruct (Ascii.eqb c "[").
    { destruct (starts_with "]" (skipws r0)) as [r'|] eqn:E1.
      - injection Hp as <- <-. by rewrite (starts_with_skipws_app _ _ _ t E1).
      - rewrite (starts_with_skipws_None _ _ t (Hws_e _ _ _ _ Hp) E1).
        by apply IHe. }
    destruct (Ascii.eqb c dquote).
    { destruct (unquote r0) as [[str r']|] eqn:E1; [|done].
      injection Hp as <- <-. by rewrite (unquote_app _ _ _ t E1). }
    destruct (Ascii.eqb c "t").
    { rewrite <- app_cons. by apply literal_app. }
    destruct (Ascii.eqb c "f").
    { rewrite <- app_cons. by apply literal_app. }
    destruct (Ascii.eqb c "n").
    { rewrite <- app_cons. by apply literal_app. }
    destruct (number (String c r0)) as [[lit r']|] eqn:E1; [|done].
    injection Hp as <- <-. destruct Hr as [Hr|Hr]; [|done].
    rewrite <- app_cons. by rewrite (number_app _ _ _ t E1 Hr).
  - intros s acc v r Hp. simpl in Hp |- *. unfold elements_step in Hp |- *.
    destruct (parse_value f s) as [[v1 r1]|] eqn:Ev; [|done].
    destruct (skipws r1) as [|c r'] eqn:Es; [done|].
    assert (r1 <> "") as Hr1 by (by intros ->).
    rewrite (IHv _ _ _ Ev (or_introl Hr1)), (skipws_cons_app _ _ _ t Es).
    destruct (Ascii.eqb c ","); [by apply IHe|].
    destruct (Ascii.eqb c "]"); [|done]. by injection Hp as <- <-.
  - intros s acc v r Hp. simpl in Hp |- *. unfold members_step in Hp |- *.
    destruct (starts_with dquote (skipws s)) as [r0|] eqn:E0; [|done].
    rewrite (starts_with_skipws_app _ _ _ t E0).
    destruct (unquote r0) as [[k r1]|] eqn:E1; [|done].
    rewrite (unquote_app _ _ _ t E1).
    destruct (starts_with ":" (skipws r1)) as [r2|] eqn:E2; [|done].
    rewrite (starts_with_skipws_app _ _ _ t E2).
    destruct (parse_value f r2) as [[v1 r3]|] eqn:Ev; [|done].
    destruct (skipws r3) as [|c r4] eqn:Es; [done|].
    assert (r3 <> "") as Hr3 by (by intros ->).
    rewrite (IHv _ _ _ Ev (or_introl Hr3)), (skipws_cons_app _ _ _ t Es).
    destruct (Ascii.eqb c ","); [by apply IHm|].
    destruct (Ascii.eqb c "}"); [|done]. by injection Hp as <- <-.
Qed.

Lemma len_app_le s t : (len s <= len (s +:+ t))%nat.
Proof. rewrite len_app. lia. Qed.

(** The first value of a text is the first value of every extension of the
    text, unless it is a number that ends with the text. *)
Lemma parse_extend s t v r :
  parse s = Some (v, r) -> r <> "" \/ is_Number v = false ->
  parse (s +:+ t) = Some (v, r +:+ t).
Proof.
  intros Hp Hr. unfold parse.
  apply (parse_app _ t); [|done].
  rewrite parse_fuel_enough; [done|]. pose proof (len_app_le s t). lia.
Qed.

Lemma parse_document_extended first rest members :
  JSON.parse_document first = Some (JSON.Object members) ->
  JSON.skipws rest <> "" ->
  JSON.parse_document (first +:+ rest) = None.
Proof.
  unfold parse_document. intros Hp Hrest.
  destruct (parse first) as [[v r]|] eqn:E; [|done].
  destruct (String.eqb_spec (skipws r) "") as [Hr|]; [|done].
  injection Hp as ->.
  rewrite (parse_extend _ rest _ _ E (or_intror eq_refl)).
  rewrite (skipws_blank_app _ _ Hr).
  by destruct (String.eqb_spec (skipws rest) "").
Qed.

End Frame.

(** X18. The validation reply is read by a decoder, which stops after the
    first JSON value: when the body starts with an object, whatever
    follows it changes neither the decoded reply nor the verdict. *)
Theorem X18_validation_reply_read_to_first_value
  (status : Z) (first rest : string) (members : list (string * JSON.value)) :
  JSON.parse_first first = Some (JSON.Object members) ->
  ValidationResponse.Decode (first +:+ rest) = ValidationResponse.Decode first
  /\ (approving (inr (http.mkResponse status (first +:+ rest)))
      <-> approving (inr (http.mkResponse status first))).
Proof.
  intros Hp.
  assert (Hd : ValidationResponse.Decode (first +:+ rest)
               = ValidationResponse.Decode first).
  { unfold ValidationResponse.Decode, Decode.Decode, parse_first in *.
    destruct (parse first) as [[v r]|] eqn:E; [|done]. injection Hp as ->.
    by rewrite (parse_extend _ rest _ _ E (or_intror eq_refl)). }
  split; [exact Hd|].
  rewrite !approving_dec. simpl. by rewrite Hd.
Qed.

(** X18 on an approving reply with trailing bytes. *)
Lemma X18_witness :
  ValidationResponse.Decode (jq "{'valid':true}" +:+ " trailing")
  = ValidationResponse.Decode (jq "{'valid':true}")
  /\ (approving (inr (http.mkResponse 200 (jq "{'valid':true}" +:+ " trailing")))
      <-> approving (inr (http.mkResponse 200 (jq "{'valid':true}")))).
Proof.
  refine (X18_validation_reply_read_to_first_value 200 (jq "{'valid':true}")
            " trailing" [("valid", JSON.Bool true)] _).
  vm_compute. reflexivity.
Defined.

(** X19. Model and token extraction decode the whole body as one
    document.  A body holding a JSON object followed by anything other
    than white space (a second object, as in a streamed reply of several
    lines) decodes as none of the shapes: the token counts are (0, 0) and
    the model is empty, on every path. *)
Theorem X19_second_document_voids_extraction
  (path first rest : string) (members : list (string * JSON.value)) :
  JSON.parse_document first = Some (JSON.Object members) ->
  JSON.skipws rest <> "" ->
  getTokenCountsFromResponse path (first +:+ rest) = (0, 0)
  /\ getModelFromRequest path (first +:+ rest) = "".
Proof.
  intros Hp Hrest.
  pose proof (parse_document_extended _ _ _ Hp Hrest) as Hnone.
  split.
  - apply tokens_zero_when_undecodable.
    + unfold ChatResponse.Unmarshal, Decode.Unmarshal. by rewrite Hnone.
    + unfold GenerateResponse.Unmarshal, Decode.Unmarshal. by rewrite Hnone.
    + unfold EmbedResponse.Unmarshal, Decode.Unmarshal. by rewrite Hnone.
  - unfold getModelFromRequest, ChatRequest.Unmarshal, GenerateRequest.Unmarshal,
      EmbedRequest.Unmarshal, CreateRequest.Unmarshal, Decode.Unmarshal.
    rewrite Hnone. simpl.
    by repeat destruct (HasSuffix _ _).
Qed.

(** X19 on a reply of two lines. *)
Lemma X19_witness :
  getTokenCountsFromResponse "/api/chat"
    (jq "{'done':false,'prompt_eval_count':10,'eval_count':20}"
     +:+ jq "{'done':true}")
  = (0, 0)
  /\ getModelFromRequest "/api/chat"
       (jq "{'done':false,'prompt_eval_count':10,'eval_count':20}"
        +:+ jq "{'done':true}")
     = "".
Proof.
  refine (X19_second_document_voids_extraction "/api/chat"
            (jq "{'done':false,'prompt_eval_count':10,'eval_count':20}")
            (jq "{'done':true}")
            [("done", JSON.Bool false);
             ("prompt_eval_count", JSON.Number "10");
             ("eval_count", JSON.Number "20")] _ _).
  - vm_compute. reflexivity.
  - vm_compute. discriminate.
Defined.

(** ** Token counts and the request log line *)




Section Logger.
Context {Σ : Type} `{World Σ}.

(** X21. [logger.RequestLog] writes one line with the message
    [METHOD PATH STATUS], at level ERROR exactly when the status is 400 or
    more, WARNING exactly from 300 to 399, INFO exactly below 300.  Its
    fields are the caller's with [method], [path], [remote_addr],
    [status_code] and [duration_ms] (whole milliseconds, rounded towards
    zero) set by the logger, replacing what the caller gave under these
    names. *)
Theorem X21_request_log_line_of_logger
  (method path remoteAddr : string) (statusCode duration : Z)
  (fields : gmap string JSON.value) (st : State Σ) :
  exists level fields',
    logger_RequestLog method path remoteAddr statusCode duration fields st
    = mkOutcome (Ok tt) (with_world st (time_Now (world st)).2)
        [ELog (time_Now (world st)).1 level
           (method +:+ " " +:+ path +:+ " " +:+ itoa statusCode) fields']
    /\ (level = ERROR <-> 400 <= statusCode)
    /\ (level = WARNING <-> 300 <= statusCode < 400)
    /\ (level = INFO <-> statusCode < 300)
    /\ fields' !! "method" = Some (JSON.Str method)
    /\ fields' !! "path" = Some (JSON.Str path)
    /\ fields' !! "remote_addr" = Some (JSON.Str remoteAddr)
    /\ fields' !! "status_code" = Some (JSON.Number (itoa statusCode))
    /\ fields' !! "duration_ms"
       = Some (JSON.Number (itoa (Z.quot duration 1000000)))
    /\ (forall key,
          ~ In key ["method"; "path"; "remote_addr"; "status_code"; "duration_ms"] ->
          fields' !! key = fields !! key).
Proof.
  unfold logger_RequestLog. rewrite logger_Log_run.
  eexists _, _. split; [reflexivity|].
  split_and!.
  - destruct (400 <=? statusCode) eqn:E4; [|destruct (300 <=? statusCode) eqn:E3];
      split; (done || lia).
  - destruct (400 <=? statusCode) eqn:E4; [|destruct (300 <=? statusCode) eqn:E3];
      split; (done || lia).
  - destruct (400 <=? statusCode) eqn:E4; [|destruct (300 <=? statusCode) eqn:E3];
      split; (done || lia).
  - repeat (rewrite lookup_insert_ne by done); by rewrite lookup_insert_eq.
  - repeat (rewrite lookup_insert_ne by done); by rewrite lookup_insert_eq.
  - repeat (rewrite lookup_insert_ne by done); by rewrite lookup_insert_eq.
  - repeat (rewrite lookup_insert_ne by done); by rewrite lookup_insert_eq.
  - by rewrite lookup_insert_eq.
  - intros key Hk. rewrite !lookup_insert_ne; [done|..];
      intros <-; apply Hk; simpl; tauto.
Qed.

End Logger.

(** ** Log lines of a request, and the [.env] file *)

Section ValidationLines.
Context {Σ : Type} `{World Σ}.


End ValidationLines.

Section LogLines.
Context {Σ : Type} `{World Σ} {W : Type} `{http.ResponseWriter W}.


End LogLines.


Section DotEnv.
Context {Σ : Type} `{World Σ}.

Lemma validateExternalServices_config (st : State Σ) :
  config (final (validateExternalServices st)) = config st.
Proof.
  destruct (validateExternalServices_run st) as (err & σ & evs & E & _).
  by rewrite E.
Qed.

(** X22. The [.env] file is optional.  In production mode
    ([GO_ENV=production]) [main] does not load it: the configuration is
    the one [loadConfig] reads from the environment as it is.  Otherwise
    it is loaded before the configuration is read; a failure to load it is
    logged as the first line, a warning with the error, and the run goes
    on to read the configuration. *)
Theorem X22_dotenv_is_optional (st : State Σ) :
  let load := godotenv_Load (world st) in
  (os_Getenv "GO_ENV" (world st) = "production" ->
   config (final (main st)) = config (final (loadConfig st)))
  /\ (os_Getenv "GO_ENV" (world st) <> "production" ->
      load.1 = None ->
      config (final (main st))
      = config (final (loadConfig (with_world st load.2))))
  /\ (os_Getenv "GO_ENV" (world st) <> "production" ->
      forall e, load.1 = Some e ->
      exists t rest,
        events (main st)
        = ELog t WARNING "No .env file found or error loading .env"
            (<["error" := JSON.Str e]> ∅) :: rest
        /\ rest <> []
        /\ config (final (main st))
           = config (final (loadConfig (with_world st (time_Now load.2).2)))).
Proof.
  intros load. subst load.
  assert (Hrest : forall (st1 : State Σ),
             let o := ((loadConfig ;;;
                       err <- validateExternalServices ;;
                       match err with
                       | Some e =>
                         logger_Error "Failed to validate external services" (Some e) ∅ ;;;
                         os_Exit 1
                       | None =>
                         http_HandleFunc "/" ;;;
                         cfg <- get_config ;;
                         logger_Info "Starting Ollama proxy server"
                           (<["port" := JSON.Str (proxyPort cfg)]> ∅) ;;;
                         err <- ListenAndServe (":" +:+ proxyPort cfg) ;;
                         logger_Error "Failed to start server" (Some err) ∅ ;;;
                         os_Exit 1
                       end) : M Σ unit) st1 in
             config (final o) = config (final (loadConfig st1)) /\ events o <> []).
  { intros st1.
    set (P := fun o : Outcome Σ unit =>
                config (final o) = config (final (loadConfig st1)) /\ events o <> []).
    change (P (((loadConfig ;;;
                err <- validateExternalServices ;;
                match err with
                | Some e =>
                  logger_Error "Failed to validate external services" (Some e) ∅ ;;;
                  os_Exit 1
                | None =>
                  http_HandleFunc "/" ;;;
                  cfg <- get_config ;;
                  logger_Info "Starting Ollama proxy server"
                    (<["port" := JSON.Str (proxyPort cfg)]> ∅) ;;;
                  err <- ListenAndServe (":" +:+ proxyPort cfg) ;;
                  logger_Error "Failed to start server" (Some err) ∅ ;;;
                  os_Exit 1
                end) : M Σ unit) st1)).
    destruct (loadConfig_run st1) as [cfg Ec].
    rewrite (bind_run _ _ _ _ _ _ Ec), after_nil.
    destruct (validateExternalServices_run (mkState (world st1) cfg (reverseProxy st1)))
      as (err & σ & evs & E & _).
    rewrite (bind_run _ _ _ _ _ _ E).
    destruct err as [e|].
    - unfold logger_Error. rewrite bind_Log. subst P.
      unfold os_Exit, after; simpl. rewrite Ec. simpl. split; [done|].
      by destruct evs.
    - unfold http_HandleFunc, logger_Info, ListenAndServe.
      rewrite bind_emit, bind_get_config, bind_Log, bind_bind, bind_ask, bind_bind,
        bind_emit, bind_ret.
      unfold logger_Error. rewrite bind_Log. subst P.
      unfold os_Exit, after; simpl. rewrite Ec. simpl. split; [done|].
      by destruct evs. }
  unfold main. rewrite bind_read.
  destruct (String.eqb_spec (os_Getenv "GO_ENV" (world st)) "production") as [Eg|Eg];
    cbn [negb]; cbv iota.
  - rewrite bind_ret. split_and!; try done. intros _. apply Hrest.
  - rewrite bind_bind, bind_ask.
    destruct (godotenv_Load (world st)).1 as [e|] eqn:El.
    + unfold logger_Warning. rewrite bind_Log.
      split_and!; try done. intros _ e' [= <-].
      destruct (Hrest (with_world (with_world st (godotenv_Load (world st)).2)
                         (time_Now (godotenv_Load (world st)).2).2))
        as [Hc He].
      eexists _, _. split; [reflexivity|]. split; [exact He|]. exact Hc.
    + rewrite bind_ret. split_and!; try done. intros _ _. apply Hrest.
Qed.

End DotEnv.

(** X22 on a start in production mode. *)
Lemma X22_witness :
  Scenario.getenv "GO_ENV" (world Cases.production) = "production"
  /\ config (final (main Cases.production))
     = config (final (loadConfig Cases.production)).
Proof.
  split; [reflexivity|].
  exact (proj1 (X22_dotenv_is_optional Cases.production) eq_refl).
Defined.

(** ** What the client receives *)

Section Replies.
Context {Σ : Type} `{World Σ} {W : Type} `{http.ResponseWriter W}.

(** X24. What the handler writes to the client.  A run that returns
    leaves the client's writer in one of four states: the 401 page
    [Unauthorized: Missing API key] (no key, nothing called), the 400 page
    [Error reading request body] (nothing called), the 401 page
    [Unauthorized: Invalid request] (validation not approved, whatever the
    reason, and no backend call), or exactly the writes the reverse proxy
    made (validation approved, one backend call).  The handler adds
    nothing of its own to what the proxy wrote. *)
Theorem X24_handler_replies (w w' : W) (r : http.Request) (st : State Σ) :
  result (proxyHandler w r st) = Ok w' ->
  let evs := events (proxyHandler w r st) in
  (w' = http.Error w "Unauthorized: Missing API key" http.StatusUnauthorized
   /\ apiKey_of (config st) r = "" /\ client_calls evs = [] /\ backend_calls evs = [])
  \/ (w' = http.Error w "Error reading request body" http.StatusBadRequest
      /\ (exists err, http.Body r = http.ReadErr err)
      /\ client_calls evs = [] /\ backend_calls evs = [])
  \/ (w' = http.Error w "Unauthorized: Invalid request" http.StatusUnauthorized
      /\ ~ validation_approved evs /\ backend_calls evs = [])
  \/ (exists fwd ops,
        w' = http.apply_ops ops w
        /\ validation_approved evs
        /\ backend_calls evs = [EServeHTTP fwd ops]).
Proof.
  intros Hr evs. subst evs.
  destruct (proxyHandler_run w r st)
    as [t f Hk Hr' He
       |msg _ _ Hr' He
       |err t f _ _ Hb Hr' He
       |b' evs t f _ _ _ Hv Hr' He
       |b' evs msg _ _ _ Hv _ Hr' He
       |b' evs tgt ops t l m f dur _ _ _ Hv _ Hr' He];
    rewrite Hr' in Hr; try done; injection Hr as <-; rewrite He.
  - left. done.
  - right; left. split_and!; try done. by exists err.
  - right; right; left.
    destruct (validation_no_backend _ _ _ _ Hv) as [Hnb _].
    split_and!; try done.
    + rewrite validation_approved_app by done.
      by intros ?%(validation_verdict _ _ _ _ Hv).
    + unfold backend_calls in *. by rewrite filter_snoc, Hnb.
  - right; right; right.
    destruct (validation_no_backend _ _ _ _ Hv) as [Hnb _].
    eexists _, ops. split_and!; try done.
    + rewrite validation_approved_app by done.
      by apply (validation_verdict _ _ _ _ Hv).
    + unfold backend_calls in *. by rewrite List.filter_app, Hnb.
Qed.

End Replies.

(** X24 on the rate-limited chat request. *)
Lemma X24_witness :
  result Scenario.rate_limited
  = Ok (http.Error http.NewRecorder "Unauthorized: Invalid request"
          http.StatusUnauthorized)
  /\ backend_calls (events Scenario.rate_limited) = [].
Proof.
  assert (Hr : result Scenario.rate_limited
               = Ok (http.Error http.NewRecorder "Unauthorized: Invalid request"
                       http.StatusUnauthorized)) by (vm_compute; reflexivity).
  split; [exact Hr|].
  destruct (X24_handler_replies _ _ _ _ Hr)
    as [(_ & _ & _ & Hb)|[(_ & _ & _ & Hb)|[(_ & _ & Hb)|(fwd & ops & _ & Ha & _)]]];
    try exact Hb.
  exfalso. apply validation_approvedb_spec in Ha. vm_compute in Ha. discriminate.
Defined.
